(** * ulanzi-election: the transformation pipeline of [ulanzi_election_display.py]

    The development follows the Python module function by function:
    [process_election_data] (the parser), [generate_bar_chart] and
    [generate_text_message] (the renderer) and [generate_ulanzi_packet]
    (the assembler).

    Modelling conventions.
    - The document returned by [response.json()] is a value of type [json].
      A Python [dict] is the association list of its items, read with
      [assoc]; a Python exception is the [Raise] outcome of the [result]
      monad, with the exception class as payload.
    - Python numbers ([int] and [float]) are exact rationals ([Q]): the
      rounding of binary floating point is not part of the model, and what
      is stated about the width of a bar is what holds of it however the
      quotient is rounded.
    - The dataclass [PartyResult] is a typed record, as it is declared
      ([name: str], [percentage: float], [color: str]), for the renderer
      and the loop.  Python does not enforce the declaration, so the parser
      is embedded a second time on the values [json.loads] returns, in
      module [Dynamic]; what is stated about the parties of every snapshot
      is stated there, and [typed_parser_followed] relates the two.
    - [dateutil.parser.parse], [datetime.astimezone] and the wall clock are
      the environment: they are the fields of the class [DateTime] and the
      argument [now].  So is [list.sort] on untyped values, the class
      [Dynamic.ListSort]. *)

From Stdlib Require Import List String Ascii Bool Arith ZArith QArith Qround Lia.
From Stdlib Require Import Sorting.Sorted Sorting.Permutation.
Import ListNotations.

Local Close Scope Q_scope.
Local Open Scope string_scope.
Local Open Scope list_scope.

(** ** Python outcomes *)

(** The exception classes the pipeline can raise.  [DeclaredTypeMismatch] is
    not a Python exception: Python does not enforce the annotations of a
    dataclass, so a document that carries another JSON type where
    [PartyResult] declares [str] or [float] lets the Python program go on
    with an ill-typed record.  Such runs are outside the typed model, which
    stops them with this outcome; module [Dynamic] follows them. *)
Inductive exn : Set :=
  | AttributeError
  | IndexError
  | KeyError
  | TypeError
  | ParserError
  | ZeroDivisionError
  | ValueError
  | OverflowError
  | DeclaredTypeMismatch.

Inductive result (A : Type) : Type :=
  | Ok (a : A)
  | Raise (e : exn).

Arguments Ok {A} a.
Arguments Raise {A} e.

Definition bind {A B : Type} (m : result A) (k : A -> result B) : result B :=
  match m with
  | Ok a => k a
  | Raise e => Raise e
  end.

Notation "x <- m ;; k" := (bind m (fun x => k))
  (at level 61, m at next level, right associativity).

(** ** JSON values as Python objects *)

#[warnings="-register-all"]
Inductive json : Type :=
  | JNull
  | JBool (b : bool)
  | JNum (q : Q)
  | JStr (s : string)
  | JArr (l : list json)
  | JObj (m : list (string * json)).

(** [d[k]] for a dict given by its items. *)
Fixpoint assoc (k : string) (m : list (string * json)) : option json :=
  match m with
  | [] => None
  | (k', v) :: m' => if String.eqb k k' then Some v else assoc k m'
  end.

(** [bool] is a subclass of [int]: [True == 1] and [False == 0]. *)
Definition bool_num (b : bool) : Q := if b then 1%Q else 0%Q.

(** Python's [==] on the values [json.loads] produces.  Dicts compare as
    maps: same size and the same value under every key. *)
Fixpoint py_eq (a b : json) {struct a} : bool :=
  match a, b with
  | JNull, JNull => true
  | JBool x, JBool y => Bool.eqb x y
  | JBool x, JNum q => Qeq_bool (bool_num x) q
  | JNum p, JBool y => Qeq_bool p (bool_num y)
  | JNum p, JNum q => Qeq_bool p q
  | JStr s, JStr t => String.eqb s t
  | JArr l, JArr l' =>
      (fix all2 (l : list json) (l' : list json) {struct l} : bool :=
         match l, l' with
         | [], [] => true
         | x :: xs, y :: ys => py_eq x y && all2 xs ys
         | _, _ => false
         end) l l'
  | JObj m, JObj m' =>
      Nat.eqb (List.length m) (List.length m') &&
      (fix sub (m : list (string * json)) {struct m} : bool :=
         match m with
         | [] => true
         | (k, v) :: r =>
             match assoc k m' with
             | Some v' => py_eq v v'
             | None => false
             end && sub r
         end) m
  | _, _ => false
  end.

(** Truth value of an object, as tested by [if x:]. *)
Definition truthy (v : json) : bool :=
  match v with
  | JNull => false
  | JBool b => b
  | JNum q => negb (Qeq_bool q 0%Q)
  | JStr s => negb (String.eqb s "")
  | JArr l => match l with [] => false | _ => true end
  | JObj m => match m with [] => false | _ => true end
  end.

(** [o.get(k, default)]: only a dict has the method. *)
Definition py_get (o : json) (k : string) (default : json) : result json :=
  match o with
  | JObj m => Ok (match assoc k m with Some v => v | None => default end)
  | _ => Raise AttributeError
  end.

(** [o[0]].  The keys of a dict read from JSON are strings, so [0] is never
    one of them. *)
Definition py_index0 (o : json) : result json :=
  match o with
  | JArr [] => Raise IndexError
  | JArr (x :: _) => Ok x
  | JStr EmptyString => Raise IndexError
  | JStr (String c _) => Ok (JStr (String c EmptyString))
  | JObj _ => Raise KeyError
  | _ => Raise TypeError
  end.

Fixpoint chars (s : string) : list json :=
  match s with
  | EmptyString => []
  | String c s' => JStr (String c EmptyString) :: chars s'
  end.

(** [iter(o)]: the elements a [for] loop or a generator visits. *)
Definition py_iter (o : json) : result (list json) :=
  match o with
  | JArr l => Ok l
  | JObj m => Ok (map (fun kv => JStr (fst kv)) m)
  | JStr s => Ok (chars s)
  | _ => Raise TypeError
  end.

(** ** Domain model *)

Record PartyResult : Type := mkPartyResult {
  name : string;
  percentage : Q;
  color : string
}.

(** The environment of the pipeline: [dateutil.parser.parse] ([None] when it
    raises [ParserError]) and [dt.astimezone()], the date-time in the zone of
    the machine the script runs on: [local_time] is its hour and minute, or
    the exception [astimezone] raises (an [OverflowError] when the date
    leaves the years 1 to 9999 on the way). *)
Class DateTime : Type := {
  datetime : Type;
  parser_parse : string -> option datetime;
  local_time : datetime -> result (nat * nat);
  local_time_lt : forall d h m, local_time d = Ok (h, m) -> (h < 24 /\ m < 60)%nat
}.

Record ProcessedElectionData `{DateTime} : Type := mkProcessed {
  timestamp : datetime;
  parties : list PartyResult
}.

(** The declared field types of [PartyResult]. *)
Definition as_str (v : json) : result string :=
  match v with
  | JStr s => Ok s
  | _ => Raise DeclaredTypeMismatch
  end.

Definition as_float (v : json) : result Q :=
  match v with
  | JNum q => Ok q
  | JBool b => Ok (bool_num b)
  | _ => Raise DeclaredTypeMismatch
  end.

(** ** [list.sort(key=lambda x: x.percentage, reverse=True)] *)

Definition Qltb (p q : Q) : bool := negb (Qle_bool q p).

(** One step of the insertion phase of [list.sort]: the new element goes
    behind every element that is not greater, found with [<] alone. *)
Fixpoint insert_right (x : PartyResult) (l : list PartyResult) : list PartyResult :=
  match l with
  | [] => [x]
  | y :: l' =>
      if Qltb (percentage x) (percentage y) then x :: y :: l'
      else y :: insert_right x l'
  end.

(** Ascending stable sort, the elements taken from left to right.  (CPython
    extends a run it finds by this insertion and, from 64 elements on, merges
    runs; a stable sort has one possible result.) *)
Definition list_sort (l : list PartyResult) : list PartyResult :=
  fold_left (fun acc x => insert_right x acc) l [].

(** [reverse=True]: CPython reverses the list, sorts it, and reverses it
    again, which keeps the sort stable. *)
Definition list_sort_reverse (l : list PartyResult) : list PartyResult :=
  rev (list_sort (rev l)).

(** ** The parser: [process_election_data] *)

(** [next((p for p in items if p.get("id") == party_id), None)]: the
    generator is consumed up to the first match only. *)
Fixpoint next_party (items : list json) (party_id : json) : result json :=
  match items with
  | [] => Ok JNull
  | p :: rest =>
      id <- py_get p "id" JNull ;;
      if py_eq id party_id then Ok p else next_party rest party_id
  end.

(** The body of [for result in results:], from the list [parties] before the
    iteration to the list after it. *)
Definition process_result (data result_ : json) (parties : list PartyResult)
  : result (list PartyResult) :=
  target <- py_get result_ "target" JNull ;;
  if py_eq target (JStr "parties") then
    party_id <- py_get result_ "target_id" JNull ;;
    catalog <- py_get data "parties" (JArr []) ;;
    items <- py_iter catalog ;;
    party <- next_party items party_id ;;
    percent <- py_get result_ "percent" JNull ;;
    if truthy percent then
      if truthy party then
        abbreviation <- py_get party "abbreviation" (JStr "") ;;
        percent_list <- py_get result_ "percent" (JArr [JObj []]) ;;
        first <- py_index0 percent_list ;;
        value <- py_get first "value" (JObj []) ;;
        absolute <- py_get value "absolute" (JNum 0) ;;
        party_color <- py_get party "color" (JStr "000000") ;;
        n <- as_str abbreviation ;;
        pct <- as_float absolute ;;
        c <- as_str party_color ;;
        Ok (parties ++ [mkPartyResult n pct c])
      else Ok parties
    else Ok parties
  else Ok parties.

Fixpoint for_results (data : json) (results : list json) (parties : list PartyResult)
  : result (list PartyResult) :=
  match results with
  | [] => Ok parties
  | r :: rest =>
      parties' <- process_result data r parties ;;
      for_results data rest parties'
  end.

(** [parser.parse(status_date)]: anything but a string is a [TypeError]. *)
Definition dateutil_parse `{DateTime} (v : json) : result datetime :=
  match v with
  | JStr s =>
      match parser_parse s with
      | Some d => Ok d
      | None => Raise ParserError
      end
  | _ => Raise TypeError
  end.

(** [now] is the value of [datetime.datetime.now()] on line 61. *)
Definition process_election_data `{DateTime} (now : datetime) (data : json)
  : result (option ProcessedElectionData) :=
  let parties := [] in
  election_data <- py_get data "election" (JObj []) ;;
  contest_list <- py_get election_data "contest" (JArr [JObj []]) ;;
  contest <- py_index0 contest_list ;;
  results_overall <- py_get contest "results_overall" (JObj []) ;;
  latest <- py_get results_overall "latest" (JObj []) ;;
  results <- py_get latest "results" (JArr []) ;;
  status_date <- py_get latest "status_date" (JStr "") ;;
  let timestamp := now in
  if truthy status_date then
    timestamp <- dateutil_parse status_date ;;
    items <- py_iter results ;;
    parties <- for_results data items parties ;;
    let parties := list_sort_reverse parties in
    Ok (Some (mkProcessed _ timestamp parties))
  else
    Ok None.

(** ** The renderer: [generate_bar_chart] *)

(** [{"df": [x, y, width, height, color]}] *)
Record rectangle : Type := mkRect {
  rect_x : Z;
  rect_y : Z;
  rect_width : Z;
  rect_height : Z;
  rect_color : string
}.

(** [max(party_data, key=lambda x: x.percentage)]: the first of the greatest
    elements; [ValueError] on an empty sequence. *)
Definition py_max (party_data : list PartyResult) : result PartyResult :=
  match party_data with
  | [] => Raise ValueError
  | first :: rest =>
      Ok (fold_left
            (fun best x => if Qltb (percentage best) (percentage x) then x else best)
            rest first)
  end.

(** [a / b] on numbers. *)
Definition py_truediv (a b : Q) : result Q :=
  if Qeq_bool b 0%Q then Raise ZeroDivisionError else Ok (a / b)%Q.

Definition display_width : Z := 20.
Definition display_height : Z := 8.

(** The body of [for i, result in enumerate(party_data):]. *)
Definition bar_step (threshold max_percentage : Q) (bar_height : Z)
    (i : Z) (result_ : PartyResult) (rectangles : list rectangle)
  : result (list rectangle) :=
  ratio <- py_truediv (percentage result_) max_percentage ;;
  let bar_width := Qceiling (ratio * inject_Z display_width)%Q in
  let top_left_x := 0%Z in
  let top_left_y := (i * bar_height)%Z in
  let rectangles :=
    rectangles ++ [mkRect top_left_x top_left_y bar_width bar_height (color result_)] in
  let indicator_color :=
    if Qltb threshold (percentage result_) then "00FF00" else "FF0000" in
  Ok (rectangles ++ [mkRect bar_width top_left_y 1 bar_height indicator_color]).

Fixpoint for_enumerate (threshold max_percentage : Q) (bar_height : Z)
    (i : Z) (party_data : list PartyResult) (rectangles : list rectangle)
  : result (list rectangle) :=
  match party_data with
  | [] => Ok rectangles
  | result_ :: rest =>
      rectangles' <- bar_step threshold max_percentage bar_height i result_ rectangles ;;
      for_enumerate threshold max_percentage bar_height (i + 1) rest rectangles'
  end.

Definition generate_bar_chart (party_data : list PartyResult) (threshold : Q)
  : result (list rectangle) :=
  if Nat.eqb (List.length party_data) 0 then Ok []
  else
    let bar_height := (display_height / Z.of_nat (List.length party_data))%Z in
    let rectangles := [mkRect 0 0 display_width display_height "000000"] in
    max_item <- py_max party_data ;;
    let max_percentage := percentage max_item in
    for_enumerate threshold max_percentage bar_height 0 party_data rectangles.

(** ** The renderer: [generate_text_message] *)

(** [{"t": text, "c": color}] *)
Record text_fragment : Type := mkFragment {
  t : string;
  c : string
}.

Definition digit (n : nat) : ascii := ascii_of_nat (48 + n mod 10).

(** [%H] and [%M]: two decimal digits, zero-padded. *)
Definition pad2 (n : nat) : string :=
  String (digit (n / 10)) (String (digit n) EmptyString).

(** [strftime("%H:%M")] of a date-time with this hour and minute. *)
Definition strftime_HM (local : nat * nat) : string :=
  (pad2 (fst local) ++ ":" ++ pad2 (snd local))%string.

(** Line 131 is [election_data.timestamp.astimezone().strftime("%H:%M")]: the
    function raises what [astimezone] raises. *)
Definition generate_text_message `{DateTime} (election_data : ProcessedElectionData)
  : result (list text_fragment) :=
  let text_fragments := [] in
  local <- local_time (timestamp election_data) ;;
  let start := strftime_HM local in
  let text_fragments := text_fragments ++ [mkFragment (start ++ " ")%string "FFFFFF"] in
  Ok (fold_left
        (fun text_fragments party =>
           text_fragments ++ [mkFragment (name party ++ " ")%string (color party)])
        (parties election_data) text_fragments).

(** ** The assembler: [generate_ulanzi_packet] *)

Record packet : Type := mkPacket {
  draw : list rectangle;
  text : list text_fragment;
  textOffset : Z
}.

Definition generate_ulanzi_packet `{DateTime} (election_data : ProcessedElectionData)
  : result packet :=
  bar_chart <- generate_bar_chart (parties election_data) 5 ;;
  text_message <- generate_text_message election_data ;;
  Ok {| draw := bar_chart; text := text_message; textOffset := 8 |}.

(** ** Notions used in the statements *)

(** Lines 56 to 58 of [process_election_data]: the way down to the [latest]
    section of the document. *)
Definition read_latest (data : json) : result json :=
  election_data <- py_get data "election" (JObj []) ;;
  contest_list <- py_get election_data "contest" (JArr [JObj []]) ;;
  contest <- py_index0 contest_list ;;
  results_overall <- py_get contest "results_overall" (JObj []) ;;
  py_get results_overall "latest" (JObj []).

(** The list [parties] when the loop of lines 67 to 83 ends, before it is
    sorted: the entries in the order in which the loop met them. *)
Definition encountered (data : json) : result (list PartyResult) :=
  latest <- read_latest data ;;
  results <- py_get latest "results" (JArr []) ;;
  items <- py_iter results ;;
  for_results data items [].

(** A field of an object, when the value is an object and has it. *)
Definition field (o : json) (k : string) : option json :=
  match o with
  | JObj m => assoc k m
  | _ => None
  end.

Definition field_or (o : json) (k : string) (default : json) : json :=
  match field o k with
  | Some v => v
  | None => default
  end.

(** The [status_date] field under [election.contest[0].results_overall.latest],
    read along the path as the specification names it. *)
Definition status_date_field (data : json) : option json :=
  match field data "election" with
  | Some election =>
      match field election "contest" with
      | Some (JArr (contest :: _)) =>
          match field contest "results_overall" with
          | Some results_overall =>
              match field results_overall "latest" with
              | Some latest => field latest "status_date"
              | None => None
              end
          | None => None
          end
      | _ => None
      end
  | None => None
  end.

(** "Absent or empty": no such field, or a value with nothing in it. *)
Definition absent_or_empty (o : option json) : bool :=
  match o with
  | None => true
  | Some JNull => true
  | Some (JStr s) => String.eqb s ""
  | Some (JArr l) => match l with [] => true | _ => false end
  | Some (JObj m) => match m with [] => true | _ => false end
  | Some _ => false
  end.

(** The three conditions on an element of the results list. *)
Definition targets_parties (r : json) : bool :=
  py_eq (field_or r "target" JNull) (JStr "parties").

Definition percent_nonempty (r : json) : bool :=
  match field r "percent" with
  | Some (JArr (_ :: _)) => true
  | _ => false
  end.

(** Identifier equality between a result and a catalog entry; a missing
    identifier reads as [None] on either side. *)
Definition id_matches (r p : json) : bool :=
  py_eq (field_or p "id" JNull) (field_or r "target_id" JNull).

(** Selection as the code does it: the first entry with the identifier
    decides, and an empty object does not count. *)
Definition resolved_party (catalog : list json) (r : json) : option json :=
  match find (id_matches r) catalog with
  | Some p => if truthy p then Some p else None
  | None => None
  end.

(** [value.absolute] of the first element of [percent], 0 when missing. *)
Definition first_percent_absolute (r : json) : json :=
  match field r "percent" with
  | Some (JArr (x :: _)) =>
      field_or (field_or x "value" (JObj [])) "absolute" (JNum 0)
  | _ => JNum 0
  end.

Definition text_of (v : json) : string :=
  match v with
  | JStr s => s
  | _ => ""
  end.

Definition number_of (v : json) : Q :=
  match v with
  | JNum q => q
  | JBool b => bool_num b
  | _ => 0%Q
  end.

Definition party_result_of (catalog : list json) (r : json) : option PartyResult :=
  if targets_parties r && percent_nonempty r then
    match resolved_party catalog r with
    | Some p =>
        Some (mkPartyResult
                (text_of (field_or p "abbreviation" (JStr "")))
                (number_of (first_percent_absolute r))
                (text_of (field_or p "color" (JStr "000000"))))
    | None => None
    end
  else None.

Definition selected_parties (catalog items : list json) : list PartyResult :=
  flat_map
    (fun r => match party_result_of catalog r with Some p => [p] | None => [] end)
    items.

Definition catalog_items (data : json) : list json :=
  match field data "parties" with
  | Some (JArr l) => l
  | _ => []
  end.

Definition results_items (latest : json) : list json :=
  match field latest "results" with
  | Some (JArr l) => l
  | _ => []
  end.

(** Sorted by percentage, least first, and greatest first. *)
Definition ascending (l : list PartyResult) : Prop :=
  StronglySorted (fun a b => (percentage a <= percentage b)%Q) l.

Definition descending (l : list PartyResult) : Prop :=
  StronglySorted (fun a b => (percentage b <= percentage a)%Q) l.

Definition same_percentage (q : Q) (p : PartyResult) : bool :=
  Qeq_bool (percentage p) q.

(** The two rectangles of the party at index [i]. *)
Definition bar_width_of (max_percentage : Q) (p : PartyResult) : Z :=
  Qceiling (percentage p / max_percentage * inject_Z 20)%Q.

Definition bar_of (max_percentage : Q) (band_height : Z) (i : nat) (p : PartyResult)
  : rectangle :=
  mkRect 0 (Z.of_nat i * band_height) (bar_width_of max_percentage p)
         band_height (color p).

Definition indicator_of (threshold max_percentage : Q) (band_height : Z)
    (i : nat) (p : PartyResult) : rectangle :=
  mkRect (bar_width_of max_percentage p) (Z.of_nat i * band_height) 1 band_height
         (if Qltb threshold (percentage p) then "00FF00" else "FF0000").

Fixpoint bands (threshold max_percentage : Q) (band_height : Z)
    (i : nat) (party_data : list PartyResult) : list rectangle :=
  match party_data with
  | [] => []
  | p :: rest =>
      bar_of max_percentage band_height i p
      :: indicator_of threshold max_percentage band_height i p
      :: bands threshold max_percentage band_height (S i) rest
  end.

Definition background : rectangle := mkRect 0 0 20 8 "000000".

(** ** The parser on the values [json.loads] returns *)

(** The typed records above follow the declarations of the dataclasses.
    Python does not check them: [process_election_data] puts into a
    [PartyResult] whatever the document holds, and [json.loads] also reads
    [NaN], [Infinity] and [-Infinity].  This module embeds the parser on
    those values, without the declared types: names, percentages and colors
    are Python values, [<] can raise [TypeError], and [NaN] compares as it
    does in Python. *)
Module Dynamic.

(** A Python number: an [int] or a finite [float], exactly, or one of the
    three special floats. *)
Inductive number : Type :=
  | Finite (q : Q)
  | PosInf
  | NegInf
  | NaN.

#[warnings="-register-all"]
Inductive value : Type :=
  | Null
  | Bool (b : bool)
  | Num (x : number)
  | Str (s : string)
  | Arr (l : list value)
  | Obj (m : list (string * value)).

Fixpoint assoc (k : string) (m : list (string * value)) : option value :=
  match m with
  | [] => None
  | (k', v) :: m' => if String.eqb k k' then Some v else assoc k m'
  end.

(** [==] and [<] on numbers; every comparison with [NaN] is false. *)
Definition num_eq (x y : number) : bool :=
  match x, y with
  | Finite p, Finite q => Qeq_bool p q
  | PosInf, PosInf => true
  | NegInf, NegInf => true
  | _, _ => false
  end.

Definition num_lt (x y : number) : bool :=
  match x, y with
  | NaN, _ | _, NaN => false
  | Finite p, Finite q => Qltb p q
  | NegInf, NegInf => false
  | NegInf, _ => true
  | _, NegInf => false
  | PosInf, _ => false
  | _, PosInf => true
  end.

(** The number a value is: [bool] is a subclass of [int]. *)
Definition as_number (v : value) : option number :=
  match v with
  | Num x => Some x
  | Bool b => Some (Finite (bool_num b))
  | _ => None
  end.

(** [json.loads] returns one and the same object for every [NaN] of a
    document, and the items of lists and dicts are compared by identity
    before [==]: inside a container [NaN] equals [NaN]. *)
Definition same_or (equals : value -> bool) (a b : value) : bool :=
  match a, b with
  | Num NaN, Num NaN => true
  | _, _ => equals b
  end.

Fixpoint py_eq (a b : value) {struct a} : bool :=
  match a, b with
  | Null, Null => true
  | Bool x, Bool y => Bool.eqb x y
  | Bool x, Num y => num_eq (Finite (bool_num x)) y
  | Num x, Bool y => num_eq x (Finite (bool_num y))
  | Num x, Num y => num_eq x y
  | Str s, Str t => String.eqb s t
  | Arr l, Arr l' =>
      (fix all2 (l : list value) (l' : list value) {struct l} : bool :=
         match l, l' with
         | [], [] => true
         | x :: xs, y :: ys => same_or (py_eq x) x y && all2 xs ys
         | _, _ => false
         end) l l'
  | Obj m, Obj m' =>
      Nat.eqb (List.length m) (List.length m') &&
      (fix sub (m : list (string * value)) {struct m} : bool :=
         match m with
         | [] => true
         | (k, v) :: r =>
             match assoc k m' with
             | Some v' => same_or (py_eq v) v v'
             | None => false
             end && sub r
         end) m
  | _, _ => false
  end.

(** [a < b]: numbers with numbers, strings with strings, lists with lists
    (at the first pair of items that differ, or by length); anything else is
    a [TypeError]. *)
Fixpoint py_lt (a b : value) {struct a} : result bool :=
  match a, b with
  | Bool x, Bool y => Ok (num_lt (Finite (bool_num x)) (Finite (bool_num y)))
  | Bool x, Num y => Ok (num_lt (Finite (bool_num x)) y)
  | Num x, Bool y => Ok (num_lt x (Finite (bool_num y)))
  | Num x, Num y => Ok (num_lt x y)
  | Str s, Str t => Ok (String.ltb s t)
  | Arr l, Arr l' =>
      (fix first_difference (l : list value) (l' : list value) {struct l}
         : result bool :=
         match l, l' with
         | [], [] => Ok false
         | [], _ :: _ => Ok true
         | _ :: _, [] => Ok false
         | x :: xs, y :: ys =>
             if same_or (py_eq x) x y then first_difference xs ys
             else py_lt x y
         end) l l'
  | _, _ => Raise TypeError
  end.

Definition truthy (v : value) : bool :=
  match v with
  | Null => false
  | Bool b => b
  | Num (Finite q) => negb (Qeq_bool q 0%Q)
  | Num _ => true
  | Str s => negb (String.eqb s "")
  | Arr l => match l with [] => false | _ => true end
  | Obj m => match m with [] => false | _ => true end
  end.

Definition py_get (o : value) (k : string) (default : value) : result value :=
  match o with
  | Obj m => Ok (match assoc k m with Some v => v | None => default end)
  | _ => Raise AttributeError
  end.

Definition py_index0 (o : value) : result value :=
  match o with
  | Arr [] => Raise IndexError
  | Arr (x :: _) => Ok x
  | Str EmptyString => Raise IndexError
  | Str (String c _) => Ok (Str (String c EmptyString))
  | Obj _ => Raise KeyError
  | _ => Raise TypeError
  end.

Fixpoint chars (s : string) : list value :=
  match s with
  | EmptyString => []
  | String c s' => Str (String c EmptyString) :: chars s'
  end.

Definition py_iter (o : value) : result (list value) :=
  match o with
  | Arr l => Ok l
  | Obj m => Ok (map (fun kv => Str (fst kv)) m)
  | Str s => Ok (chars s)
  | _ => Raise TypeError
  end.

(** The dataclasses as Python keeps them. *)
Record PartyResult : Type := mkPartyResult {
  name : value;
  percentage : value;
  color : value
}.

Record ProcessedElectionData `{DateTime} : Type := mkProcessed {
  timestamp : datetime;
  parties : list PartyResult
}.

(** *** [list.sort] *)

(** The stable sort by insertion for a comparison that cannot fail: every
    element goes behind the elements that are not greater. *)
Section Insertion.

Context {A : Type} (ltb : A -> A -> bool).

Fixpoint insert_behind (x : A) (l : list A) : list A :=
  match l with
  | [] => [x]
  | y :: l' => if ltb x y then x :: y :: l' else y :: insert_behind x l'
  end.

Definition insertion_sort (l : list A) : list A :=
  fold_left (fun acc x => insert_behind x acc) l [].

End Insertion.

(** [list.sort] is part of the environment.  For every length of the list
    and every version of CPython: a sort that returns has rearranged the
    list; and when [<] raises nothing between the elements and is the strict
    part of a total preorder, the sort returns the elements in that order,
    those that the order does not tell apart in the order they had. *)
Class ListSort : Type := {
  list_sort : forall A : Type, (A -> A -> result bool) -> list A -> result (list A);
  list_sort_rearranges :
    forall (A : Type) (lt : A -> A -> result bool) (l out : list A),
      list_sort A lt l = Ok out -> Permutation l out;
  list_sort_stable :
    forall (A : Type) (lt : A -> A -> result bool) (ltb : A -> A -> bool)
           (good : A -> Prop),
      (forall a b, good a -> good b -> lt a b = Ok (ltb a b)) ->
      (forall a b, ltb a b = true -> ltb b a = false) ->
      (forall a b c, ltb a b = false -> ltb b c = false -> ltb a c = false) ->
      forall l, Forall good l -> list_sort A lt l = Ok (insertion_sort ltb l)
}.

(** [reverse=True]: the list is turned round, sorted, and turned round
    again. *)
Definition list_sort_reverse `{ListSort} {A : Type} (lt : A -> A -> result bool)
    (l : list A) : result (list A) :=
  sorted <- list_sort A lt (rev l) ;;
  Ok (rev sorted).

Definition key_lt (a b : PartyResult) : result bool :=
  py_lt (percentage a) (percentage b).

(** *** [list.sort] on short lists *)

(** The algorithm CPython runs on a list of fewer than 64 elements, with its
    comparisons in their order.  It is a [ListSort] (instance [short_lists]
    below), on which the examples are evaluated. *)
Section Sort.

Context {A : Type} (lt : A -> A -> result bool).

(** The run [list.sort] finds at the front of the list: elements none of
    which is less than the one before it, or else elements each of which is
    less than the one before it. *)
Fixpoint run_ascending (prev : A) (rest : list A) (n : nat) : result nat :=
  match rest with
  | [] => Ok n
  | x :: rest' =>
      c <- lt x prev ;;
      if c then Ok n else run_ascending x rest' (S n)
  end.

Fixpoint run_descending (prev : A) (rest : list A) (n : nat) : result nat :=
  match rest with
  | [] => Ok n
  | x :: rest' =>
      c <- lt x prev ;;
      if c then run_descending x rest' (S n) else Ok n
  end.

Definition count_run (l : list A) : result (nat * bool) :=
  match l with
  | [] => Ok (0%nat, false)
  | [_] => Ok (1%nat, false)
  | x0 :: x1 :: rest =>
      c <- lt x1 x0 ;;
      if c then n <- run_descending x1 rest 2 ;; Ok (n, true)
      else n <- run_ascending x1 rest 2 ;; Ok (n, false)
  end.

(** The place of [pivot] among [sorted], between [l] and [r], by halving. *)
Fixpoint bisect (fuel : nat) (pivot : A) (sorted : list A) (l r : nat)
  : result nat :=
  match fuel with
  | O => Ok l
  | S fuel' =>
      if (l <? r)%nat then
        let p := (l + (r - l) / 2)%nat in
        match nth_error sorted p with
        | Some y =>
            c <- lt pivot y ;;
            if c then bisect fuel' pivot sorted l p
            else bisect fuel' pivot sorted (S p) r
        | None => Ok l
        end
      else Ok l
  end.

Definition insert_at (i : nat) (x : A) (l : list A) : list A :=
  firstn i l ++ x :: skipn i l.

(** Binary insertion of the elements behind the run. *)
Fixpoint binarysort (sorted rest : list A) : result (list A) :=
  match rest with
  | [] => Ok sorted
  | pivot :: rest' =>
      i <- bisect (List.length sorted) pivot sorted 0 (List.length sorted) ;;
      binarysort (insert_at i pivot sorted) rest'
  end.

(** [list.sort] as CPython does it for fewer than 64 elements: the run at
    the front, turned round when it descends, and binary insertion of the
    rest.  (From 64 elements on CPython merges runs.) *)
Definition short_list_sort (l : list A) : result (list A) :=
  if (List.length l <? 2)%nat then Ok l
  else
    run <- count_run l ;;
    let n := fst run in
    let front := if snd run then rev (firstn n l) else firstn n l in
    binarysort front (skipn n l).

End Sort.

(** The order of the shares that are numbers and not [NaN]. *)
Definition share_rank (p : PartyResult) : number :=
  match as_number (percentage p) with
  | Some NaN | None => Finite 0
  | Some x => x
  end.

Definition share_ltb (a b : PartyResult) : bool :=
  num_lt (share_rank a) (share_rank b).

(** *** [process_election_data] *)

Fixpoint next_party (items : list value) (party_id : value) : result value :=
  match items with
  | [] => Ok Null
  | p :: rest =>
      id <- py_get p "id" Null ;;
      if py_eq id party_id then Ok p else next_party rest party_id
  end.

Definition process_result (data result_ : value) (parties : list PartyResult)
  : result (list PartyResult) :=
  target <- py_get result_ "target" Null ;;
  if py_eq target (Str "parties") then
    party_id <- py_get result_ "target_id" Null ;;
    catalog <- py_get data "parties" (Arr []) ;;
    items <- py_iter catalog ;;
    party <- next_party items party_id ;;
    percent <- py_get result_ "percent" Null ;;
    if truthy percent then
      if truthy party then
        abbreviation <- py_get party "abbreviation" (Str "") ;;
        percent_list <- py_get result_ "percent" (Arr [Obj []]) ;;
        first <- py_index0 percent_list ;;
        value <- py_get first "value" (Obj []) ;;
        absolute <- py_get value "absolute" (Num (Finite 0)) ;;
        party_color <- py_get party "color" (Str "000000") ;;
        Ok (parties ++ [mkPartyResult abbreviation absolute party_color])
      else Ok parties
    else Ok parties
  else Ok parties.

Fixpoint for_results (data : value) (results : list value)
    (parties : list PartyResult) : result (list PartyResult) :=
  match results with
  | [] => Ok parties
  | r :: rest =>
      parties' <- process_result data r parties ;;
      for_results data rest parties'
  end.

Definition dateutil_parse `{DateTime} (v : value) : result datetime :=
  match v with
  | Str s =>
      match parser_parse s with
      | Some d => Ok d
      | None => Raise ParserError
      end
  | _ => Raise TypeError
  end.

Definition process_election_data `{DateTime} `{ListSort} (now : datetime)
    (data : value) : result (option ProcessedElectionData) :=
  let parties := [] in
  election_data <- py_get data "election" (Obj []) ;;
  contest_list <- py_get election_data "contest" (Arr [Obj []]) ;;
  contest <- py_index0 contest_list ;;
  results_overall <- py_get contest "results_overall" (Obj []) ;;
  latest <- py_get results_overall "latest" (Obj []) ;;
  results <- py_get latest "results" (Arr []) ;;
  status_date <- py_get latest "status_date" (Str "") ;;
  let timestamp := now in
  if truthy status_date then
    timestamp <- dateutil_parse status_date ;;
    items <- py_iter results ;;
    parties <- for_results data items parties ;;
    parties <- list_sort_reverse key_lt parties ;;
    Ok (Some (mkProcessed _ timestamp parties))
  else
    Ok None.

(** *** Notions used in the statements *)

Definition read_latest (data : value) : result value :=
  election_data <- py_get data "election" (Obj []) ;;
  contest_list <- py_get election_data "contest" (Arr [Obj []]) ;;
  contest <- py_index0 contest_list ;;
  results_overall <- py_get contest "results_overall" (Obj []) ;;
  py_get results_overall "latest" (Obj []).

(** The list [parties] when the loop ends, before it is sorted. *)
Definition encountered (data : value) : result (list PartyResult) :=
  latest <- read_latest data ;;
  results <- py_get latest "results" (Arr []) ;;
  items <- py_iter results ;;
  for_results data items [].

Definition field (o : value) (k : string) : option value :=
  match o with
  | Obj m => assoc k m
  | _ => None
  end.

Definition field_or (o : value) (k : string) (default : value) : value :=
  match field o k with
  | Some v => v
  | None => default
  end.

Definition targets_parties (r : value) : bool :=
  py_eq (field_or r "target" Null) (Str "parties").

Definition percent_nonempty (r : value) : bool :=
  match field r "percent" with
  | Some (Arr (_ :: _)) => true
  | _ => false
  end.

Definition id_matches (r p : value) : bool :=
  py_eq (field_or p "id" Null) (field_or r "target_id" Null).


(** Selection as the code does it: the first entry with the identifier
    decides, and an empty object does not count. *)
Definition resolved_party (catalog : list value) (r : value) : option value :=
  match find (id_matches r) catalog with
  | Some p => if truthy p then Some p else None
  | None => None
  end.

(** [value.absolute] of the first element of [percent], 0 when missing. *)
Definition first_percent_absolute (r : value) : value :=
  match field r "percent" with
  | Some (Arr (x :: _)) =>
      field_or (field_or x "value" (Obj [])) "absolute" (Num (Finite 0))
  | _ => Num (Finite 0)
  end.

Definition party_result_of (catalog : list value) (r : value)
  : option PartyResult :=
  if targets_parties r && percent_nonempty r then
    match resolved_party catalog r with
    | Some p =>
        Some (mkPartyResult
                (field_or p "abbreviation" (Str ""))
                (first_percent_absolute r)
                (field_or p "color" (Str "000000")))
    | None => None
    end
  else None.

Definition selected_parties (catalog items : list value) : list PartyResult :=
  flat_map
    (fun r => match party_result_of catalog r with Some p => [p] | None => [] end)
    items.

Definition catalog_items (data : value) : list value :=
  match field data "parties" with
  | Some (Arr l) => l
  | _ => []
  end.

Definition results_items (latest : value) : list value :=
  match field latest "results" with
  | Some (Arr l) => l
  | _ => []
  end.

(** A share that is a number and not [NaN]. *)
Definition real_share (p : PartyResult) : Prop :=
  exists x, as_number (percentage p) = Some x /\ x <> NaN.

(** No party stands before one with a greater share. *)
Definition descending (l : list PartyResult) : Prop :=
  StronglySorted (fun a b => key_lt a b = Ok false) l.

Definition same_percentage (k : value) (p : PartyResult) : bool :=
  py_eq (percentage p) k.

(** The typed values among the Python values. *)
Fixpoint lift (v : json) : value :=
  match v with
  | JNull => Null
  | JBool b => Bool b
  | JNum q => Num (Finite q)
  | JStr s => Str s
  | JArr l => Arr (map lift l)
  | JObj m => Obj (map (fun kv => (fst kv, lift (snd kv))) m)
  end.

End Dynamic.

(** ** The typed model within the untyped one *)

(** A typed record stands for the Python record with the same name and
    color whose share is the same number ([true] and [false] are the numbers
    1 and 0). *)
Definition stands_for (p : PartyResult) (d : Dynamic.PartyResult) : Prop :=
  Dynamic.name d = Dynamic.Str (name p)
  /\ Dynamic.as_number (Dynamic.percentage d) = Some (Dynamic.Finite (percentage p))
  /\ Dynamic.color d = Dynamic.Str (color p).

Definition lifted (a : json) (b : Dynamic.value) : Prop := b = Dynamic.lift a.

(** A run of the typed model is followed by the run on untyped values: it
    ends in the same exception or in a related value, as long as the typed
    model does not stop at a value outside the declared types. *)
Definition followed_by {A B : Type} (R : A -> B -> Prop)
    (typed : result A) (untyped : result B) : Prop :=
  match typed with
  | Ok a => exists b, untyped = Ok b /\ R a b
  | Raise e => e = DeclaredTypeMismatch \/ untyped = Raise e
  end.

(** ** An environment to run the pipeline on concrete documents *)

(** Date-times written [YYYY-MM-DDTHH:MM:SS+HH:MM] (ISO 8601 with a numeric
    offset, one of the formats [dateutil] reads), shown on a machine whose
    zone is one hour east of UTC.  The theorems below hold for every
    [DateTime]; this instance evaluates them on examples. *)
Module SampleClock.

Record aware : Type := mkAware {
  dt_year : nat; dt_month : nat; dt_day : nat;
  dt_hour : nat; dt_minute : nat; dt_second : nat;
  utcoffset : Z   (* minutes east of UTC *)
}.

Definition digit_value (a : ascii) : option nat :=
  let n := nat_of_ascii a in
  if (48 <=? n)%nat && (n <=? 57)%nat then Some (n - 48)%nat else None.

Fixpoint number (acc : nat) (s : string) : option nat :=
  match s with
  | EmptyString => Some acc
  | String a s' =>
      match digit_value a with
      | Some d => number (10 * acc + d)%nat s'
      | None => None
      end
  end.

Definition sign (s : string) : option Z :=
  if String.eqb s "+" then Some 1%Z
  else if String.eqb s "-" then Some (-1)%Z
  else None.

Definition leap (y : nat) : bool :=
  ((y mod 4 =? 0)%nat && negb (y mod 100 =? 0)%nat) || (y mod 400 =? 0)%nat.

Definition days_in_month (y m : nat) : nat :=
  match m with
  | 2 => if leap y then 29 else 28
  | 4 | 6 | 9 | 11 => 30
  | _ => 31
  end%nat.

Definition parse (s : string) : option aware :=
  if (String.length s =? 25)%nat
     && String.eqb (substring 4 1 s) "-" && String.eqb (substring 7 1 s) "-"
     && String.eqb (substring 10 1 s) "T"
     && String.eqb (substring 13 1 s) ":" && String.eqb (substring 16 1 s) ":"
     && String.eqb (substring 22 1 s) ":"
  then
    match number 0 (substring 0 4 s), number 0 (substring 5 2 s),
          number 0 (substring 8 2 s), number 0 (substring 11 2 s),
          number 0 (substring 14 2 s), number 0 (substring 17 2 s),
          sign (substring 19 1 s),
          number 0 (substring 20 2 s), number 0 (substring 23 2 s) with
    | Some y, Some mo, Some d, Some h, Some mi, Some se, Some sg, Some oh, Some om =>
        if (1 <=? y)%nat
           && (1 <=? mo)%nat && (mo <=? 12)%nat
           && (1 <=? d)%nat && (d <=? days_in_month y mo)%nat
           && (h <? 24)%nat && (mi <? 60)%nat && (se <? 60)%nat
           && (oh <? 24)%nat && (om <? 60)%nat
        then Some (mkAware y mo d h mi se (sg * Z.of_nat (60 * oh + om)))
        else None
    | _, _, _, _, _, _, _, _, _ => None
    end
  else None.

(** The day after and the day before a date; the year 0 and the year 10000
    stand for dates that [datetime] cannot hold. *)
Definition next_day (date : nat * nat * nat) : nat * nat * nat :=
  let '(y, m, d) := date in
  if (d <? days_in_month y m)%nat then (y, m, S d)
  else if (m <? 12)%nat then (y, S m, 1%nat)
  else (S y, 1%nat, 1%nat).

Definition prev_day (date : nat * nat * nat) : nat * nat * nat :=
  let '(y, m, d) := date in
  if (1 <? d)%nat then (y, m, pred d)
  else if (1 <? m)%nat then (y, pred m, days_in_month y (pred m))
  else (pred y, 12%nat, 31%nat).

Definition shift_days (delta : Z) (date : nat * nat * nat) : nat * nat * nat :=
  if (delta <? 0)%Z then Nat.iter (Z.to_nat (- delta)) prev_day date
  else Nat.iter (Z.to_nat delta) next_day date.

Definition representable (date : nat * nat * nat) : bool :=
  let '(y, _, _) := date in (1 <=? y)%nat && (Z.of_nat y <=? 9999)%Z.

(** Minutes since the start of the day of [d], on the clock of UTC. *)
Definition utc_minutes (d : aware) : Z :=
  (Z.of_nat (60 * dt_hour d + dt_minute d) - utcoffset d)%Z.

(** [d.astimezone()] for a zone one hour east of UTC: the date-time is taken
    to UTC and from there to the zone, and both steps raise [OverflowError]
    when the date leaves the years 1 to 9999. *)
Definition astimezone_hour_minute (d : aware) : result (nat * nat) :=
  let date := (dt_year d, dt_month d, dt_day d) in
  if representable (shift_days (utc_minutes d / 1440) date) then
    let here := (utc_minutes d + 60)%Z in
    if representable (shift_days (here / 1440) date) then
      Ok (Z.to_nat ((here mod 1440) / 60), Z.to_nat ((here mod 1440) mod 60))
    else Raise OverflowError
  else Raise OverflowError.

#[global, refine] Instance clock : DateTime := {|
  datetime := aware;
  parser_parse := parse;
  local_time := astimezone_hour_minute
|}.
Proof.
  intros d h m. unfold astimezone_hour_minute.
  destruct (representable _); [| discriminate].
  destruct (representable _); [| discriminate].
  intro E. injection E as <- <-.
  set (here := (utc_minutes d + 60)%Z).
  assert (B : (0 <= here mod 1440 < 1440)%Z) by (apply Z.mod_pos_bound; lia).
  assert (B24 : (0 <= (here mod 1440) / 60 < 24)%Z).
  { split; [apply Z.div_pos; lia | apply Z.div_lt_upper_bound; lia]. }
  assert (B60 : (0 <= (here mod 1440) mod 60 < 60)%Z)
    by (apply Z.mod_pos_bound; lia).
  lia.
Defined.

(** A wall-clock reading for [datetime.datetime.now()]. *)
Definition noon : aware := mkAware 2025 2 23 12 0 0 60.

End SampleClock.

(** ** Example documents *)

Definition document (status_date : json) (results catalog : list json) : json :=
  JObj [("election",
         JObj [("contest",
                JArr [JObj [("results_overall",
                             JObj [("latest",
                                    JObj [("status_date", status_date);
                                          ("results", JArr results)])])]])]);
        ("parties", JArr catalog)].

Definition party_share (target_id : json) (absolute : Q) : json :=
  JObj [("target", JStr "parties"); ("target_id", target_id);
        ("percent", JArr [JObj [("value", JObj [("absolute", JNum absolute)])]])].

Definition catalog_entry (id abbreviation party_color : string) : json :=
  JObj [("id", JStr id); ("abbreviation", JStr abbreviation);
        ("color", JStr party_color)].

(** The end-to-end example of the specification: A with 60, B with 40. *)
Definition two_parties : json :=
  document (JStr "2025-01-01T12:34:00+01:00")
    [party_share (JStr "b") 40; party_share (JStr "a") 60]
    [catalog_entry "a" "A" "FF0000"; catalog_entry "b" "B" "0000FF"].

(** An election without a contest yet. *)
Definition no_contest : json :=
  JObj [("election", JObj [("contest", JArr [])])].

Definition empty_status_date : json := document (JStr "") [] [].

Definition zero_status_date : json := document (JNum 0) [] [].

Definition unreadable_status_date : json := document (JStr "soon") [] [].


(** Two parties with the same share around a greater one. *)
Definition tied_parties : json :=
  document (JStr "2025-01-01T12:34:00+01:00")
    [party_share (JStr "b") 40; party_share (JStr "a") 60;
     party_share (JStr "c") 40]
    [catalog_entry "a" "A" "FF0000"; catalog_entry "b" "B" "0000FF";
     catalog_entry "c" "C" "00FFFF"].

(** Before the count: the only result has a percent element without a value,
    which the parser reads as 0. *)
Definition uncounted : json :=
  document (JStr "2025-01-01T12:34:00+01:00")
    [JObj [("target", JStr "parties"); ("target_id", JStr "a");
           ("percent", JArr [JObj []])]]
    [catalog_entry "a" "A" "FF0000"].


Definition half_past_noon : SampleClock.aware :=
  SampleClock.mkAware 2025 1 1 12 34 0 60.

(** 0001-01-01T00:00:00+05:00, which is in the year before 1 on the clock of
    UTC. *)
Definition first_midnight : SampleClock.aware :=
  SampleClock.mkAware 1 1 1 0 0 0 300.

Definition uncounted_snapshot : ProcessedElectionData :=
  mkProcessed _ half_past_noon [mkPartyResult "A" 0 "FF0000"].

Definition two_parties_snapshot : ProcessedElectionData :=
  mkProcessed _ half_past_noon
    [mkPartyResult "A" 60 "FF0000"; mkPartyResult "B" 40 "0000FF"].

Definition tied_parties_snapshot : ProcessedElectionData :=
  mkProcessed _ half_past_noon
    [mkPartyResult "A" 60 "FF0000"; mkPartyResult "B" 40 "0000FF";
     mkPartyResult "C" 40 "00FFFF"].

(** ** Example documents with values outside the declared types *)

Definition dynamic_document (status_date : Dynamic.value)
    (results catalog : list Dynamic.value) : Dynamic.value :=
  Dynamic.Obj
    [("election",
      Dynamic.Obj
        [("contest",
          Dynamic.Arr
            [Dynamic.Obj
               [("results_overall",
                 Dynamic.Obj
                   [("latest",
                     Dynamic.Obj [("status_date", status_date);
                                  ("results", Dynamic.Arr results)])])]])]);
     ("parties", Dynamic.Arr catalog)].

Definition dynamic_share (target_id : string) (absolute : Dynamic.number)
  : Dynamic.value :=
  Dynamic.Obj
    [("target", Dynamic.Str "parties"); ("target_id", Dynamic.Str target_id);
     ("percent",
      Dynamic.Arr
        [Dynamic.Obj
           [("value", Dynamic.Obj [("absolute", Dynamic.Num absolute)])]])].

Definition abc_catalog : list Dynamic.value :=
  map Dynamic.lift
      [catalog_entry "a" "A" "FF0000"; catalog_entry "b" "B" "0000FF";
       catalog_entry "c" "C" "00FFFF"].

(** Shares 1, NaN and 2. *)
Definition nan_share : Dynamic.value :=
  dynamic_document (Dynamic.Str "2025-01-01T12:34:00+01:00")
    [dynamic_share "a" (Dynamic.Finite 1); dynamic_share "b" Dynamic.NaN;
     dynamic_share "c" (Dynamic.Finite 2)]
    abc_catalog.

(** Shares 40, Infinity and 40. *)
Definition infinite_share : Dynamic.value :=
  dynamic_document (Dynamic.Str "2025-01-01T12:34:00+01:00")
    [dynamic_share "a" (Dynamic.Finite 40); dynamic_share "b" Dynamic.PosInf;
     dynamic_share "c" (Dynamic.Finite 40)]
    abc_catalog.

(** A catalog entry whose abbreviation is null. *)
Definition null_abbreviation : Dynamic.value :=
  dynamic_document (Dynamic.Str "2025-01-01T12:34:00+01:00")
    [dynamic_share "a" (Dynamic.Finite 10)]
    [Dynamic.Obj [("id", Dynamic.Str "a"); ("abbreviation", Dynamic.Null);
                  ("color", Dynamic.Str "FF0000")]].

Definition party_value (party_name : string) (share : Dynamic.number)
    (party_color : string) : Dynamic.PartyResult :=
  Dynamic.mkPartyResult (Dynamic.Str party_name) (Dynamic.Num share)
                        (Dynamic.Str party_color).

(** The parties of [tied_parties] as Python values. *)
Definition tied_parties_values : list Dynamic.PartyResult :=
  [party_value "A" (Dynamic.Finite 60) "FF0000";
   party_value "B" (Dynamic.Finite 40) "0000FF";
   party_value "C" (Dynamic.Finite 40) "00FFFF"].

Definition nan_share_parties : list Dynamic.PartyResult :=
  [party_value "A" (Dynamic.Finite 1) "FF0000";
   party_value "B" Dynamic.NaN "0000FF";
   party_value "C" (Dynamic.Finite 2) "00FFFF"].

(** ** Documents the parser reads without an exception *)

Definition optional_text (o : option json) : Prop :=
  match o with
  | None => True
  | Some (JStr _) => True
  | Some _ => False
  end.

(** A catalog entry: an object whose abbreviation and color, when it has
    them, are strings. *)
Definition catalog_entry_shape (e : json) : Prop :=
  exists m, e = JObj m
            /\ optional_text (assoc "abbreviation" m)
            /\ optional_text (assoc "color" m).

(** The percent of a result: absent, or a list that is empty or begins with an
    object whose value, when it has one, is an object whose absolute, when it
    has one, is a number. *)
Definition percent_shape (o : option json) : Prop :=
  match o with
  | None => True
  | Some (JArr []) => True
  | Some (JArr (JObj first :: _)) =>
      match assoc "value" first with
      | None => True
      | Some (JObj value) =>
          match assoc "absolute" value with
          | None => True
          | Some (JNum _) => True
          | Some _ => False
          end
      | Some _ => False
      end
  | Some _ => False
  end.

Definition result_shape (x : json) : Prop :=
  exists m, x = JObj m /\ percent_shape (assoc "percent" m).

Definition results_shape (latest : list (string * json)) : Prop :=
  match assoc "results" latest with
  | None => True
  | Some (JArr items) => Forall result_shape items
  | Some _ => False
  end.

Definition catalog_shape (data : json) : Prop :=
  match field data "parties" with
  | None => True
  | Some (JArr entries) => Forall catalog_entry_shape entries
  | Some _ => False
  end.

(** ** The configuration: [os.getenv] and [load_dotenv] *)

(** [os.environ], and the pairs read from the [.env] file (a name without a
    value has [None]). *)
Definition environ : Type := list (string * string).

Fixpoint getenv (env : environ) (k : string) : option string :=
  match env with
  | [] => None
  | (k', v) :: env' => if String.eqb k k' then Some v else getenv env' k
  end.

(** [load_dotenv()], with its default [override=False]: a name the
    environment already has keeps its value. *)
Fixpoint load_dotenv (dotenv : list (string * option string)) (env : environ)
  : environ :=
  match dotenv with
  | [] => env
  | (k, v) :: rest =>
      let env :=
        match getenv env k, v with
        | None, Some v => env ++ [(k, v)]
        | _, _ => env
        end in
      load_dotenv rest env
  end.

(** The value the [.env] file gives to a name. *)
Fixpoint dotenv_value (dotenv : list (string * option string)) (k : string)
  : option string :=
  match dotenv with
  | [] => None
  | (k', v) :: rest =>
      match v with
      | Some v => if String.eqb k k' then Some v else dotenv_value rest k
      | None => dotenv_value rest k
      end
  end.

(** ** The request of [fetch_election_data] *)

(** The arguments of [requests.get(endpoint, params=params)]. *)
Record request : Type := mkRequest {
  endpoint : string;
  params : list (string * option string)
}.

(** [str(x)] inside an f-string, for the result of [os.getenv]. *)
Definition py_str (o : option string) : string :=
  match o with
  | Some s => s
  | None => "None"
  end.

(** Lines 39 to 43; [API_URL] is the module-level variable. *)
Definition fetch_request (API_URL : option string) (env : environ) : request :=
  let endpoint := (py_str API_URL ++ "/results")%string in
  let params := [("election", getenv env "ELECTION_ID");
                 ("stage", getenv env "ELECTION_STAGE")] in
  mkRequest endpoint params.

(** The script from top to bottom: line 16 reads [API_URL] when the module is
    loaded, line 205 loads the [.env] file, and [main] then fetches. *)
Definition script_request (process_env : environ)
    (dotenv : list (string * option string)) : request :=
  let API_URL := getenv process_env "API_URL" in
  let env := load_dotenv dotenv process_env in
  fetch_request API_URL env.

(** ** The loop: [main] *)

(** What is handed to [send_to_ulanzi]: [{"text": [...]}] alone, or a packet. *)
Inductive message : Type :=
  | TextOnly (fragments : list text_fragment)
  | Full (p : packet).

Definition no_data_message : message :=
  TextOnly [mkFragment "No data" "FF0000"].

(** The collaborators of one iteration: what [fetch_election_data] returns or
    that it raises, and whether [send_to_ulanzi] publishes the message or
    raises before it does. *)
Inductive fetched : Type :=
  | Fetched (election_data : json)
  | FetchRaised.

Inductive sent : Type :=
  | Published
  | SendRaised.

(** The exception the [except] clause catches. *)
Inductive caught : Type :=
  | FetchFailure
  | PipelineFailure (e : exn)
  | SendFailure.

(** Log records; [ERROR_occurred e] is
    [logging.error(f"An error occurred: {str(e)}")]. *)
Inductive log_record : Type :=
  | INFO (msg : string)
  | ERROR (msg : string)
  | ERROR_occurred (e : caught).

Record world : Type := mkWorld {
  log : list log_record;
  published : list message;
  slept : Z
}.

Record iteration `{DateTime} : Type := mkIteration {
  clock_now : datetime;
  fetch_election_data : fetched;
  send_to_ulanzi : message -> sent
}.

Definition logging (r : log_record) (w : world) : world :=
  mkWorld (log w ++ [r]) (published w) (slept w).

Definition publish (m : message) (w : world) : world :=
  mkWorld (log w) (published w ++ [m]) (slept w).

Definition time_sleep (seconds : Z) (w : world) : world :=
  mkWorld (log w) (published w) (slept w + seconds).

(** The [try] block of lines 185 to 196, with the exception that ends it. *)
Definition try_block `{DateTime} (it : iteration) (w : world)
  : world * option caught :=
  let w := logging (INFO "Fetching election data...") w in
  match fetch_election_data it with
  | FetchRaised => (w, Some FetchFailure)
  | Fetched election_data =>
      let w := logging (INFO "Processing election data...") w in
      match process_election_data (clock_now it) election_data with
      | Raise e => (w, Some (PipelineFailure e))
      | Ok processed_data =>
          let message := no_data_message in
          let chosen :=
            match processed_data with
            | Some d =>
                match generate_ulanzi_packet d with
                | Ok p => Ok (Full p, w)
                | Raise e => Raise e
                end
            | None =>
                Ok (message, logging (ERROR "No election data available") w)
            end in
          match chosen with
          | Raise e => (w, Some (PipelineFailure e))
          | Ok (message, w) =>
              let w := logging (INFO "Sending data to Ulanzi pixel clock...") w in
              match send_to_ulanzi it message with
              | SendRaised => (w, Some SendFailure)
              | Published =>
                  let w := publish message w in
                  (logging (INFO "data successfully sent to Ulanzi pixel clock") w,
                   None)
              end
          end
      end
  end.

(** One turn of [while True:]. *)
Definition main_iteration `{DateTime} (it : iteration) (w : world) : world :=
  let (w, exception) := try_block it w in
  let w :=
    match exception with
    | Some e => logging (ERROR_occurred e) w
    | None => w
    end in
  let w := logging (INFO "Waiting for 5 minutes before next update...") w in
  time_sleep 300 w.

(** The first turns of [main], one for each element of [its]. *)
Definition main `{DateTime} (its : list iteration) (w : world) : world :=
  fold_left (fun w it => main_iteration it w) its w.

(** What the pipeline hands to [send_to_ulanzi] for a document. *)
Definition handed_over `{DateTime} (it : iteration) (doc : json) (m : message) : Prop :=
  (process_election_data (clock_now it) doc = Ok None /\ m = no_data_message)
  \/ exists d p,
       process_election_data (clock_now it) doc = Ok (Some d)
       /\ generate_ulanzi_packet d = Ok p
       /\ m = Full p.

(** ** Example inputs of the renderer, the loop and the configuration *)

Definition leader_and_zero : list PartyResult :=
  [mkPartyResult "A" 60 "FF0000"; mkPartyResult "B" 0 "0000FF"].

Definition nine_parties : list PartyResult :=
  map (fun n => mkPartyResult n 10 "FFFFFF")
      ["A"; "B"; "C"; "D"; "E"; "F"; "G"; "H"; "I"].

Definition number_status_date : json := document (JNum 5) [] [].

(** A result for a candidate in front of the results of [two_parties]. *)
Definition candidate_result : list (string * json) :=
  [("target", JStr "candidates"); ("percent", JNum 3)].

Definition fresh_world : world := mkWorld [] [] 0.

Definition turn_of (doc : json) : iteration :=
  mkIteration _ SampleClock.noon (Fetched doc) (fun _ => Published).

Definition bare_environ : environ := [("ELECTION_ID", "btw25")].

Definition dotenv_file : list (string * option string) :=
  [("API_URL", Some "https://api.example"); ("ELECTION_ID", Some "ep24");
   ("ELECTION_STAGE", Some "final")].

(** * Proofs *)

(** ** The [result] monad *)

Lemma bind_Ok {A B : Type} (m : result A) (k : A -> result B) (b : B) :
  bind m k = Ok b -> exists a, m = Ok a /\ k a = Ok b.
Proof.
  destruct m as [a | e]; simpl; intro E; [eauto | discriminate].
Qed.

(** Splits a hypothesis [x <- m ;; k = Ok b] into its two runs. *)
Tactic Notation "inv_bind" hyp(H) "as" ident(a) ident(E) :=
  apply bind_Ok in H; destruct H as (a & E & H).

Lemma py_get_Ok (o : json) (k : string) (d v : json) :
  py_get o k d = Ok v -> exists m, o = JObj m /\ v = field_or o k d.
Proof.
  destruct o; simpl; intro E; try discriminate.
  injection E as <-. eexists; split; reflexivity.
Qed.

(** ** The sort *)

Lemma Qltb_true (p q : Q) : Qltb p q = true <-> (p < q)%Q.
Proof.
  unfold Qltb. rewrite negb_true_iff, <- not_true_iff_false, Qle_bool_iff.
  split; [apply Qnot_le_lt | apply Qlt_not_le].
Qed.

Lemma Qltb_false (p q : Q) : Qltb p q = false <-> (q <= p)%Q.
Proof.
  unfold Qltb. rewrite negb_false_iff. apply Qle_bool_iff.
Qed.

Lemma insert_right_perm (x : PartyResult) (l : list PartyResult) :
  Permutation (x :: l) (insert_right x l).
Proof.
  induction l as [| y l IH]; simpl; [reflexivity |].
  destruct (Qltb (percentage x) (percentage y)); [reflexivity |].
  rewrite perm_swap. now constructor.
Qed.

Lemma insert_right_ascending (x : PartyResult) (l : list PartyResult) :
  ascending l -> ascending (insert_right x l).
Proof.
  unfold ascending.
  induction l as [| y l IH]; simpl; intro S.
  - constructor; constructor.
  - apply StronglySorted_inv in S. destruct S as [S F].
    destruct (Qltb (percentage x) (percentage y)) eqn:C.
    + apply Qltb_true in C.
      constructor; [constructor; assumption |].
      constructor; [now apply Qlt_le_weak |].
      eapply Forall_impl; [| exact F].
      intros b Hb. simpl in Hb. apply Qlt_le_weak.
      eapply Qlt_le_trans; eassumption.
    + apply Qltb_false in C.
      constructor; [now apply IH |].
      eapply Permutation_Forall; [apply insert_right_perm |].
      now constructor.
Qed.

Lemma filter_above (q : Q) (x : PartyResult) (l : list PartyResult) :
  same_percentage q x = true ->
  Forall (fun b => (percentage x < percentage b)%Q) l ->
  filter (same_percentage q) l = [].
Proof.
  unfold same_percentage. intros Hx F.
  apply Qeq_bool_eq in Hx.
  induction F as [| b l Hb F IH]; simpl; [reflexivity |].
  destruct (Qeq_bool (percentage b) q) eqn:E; [| exact IH].
  apply Qeq_bool_eq in E. rewrite Hx, E in Hb.
  now apply Qlt_irrefl in Hb.
Qed.

Lemma insert_right_filter (q : Q) (x : PartyResult) (l : list PartyResult) :
  ascending l ->
  filter (same_percentage q) (insert_right x l)
  = filter (same_percentage q) l ++ (if same_percentage q x then [x] else []).
Proof.
  unfold ascending.
  induction l as [| y l IH]; intro S.
  - simpl. now destruct (same_percentage q x).
  - apply StronglySorted_inv in S. destruct S as [S F].
    cbn [insert_right].
    destruct (Qltb (percentage x) (percentage y)) eqn:C.
    + apply Qltb_true in C.
      cbn [filter]. destruct (same_percentage q x) eqn:Hx.
      * assert (N : filter (same_percentage q) (y :: l) = []).
        { apply (filter_above q x); [assumption |].
          constructor; [assumption |].
          eapply Forall_impl; [| exact F].
          intros b Hb. simpl in Hb. eapply Qlt_le_trans; eassumption. }
        cbn [filter] in N. rewrite N. reflexivity.
      * now rewrite app_nil_r.
    + cbn [filter]. rewrite (IH S).
      now destruct (same_percentage q y).
Qed.

Lemma fold_insert_right (l acc : list PartyResult) :
  ascending acc ->
  let sorted := fold_left (fun acc x => insert_right x acc) l acc in
  ascending sorted /\ Permutation (acc ++ l) sorted
  /\ forall q, filter (same_percentage q) sorted
               = filter (same_percentage q) acc ++ filter (same_percentage q) l.
Proof.
  revert acc. induction l as [| x l IH]; intros acc S; cbn [fold_left].
  - repeat split; [assumption | now rewrite app_nil_r |].
    intro q. now rewrite app_nil_r.
  - destruct (IH (insert_right x acc) (insert_right_ascending x acc S))
      as (S' & P & F).
    repeat split; [exact S' | |].
    + rewrite <- P. rewrite <- insert_right_perm.
      now rewrite <- Permutation_middle.
    + intro q. rewrite F, (insert_right_filter q x acc S), <- app_assoc.
      cbn [filter]. now destruct (same_percentage q x).
Qed.

Lemma ascending_rev (l : list PartyResult) : ascending l -> descending (rev l).
Proof.
  unfold ascending, descending.
  induction 1 as [| a l S IH F]; simpl; [constructor |].
  assert (G : forall l1, StronglySorted (fun a b => (percentage b <= percentage a)%Q) l1 ->
                         Forall (fun b => (percentage a <= percentage b)%Q) l1 ->
                         StronglySorted (fun a b => (percentage b <= percentage a)%Q) (l1 ++ [a])).
  { induction 1 as [| b l1 S1 IH1 F1]; simpl; intro Fa.
    - constructor; constructor.
    - apply Forall_cons_iff in Fa. destruct Fa as [Hb Fa].
      constructor; [now apply IH1 |].
      apply Forall_app. split; [exact F1 | now constructor]. }
  apply G; [exact IH |].
  apply Forall_rev. exact F.
Qed.

(** What [list.sort(..., reverse=True)] computes: a rearrangement, greatest
    percentage first, entries of equal percentage in their former order. *)
Lemma list_sort_reverse_spec (l : list PartyResult) :
  Permutation l (list_sort_reverse l)
  /\ descending (list_sort_reverse l)
  /\ forall q, filter (same_percentage q) (list_sort_reverse l)
               = filter (same_percentage q) l.
Proof.
  unfold list_sort_reverse, list_sort.
  destruct (fold_insert_right (rev l) [] (SSorted_nil _)) as (S & P & F).
  cbn zeta in S, P, F. simpl in P.
  repeat split.
  - rewrite <- Permutation_rev, <- P. apply Permutation_rev.
  - now apply ascending_rev.
  - intro q. rewrite filter_rev, F. simpl.
    now rewrite filter_rev, rev_involutive.
Qed.

(** ** The parser *)

Section Parser.

Context `{DateTime}.

(** The function, read as: go down to [latest], then decide on its
    [status_date]. *)
Lemma process_election_data_latest (now : datetime) (data : json) :
  process_election_data now data =
  (latest <- read_latest data ;;
   results <- py_get latest "results" (JArr []) ;;
   status_date <- py_get latest "status_date" (JStr "") ;;
   if truthy status_date then
     timestamp <- dateutil_parse status_date ;;
     items <- py_iter results ;;
     parties <- for_results data items [] ;;
     Ok (Some (mkProcessed _ timestamp (list_sort_reverse parties)))
   else Ok None).
Proof.
  unfold process_election_data, read_latest.
  destruct (py_get data "election" (JObj [])) as [election_data |]; [| reflexivity].
  cbn [bind].
  destruct (py_get election_data "contest" (JArr [JObj []])) as [contest_list |];
    [| reflexivity].
  cbn [bind].
  destruct (py_index0 contest_list) as [contest |]; [| reflexivity].
  cbn [bind].
  destruct (py_get contest "results_overall" (JObj [])) as [results_overall |];
    reflexivity.
Qed.

(** Once the status date is truthy the function no longer returns [None]. *)
Lemma truthy_status_date_not_None (data results status_date : json) :
  (timestamp <- dateutil_parse status_date ;;
   items <- py_iter results ;;
   parties <- for_results data items [] ;;
   Ok (Some (mkProcessed _ timestamp (list_sort_reverse parties)))) <> Ok None.
Proof.
  destruct (dateutil_parse status_date); cbn [bind]; [| discriminate].
  destruct (py_iter results) as [items |]; cbn [bind]; [| discriminate].
  destruct (for_results data items []); cbn [bind]; discriminate.
Qed.

Lemma dateutil_parse_Ok (v : json) (d : datetime) :
  dateutil_parse v = Ok d -> exists s, v = JStr s /\ parser_parse s = Some d.
Proof.
  destruct v; simpl; try discriminate.
  destruct (parser_parse s) eqn:E; [| discriminate].
  intro E'. injection E' as <-. eauto.
Qed.

(** What a successful run has gone through. *)
Lemma process_election_data_Some (now : datetime) (data : json)
    (r : ProcessedElectionData) :
  process_election_data now data = Ok (Some r) ->
  exists latest s l,
    read_latest data = Ok (JObj latest)
    /\ assoc "status_date" latest = Some (JStr s)
    /\ s <> ""
    /\ parser_parse s = Some (timestamp r)
    /\ encountered data = Ok l
    /\ parties r = list_sort_reverse l.
Proof.
  rewrite process_election_data_latest. unfold encountered. intro E.
  inv_bind E as latest E0. rewrite E0. cbn [bind].
  inv_bind E as results E1. rewrite E1. cbn [bind].
  inv_bind E as status_date E2.
  destruct (py_get_Ok _ _ _ _ E2) as (m & -> & Hsd).
  destruct (truthy status_date) eqn:T; [| discriminate].
  inv_bind E as ts E3.
  inv_bind E as items E4. rewrite E4. cbn [bind].
  inv_bind E as l E5. rewrite E5.
  injection E as <-. cbn [timestamp parties].
  destruct (dateutil_parse_Ok _ _ E3) as (s & -> & P).
  exists m, s, l. repeat split; try assumption; try reflexivity.
  - unfold field_or, field in Hsd.
    destruct (assoc "status_date" m) as [v |]; [now subst v |].
    rewrite Hsd in T. discriminate.
  - intros ->. discriminate.
Qed.

(** A walk that fails is the failure of the parser. *)
Lemma process_election_data_walk_fails (now : datetime) (data : json) (e : exn) :
  read_latest data = Raise e -> process_election_data now data = Raise e.
Proof.
  intro L. now rewrite process_election_data_latest, L.
Qed.

End Parser.

(** ** The loop over the results *)

Lemma next_party_Ok (items : list json) (party_id party : json) :
  next_party items party_id = Ok party ->
  match find (fun p => py_eq (field_or p "id" JNull) party_id) items with
  | Some p => party = p /\ exists m, p = JObj m
  | None => party = JNull
  end.
Proof.
  induction items as [| p rest IH]; simpl; intro E.
  - now injection E as <-.
  - inv_bind E as id E0. destruct (py_get_Ok _ _ _ _ E0) as (m & -> & ->).
    destruct (py_eq (field_or (JObj m) "id" JNull) party_id).
    + injection E as <-. eauto.
    + now apply IH.
Qed.

(** A catalog that is walked without an exception is a list, or is empty. *)
Lemma walked_catalog (data catalog : json) (items : list json) (party_id party : json) :
  py_get data "parties" (JArr []) = Ok catalog ->
  py_iter catalog = Ok items ->
  next_party items party_id = Ok party ->
  items = catalog_items data.
Proof.
  intros G I N.
  destruct (py_get_Ok _ _ _ _ G) as (m & -> & ->).
  unfold catalog_items, field_or in *.
  destruct (field (JObj m) "parties") as [v |]; [| now injection I as <-].
  destruct v; simpl in I; try discriminate; injection I as <-.
  - destruct s; simpl in *; [reflexivity | discriminate].
  - reflexivity.
  - destruct m0; simpl in *; [reflexivity | discriminate].
Qed.

Lemma as_str_Ok (v : json) (s : string) : as_str v = Ok s -> s = text_of v.
Proof.
  destruct v; simpl; intro E; try discriminate. now injection E as <-.
Qed.

Lemma as_float_Ok (v : json) (q : Q) : as_float v = Ok q -> q = number_of v.
Proof.
  destruct v; simpl; intro E; try discriminate; now injection E as <-.
Qed.

Lemma falsy_not_nonempty_list (x v : json) :
  v = field_or x "percent" JNull -> truthy v = false -> percent_nonempty x = false.
Proof.
  unfold field_or, percent_nonempty. intros -> T.
  destruct (field x "percent") as [v |]; [| reflexivity].
  destruct v; try reflexivity. destruct l; [reflexivity | discriminate].
Qed.

(** One iteration appends the party the result selects, if it selects one. *)
Lemma process_result_Ok (data x : json) (acc acc' : list PartyResult) :
  process_result data x acc = Ok acc' ->
  acc' = acc ++ match party_result_of (catalog_items data) x with
                | Some p => [p]
                | None => []
                end.
Proof.
  unfold process_result, party_result_of. intro E.
  inv_bind E as target E0. destruct (py_get_Ok _ _ _ _ E0) as (m & -> & ->).
  fold (targets_parties (JObj m)) in E.
  destruct (targets_parties (JObj m)); cbn [andb];
    [| injection E as <-; now rewrite app_nil_r].
  inv_bind E as party_id E1. destruct (py_get_Ok _ _ _ _ E1) as (_ & _ & ->).
  inv_bind E as catalog E2.
  inv_bind E as items E3.
  inv_bind E as party E4.
  rewrite <- (walked_catalog _ _ _ _ _ E2 E3 E4).
  apply next_party_Ok in E4. fold (id_matches (JObj m)) in E4.
  unfold resolved_party.
  inv_bind E as percent E5.
  destruct (py_get_Ok _ _ _ _ E5) as (_ & _ & Hp).
  destruct (truthy percent) eqn:T.
  2:{ injection E as <-.
      rewrite (falsy_not_nonempty_list _ _ Hp T). now rewrite app_nil_r. }
  destruct (find (id_matches (JObj m)) items) as [p |].
  2:{ subst party. cbn [truthy] in E. injection E as <-.
      destruct (percent_nonempty (JObj m)); now rewrite app_nil_r. }
  destruct E4 as (-> & mp & ->).
  destruct (truthy (JObj mp)).
  2:{ injection E as <-.
      destruct (percent_nonempty (JObj m)); now rewrite app_nil_r. }
  inv_bind E as abbreviation A1. destruct (py_get_Ok _ _ _ _ A1) as (_ & _ & ->).
  inv_bind E as percent_list A2.
  destruct (py_get_Ok _ _ _ _ A2) as (_ & _ & Hl).
  inv_bind E as first E7.
  inv_bind E as value A3. destruct (py_get_Ok _ _ _ _ A3) as (mf & -> & ->).
  inv_bind E as absolute A4. destruct (py_get_Ok _ _ _ _ A4) as (mv & Hv & ->).
  inv_bind E as party_color A5. destruct (py_get_Ok _ _ _ _ A5) as (_ & _ & ->).
  inv_bind E as n A6. apply as_str_Ok in A6. subst n.
  inv_bind E as pct A7. apply as_float_Ok in A7. subst pct.
  inv_bind E as c' A8. apply as_str_Ok in A8. subst c'.
  injection E as <-.
  assert (F : field (JObj m) "percent" = Some percent_list
              /\ exists tl, percent_list = JArr (JObj mf :: tl)).
  { unfold field_or in Hp, Hl.
    destruct (field (JObj m) "percent") as [w |].
    - subst w percent_list. split; [reflexivity |].
      destruct percent; simpl in E7; try discriminate.
      + destruct s; [discriminate | now injection E7].
      + destruct l; [discriminate |]. injection E7 as ->. eauto.
    - subst percent. discriminate. }
  destruct F as (F & tl & ->).
  unfold percent_nonempty, first_percent_absolute. rewrite F.
  reflexivity.
Qed.

Lemma for_results_Ok (data : json) (items : list json) (acc l : list PartyResult) :
  for_results data items acc = Ok l ->
  l = acc ++ selected_parties (catalog_items data) items
  /\ Forall (fun x => exists m, x = JObj m) items.
Proof.
  revert acc. induction items as [| x rest IH]; simpl; intros acc E.
  - injection E as <-. now rewrite app_nil_r.
  - inv_bind E as acc' E0.
    destruct (IH _ E) as (-> & F).
    rewrite (process_result_Ok _ _ _ _ E0), <- app_assoc.
    split; [reflexivity |]. constructor; [| exact F].
    unfold process_result in E0. inv_bind E0 as target E1.
    destruct (py_get_Ok _ _ _ _ E1) as (m & -> & _). eauto.
Qed.

(** The entries the loop met are the parties the results select, in the order
    of the results list. *)
Lemma encountered_selected (data : json) (l : list PartyResult) :
  encountered data = Ok l ->
  exists latest,
    read_latest data = Ok (JObj latest)
    /\ l = selected_parties (catalog_items data) (results_items (JObj latest)).
Proof.
  unfold encountered. intro E.
  inv_bind E as latest E0.
  inv_bind E as results E1. destruct (py_get_Ok _ _ _ _ E1) as (m & -> & ->).
  inv_bind E as items E2.
  destruct (for_results_Ok _ _ _ _ E) as (-> & F).
  exists m. split; [assumption |]. cbn [app]. f_equal.
  unfold results_items, field_or in *.
  destruct (field (JObj m) "results") as [v |]; [| now injection E2 as <-].
  destruct v; simpl in E2; try discriminate; injection E2 as <-.
  - destruct s; [reflexivity |]. simpl in F.
    apply Forall_inv in F. destruct F as (? & F). discriminate.
  - reflexivity.
  - destruct m0; [reflexivity |]. simpl in F.
    apply Forall_inv in F. destruct F as (? & F). discriminate.
Qed.

(** ** The bar chart *)

Lemma fold_max (rest : list PartyResult) (best : PartyResult) :
  let m := fold_left
             (fun best x => if Qltb (percentage best) (percentage x) then x else best)
             rest best in
  (m = best \/ In m rest)
  /\ (percentage best <= percentage m)%Q
  /\ Forall (fun p => (percentage p <= percentage m)%Q) rest.
Proof.
  revert best. induction rest as [| x rest IH]; intro best; cbn [fold_left].
  - repeat split; [now left | apply Qle_refl | constructor].
  - destruct (Qltb (percentage best) (percentage x)) eqn:C.
    + apply Qltb_true in C.
      destruct (IH x) as (I & L & F). cbn zeta in I, L, F.
      repeat split.
      * right. destruct I as [-> | I]; [now left | now right].
      * apply Qlt_le_weak. eapply Qlt_le_trans; eassumption.
      * now constructor.
    + apply Qltb_false in C.
      destruct (IH best) as (I & L & F). cbn zeta in I, L, F.
      repeat split.
      * destruct I as [-> | I]; [now left | right; now right].
      * exact L.
      * constructor; [| exact F]. eapply Qle_trans; eassumption.
Qed.

(** [max] returns an element of the sequence that no other exceeds. *)
Lemma py_max_Ok (party_data : list PartyResult) :
  party_data <> [] ->
  exists m, py_max party_data = Ok m
            /\ In m party_data
            /\ Forall (fun p => (percentage p <= percentage m)%Q) party_data.
Proof.
  destruct party_data as [| first rest]; [contradiction | intros _].
  eexists. split; [reflexivity |].
  destruct (fold_max rest first) as (I & L & F). cbn zeta in I, L, F.
  split.
  - destruct I as [-> | I]; [now left | now right].
  - now constructor.
Qed.

Lemma for_enumerate_Ok (threshold max_percentage : Q) (bar_height : Z)
    (party_data : list PartyResult) (i : nat) (rectangles : list rectangle) :
  Qeq_bool max_percentage 0 = false ->
  for_enumerate threshold max_percentage bar_height (Z.of_nat i) party_data rectangles
  = Ok (rectangles ++ bands threshold max_percentage bar_height i party_data).
Proof.
  intro NZ. revert i rectangles.
  induction party_data as [| p rest IH]; intros i rectangles; cbn [for_enumerate bands].
  - now rewrite app_nil_r.
  - unfold bar_step, py_truediv. rewrite NZ. cbn [bind].
    replace (Z.of_nat i + 1)%Z with (Z.of_nat (S i)) by lia.
    rewrite IH, <- !app_assoc. reflexivity.
Qed.

Lemma for_enumerate_zero (threshold max_percentage : Q) (bar_height i : Z)
    (p : PartyResult) (rest : list PartyResult) (rectangles : list rectangle) :
  Qeq_bool max_percentage 0 = true ->
  for_enumerate threshold max_percentage bar_height i (p :: rest) rectangles
  = Raise ZeroDivisionError.
Proof.
  intro Z0. cbn [for_enumerate]. unfold bar_step, py_truediv. now rewrite Z0.
Qed.

(** The bar chart of a non-empty sequence: the background and the bands when
    the greatest percentage is not zero, a division by zero when it is. *)
Lemma generate_bar_chart_nonempty (party_data : list PartyResult) (threshold : Q) :
  party_data <> [] ->
  exists m,
    py_max party_data = Ok m
    /\ In m party_data
    /\ Forall (fun p => (percentage p <= percentage m)%Q) party_data
    /\ generate_bar_chart party_data threshold =
       if Qeq_bool (percentage m) 0
       then Raise ZeroDivisionError
       else Ok (background
                :: bands threshold (percentage m)
                         (8 / Z.of_nat (List.length party_data)) 0 party_data).
Proof.
  intro NE. destruct (py_max_Ok party_data NE) as (m & M & I & F).
  exists m. repeat split; try assumption.
  unfold generate_bar_chart. rewrite M.
  destruct party_data as [| p rest]; [contradiction |].
  cbn [List.length Nat.eqb bind].
  destruct (Qeq_bool (percentage m) 0) eqn:Z0.
  - now apply for_enumerate_zero.
  - change 0%Z with (Z.of_nat 0). now rewrite for_enumerate_Ok.
Qed.

(** The rectangles of party [i] stand at positions [2 i] and [2 i + 1] of the
    bands. *)
Lemma bands_nth (threshold max_percentage : Q) (band_height : Z)
    (party_data : list PartyResult) (start i : nat) (p : PartyResult) :
  nth_error party_data i = Some p ->
  let rects := bands threshold max_percentage band_height start party_data in
  nth_error rects (2 * i) = Some (bar_of max_percentage band_height (start + i) p)
  /\ nth_error rects (2 * i + 1)
     = Some (indicator_of threshold max_percentage band_height (start + i) p).
Proof.
  revert start i. induction party_data as [| x rest IH]; intros start i.
  - destruct i; discriminate.
  - destruct i as [| i]; cbn [nth_error bands].
    + intro E. injection E as ->. rewrite Nat.add_0_r. split; reflexivity.
    + intro E. destruct (IH (S start) i E) as (B & I). cbn zeta in B, I.
      replace (2 * S i)%nat with (S (S (2 * i))) by lia.
      replace (start + S i)%nat with (S start + i)%nat by lia.
      cbn [nth_error Nat.add]. split; [exact B |].
      replace (S (2 * i)) with (2 * i + 1)%nat by lia. exact I.
Qed.

(** For a greatest percentage other than zero the chart is the background
    followed, for the party at index [i], by its bar and then its indicator. *)
Lemma bar_chart_layout (party_data : list PartyResult) (threshold : Q)
    (m : PartyResult) :
  py_max party_data = Ok m ->
  ~ (percentage m == 0)%Q ->
  exists rects,
    generate_bar_chart party_data threshold = Ok (background :: rects)
    /\ forall i p, nth_error party_data i = Some p ->
         let band_height := (8 / Z.of_nat (List.length party_data))%Z in
         nth_error rects (2 * i)
         = Some (bar_of (percentage m) band_height i p)
         /\ nth_error rects (2 * i + 1)
            = Some (indicator_of threshold (percentage m) band_height i p).
Proof.
  intros M NZ.
  assert (NE : party_data <> []) by (intros ->; discriminate).
  destruct (generate_bar_chart_nonempty party_data threshold NE)
    as (m' & M' & _ & _ & G).
  rewrite M in M'. injection M' as <-.
  destruct (Qeq_bool (percentage m) 0) eqn:Z0;
    [apply Qeq_bool_eq in Z0; contradiction |].
  eexists. split; [exact G |].
  intros i p E. exact (bands_nth _ _ _ _ 0 i p E).
Qed.

(** ** The text message and the packet *)

Lemma fold_append {A B : Type} (f : A -> B) (l : list A) (acc : list B) :
  fold_left (fun acc x => acc ++ [f x]) l acc = acc ++ map f l.
Proof.
  revert acc. induction l as [| x l IH]; intro acc; simpl.
  - now rewrite app_nil_r.
  - now rewrite IH, <- app_assoc.
Qed.

(** * The claims *)

(** ** The parser *)

Section ParserClaims.

Context `{DateTime}.

(** C1 (amended).  For every document in which the way down to [latest]
    (election, first contest, results_overall, latest) can be walked and ends
    in an object, the parser returns [None], and raises nothing, exactly when
    [status_date] is absent from [latest] or falsy (the empty string, null,
    false, zero, an empty list or object); and when [status_date] is a
    non-empty string that [dateutil] cannot read, the parser raises
    [ParserError] and invents no timestamp. *)
Theorem no_data_iff_status_date_falsy (now : datetime) (data : json)
    (latest : list (string * json)) :
  read_latest data = Ok (JObj latest) ->
  (process_election_data now data = Ok None <->
   match assoc "status_date" latest with
   | None => True
   | Some v => truthy v = false
   end)
  /\ (forall s, assoc "status_date" latest = Some (JStr s) -> s <> "" ->
                parser_parse s = None ->
                process_election_data now data = Raise ParserError).
Proof.
  intro L. rewrite process_election_data_latest, L.
  cbn [bind py_get]. split.
  - destruct (assoc "status_date" latest) as [v |].
    + destruct (truthy v).
      * split; [| discriminate].
        intro E. now apply truthy_status_date_not_None in E.
      * split; reflexivity.
    + cbn [truthy String.eqb negb]. split; [trivial | reflexivity].
  - intros s -> Hs P.
    assert (T : truthy (JStr s) = true).
    { simpl. destruct (String.eqb_spec s ""); [contradiction | reflexivity]. }
    rewrite T. cbn [dateutil_parse]. rewrite P. reflexivity.
Qed.

(** C10.  A returned snapshot carries as timestamp the value [dateutil] read
    from the [status_date] string of the document, and the reading of the
    wall clock taken on the way has no influence on what is returned. *)
Theorem timestamp_is_parsed_status_date (now : datetime) (data : json)
    (r : ProcessedElectionData) :
  process_election_data now data = Ok (Some r) ->
  (exists latest s,
      read_latest data = Ok (JObj latest)
      /\ assoc "status_date" latest = Some (JStr s)
      /\ parser_parse s = Some (timestamp r))
  /\ forall now', process_election_data now' data = Ok (Some r).
Proof.
  intro E. split.
  - destruct (process_election_data_Some _ _ _ E)
      as (latest & s & l & L & A & _ & P & _).
    now exists latest, s.
  - intro now'. rewrite <- E. reflexivity.
Qed.

End ParserClaims.

(** ** The renderer and the assembler *)

(** C4 (the code fails the claim).  On the one-party input whose percentage is
    0 the greatest percentage is 0, the first bar width divides by it, and no
    rectangle is returned, the background included.  The parser produces this
    input from a document whose only result has no value yet. *)
Theorem bar_chart_single_zero_party :
  process_election_data SampleClock.noon uncounted = Ok (Some uncounted_snapshot)
  /\ parties uncounted_snapshot = [mkPartyResult "A" 0 "FF0000"]
  /\ generate_bar_chart [mkPartyResult "A" 0 "FF0000"] 5 = Raise ZeroDivisionError
  /\ generate_ulanzi_packet uncounted_snapshot = Raise ZeroDivisionError.
Proof.
  repeat split.
Qed.

(** C5 (the code fails the claim).  When both parties stand at 0 no indicator
    is returned, whatever the threshold: the call ends in the division by
    zero of the first bar. *)
Theorem bar_chart_no_indicator_all_zero (threshold : Q) :
  generate_bar_chart
    [mkPartyResult "A" 0 "FF0000"; mkPartyResult "B" 0 "0000FF"] threshold
  = Raise ZeroDivisionError.
Proof. reflexivity. Qed.

(** C6.  For the empty sequence the chart is empty, without a background,
    whatever the threshold; and only the empty sequence has an empty chart. *)
Theorem bar_chart_empty (threshold : Q) :
  generate_bar_chart [] threshold = Ok []
  /\ forall party_data,
       generate_bar_chart party_data threshold = Ok [] -> party_data = [].
Proof.
  split; [reflexivity |].
  intros party_data E. destruct party_data as [| p rest] eqn:P; [reflexivity |].
  assert (NE : p :: rest <> []) by discriminate.
  destruct (generate_bar_chart_nonempty (p :: rest) threshold NE)
    as (m & _ & _ & _ & G).
  rewrite G in E. destruct (Qeq_bool (percentage m) 0); discriminate.
Qed.


Section RenderClaims.

Context `{DateTime}.

(** C7 (amended).  For every snapshot whose timestamp [astimezone] takes to
    the local zone, the text message is one white fragment with the local
    time, written as two digits of the hour (below 24), a colon, two digits
    of the minute and a space, followed by one fragment for each party in the
    order of the parties: its name and a space, in its color.  When
    [astimezone] raises, the text message raises the same exception. *)
Theorem text_message_fragments (election_data : ProcessedElectionData) :
  (forall h m, local_time (timestamp election_data) = Ok (h, m) ->
     generate_text_message election_data
     = Ok (mkFragment (strftime_HM (h, m) ++ " ")%string "FFFFFF"
           :: map (fun p => mkFragment (name p ++ " ")%string (color p))
                  (parties election_data))
     /\ exists h1 h2 m1 m2 : nat,
          (h1 < 10 /\ h2 < 10 /\ m1 < 10 /\ m2 < 10)%nat
          /\ (10 * h1 + h2 = h)%nat
          /\ (10 * h1 + h2 < 24)%nat
          /\ (10 * m1 + m2 = m)%nat
          /\ (10 * m1 + m2 < 60)%nat
          /\ strftime_HM (h, m)
             = String (ascii_of_nat (48 + h1))
                 (String (ascii_of_nat (48 + h2))
                    (String ":"
                       (String (ascii_of_nat (48 + m1))
                          (String (ascii_of_nat (48 + m2)) EmptyString)))))
  /\ (forall e, local_time (timestamp election_data) = Raise e ->
        generate_text_message election_data = Raise e).
Proof.
  split.
  - intros h m L. split.
    + unfold generate_text_message. rewrite L. cbn [bind]. f_equal.
      exact (fold_append (fun p => mkFragment (name p ++ " ")%string (color p)) _ _).
    + destruct (local_time_lt _ _ _ L) as (Hh & Hm).
      exists (h / 10)%nat, (h mod 10)%nat, (m / 10)%nat, (m mod 10)%nat.
      pose proof (Nat.div_mod_eq h 10) as Dh.
      pose proof (Nat.div_mod_eq m 10) as Dm.
      pose proof (Nat.mod_upper_bound h 10) as Uh.
      pose proof (Nat.mod_upper_bound m 10) as Um.
      assert (Qh : (h / 10 < 10)%nat) by (apply Nat.Div0.div_lt_upper_bound; lia).
      assert (Qm : (m / 10 < 10)%nat) by (apply Nat.Div0.div_lt_upper_bound; lia).
      repeat split; try lia.
      unfold strftime_HM, pad2, digit. cbn [fst snd String.append].
      rewrite (Nat.mod_small (h / 10) 10 Qh), (Nat.mod_small (m / 10) 10 Qm).
      reflexivity.
  - intros e L. unfold generate_text_message. now rewrite L.
Qed.

(** C8.  When the bars and the text message are rendered, the packet is
    exactly the bars, the text message and the offset 8; every packet has the
    offset 8 and holds what the two renderers returned; and the packet fails
    only if one of the renderers does, with that very error: the assembly
    adds no failure of its own. *)
Theorem packet_assembly (election_data : ProcessedElectionData) :
  (forall bars fragments,
     generate_bar_chart (parties election_data) 5 = Ok bars ->
     generate_text_message election_data = Ok fragments ->
     generate_ulanzi_packet election_data
     = Ok {| draw := bars; text := fragments; textOffset := 8 |})
  /\ (forall pkt, generate_ulanzi_packet election_data = Ok pkt ->
        textOffset pkt = 8%Z
        /\ generate_bar_chart (parties election_data) 5 = Ok (draw pkt)
        /\ generate_text_message election_data = Ok (text pkt))
  /\ (forall e, generate_ulanzi_packet election_data = Raise e ->
        generate_bar_chart (parties election_data) 5 = Raise e
        \/ generate_text_message election_data = Raise e).
Proof.
  unfold generate_ulanzi_packet.
  destruct (generate_bar_chart (parties election_data) 5) as [bars | e];
    cbn [bind].
  - destruct (generate_text_message election_data) as [fragments | e];
      cbn [bind]; (split; [| split]).
    + intros bars' fragments' E1 E2. injection E1 as <-. now injection E2 as <-.
    + intros pkt E. injection E as <-. repeat split.
    + discriminate.
    + discriminate.
    + discriminate.
    + intros e' E. right. now injection E as <-.
  - (split; [| split]); try discriminate.
    intros e' E. left. now injection E as <-.
Qed.

End RenderClaims.

(** ** The claims on the example documents *)

(** The end-to-end example: the packet for A with 60 and B with 40. *)
Example two_parties_packet :
  generate_ulanzi_packet two_parties_snapshot
  = Ok {| draw := [mkRect 0 0 20 8 "000000";
                   mkRect 0 0 20 4 "FF0000"; mkRect 20 0 1 4 "00FF00";
                   mkRect 0 4 14 4 "0000FF"; mkRect 14 4 1 4 "00FF00"];
          text := [mkFragment "12:34 " "FFFFFF"; mkFragment "A " "FF0000";
                   mkFragment "B " "0000FF"];
          textOffset := 8 |}.
Proof. reflexivity. Qed.

(** One party alone is the greatest: a full bar and, above the threshold, a
    green indicator at its right edge. *)
Example single_party_chart :
  generate_bar_chart [mkPartyResult "" 50 "AA0000"] 5
  = Ok [mkRect 0 0 20 8 "000000"; mkRect 0 0 20 8 "AA0000";
        mkRect 20 0 1 8 "00FF00"].
Proof. reflexivity. Qed.

Lemma no_data_iff_status_date_falsy_witness :
  read_latest empty_status_date
  = Ok (JObj [("status_date", JStr ""); ("results", JArr [])])
  /\ process_election_data SampleClock.noon empty_status_date = Ok None
  /\ process_election_data SampleClock.noon unreadable_status_date
     = Raise ParserError.
Proof.
  split; [reflexivity |]. split.
  - apply (proj1 (no_data_iff_status_date_falsy (H := SampleClock.clock)
                    SampleClock.noon empty_status_date _ eq_refl)).
    reflexivity.
  - apply (proj2 (no_data_iff_status_date_falsy (H := SampleClock.clock)
                    SampleClock.noon unreadable_status_date _ eq_refl) "soon").
    + reflexivity.
    + discriminate.
    + reflexivity.
Defined.

(** C1 as stated fails in both directions.  In a document whose contest list
    is empty the [status_date] field is absent, and the parser raises
    [IndexError] instead of returning [None]; and a [status_date] that is the
    number 0 is neither absent nor empty, and the parser returns [None]. *)
Lemma no_contest_raises :
  (absent_or_empty (status_date_field no_contest) = true
   /\ process_election_data SampleClock.noon no_contest = Raise IndexError
   /\ process_election_data SampleClock.noon no_contest <> Ok None)
  /\ (absent_or_empty (status_date_field zero_status_date) = false
      /\ process_election_data SampleClock.noon zero_status_date = Ok None).
Proof.
  split; split; try reflexivity. split; [reflexivity | discriminate].
Defined.

Lemma timestamp_is_parsed_status_date_witness :
  process_election_data SampleClock.noon two_parties = Ok (Some two_parties_snapshot)
  /\ forall now', process_election_data now' two_parties
                  = Ok (Some two_parties_snapshot).
Proof.
  split; [reflexivity |].
  exact (proj2 (timestamp_is_parsed_status_date (H := SampleClock.clock)
                  SampleClock.noon two_parties two_parties_snapshot eq_refl)).
Defined.

(** The tie of the example: B was met before C and stays before it. *)
Example tied_parties_order :
  encountered tied_parties
  = Ok [mkPartyResult "B" 40 "0000FF"; mkPartyResult "A" 60 "FF0000";
        mkPartyResult "C" 40 "00FFFF"]
  /\ option_map parties
       (match process_election_data SampleClock.noon tied_parties with
        | Ok o => o
        | Raise _ => None
        end)
     = Some [mkPartyResult "A" 60 "FF0000"; mkPartyResult "B" 40 "0000FF";
             mkPartyResult "C" 40 "00FFFF"].
Proof. split; reflexivity. Qed.

Lemma bar_chart_empty_witness :
  generate_bar_chart [] 5 = Ok []
  /\ forall party_data, generate_bar_chart party_data 5 = Ok [] -> party_data = [].
Proof.
  exact (bar_chart_empty 5).
Defined.


Lemma packet_assembly_witness :
  exists bars fragments,
    generate_bar_chart (parties two_parties_snapshot) 5 = Ok bars
    /\ generate_text_message two_parties_snapshot = Ok fragments
    /\ generate_ulanzi_packet two_parties_snapshot
       = Ok {| draw := bars; text := fragments; textOffset := 8 |}.
Proof.
  do 2 eexists. split; [reflexivity |]. split; [reflexivity |].
  apply (proj1 (packet_assembly (H := SampleClock.clock) two_parties_snapshot));
    reflexivity.
Defined.

Lemma text_message_fragments_witness :
  local_time (timestamp two_parties_snapshot) = Ok (12%nat, 34%nat)
  /\ generate_text_message two_parties_snapshot
     = Ok [mkFragment "12:34 " "FFFFFF"; mkFragment "A " "FF0000";
           mkFragment "B " "0000FF"].
Proof.
  split; [reflexivity |].
  exact (proj1 (proj1 (text_message_fragments (H := SampleClock.clock)
                         two_parties_snapshot) 12%nat 34%nat eq_refl)).
Defined.

(** C7 as stated fails: the first midnight of the calendar, five hours east
    of UTC, is a timestamp the parser returns, and for a snapshot with it the
    text message raises [OverflowError] instead of returning fragments. *)
Lemma text_message_overflow :
  parser_parse "0001-01-01T00:00:00+05:00" = Some first_midnight
  /\ generate_text_message (mkProcessed _ first_midnight []) = Raise OverflowError.
Proof.
  split; reflexivity.
Defined.

(** * Further properties of the code *)

(** ** The geometry of the bar chart *)


Lemma bands_length (threshold max_percentage : Q) (band_height : Z)
    (party_data : list PartyResult) (start : nat) :
  List.length (bands threshold max_percentage band_height start party_data)
  = (2 * List.length party_data)%nat.
Proof.
  revert start. induction party_data as [| p rest IH]; intro start; simpl.
  - reflexivity.
  - rewrite IH. lia.
Qed.

Lemma bands_In (threshold max_percentage : Q) (band_height : Z)
    (party_data : list PartyResult) (start : nat) (r : rectangle) :
  In r (bands threshold max_percentage band_height start party_data) ->
  exists i p,
    nth_error party_data i = Some p
    /\ (r = bar_of max_percentage band_height (start + i) p
        \/ r = indicator_of threshold max_percentage band_height (start + i) p).
Proof.
  revert start. induction party_data as [| p rest IH]; intro start; simpl.
  - contradiction.
  - intros [<- | [<- | I]].
    + exists 0%nat, p. rewrite Nat.add_0_r. split; [reflexivity | now left].
    + exists 0%nat, p. rewrite Nat.add_0_r. split; [reflexivity | now right].
    + destruct (IH (S start) I) as (i & q & E & D).
      exists (S i), q. split; [exact E |].
      replace (start + S i)%nat with (S start + i)%nat by lia. exact D.
Qed.

(** What a returned chart is made of. *)
Lemma generate_bar_chart_Ok (party_data : list PartyResult) (threshold : Q)
    (rects : list rectangle) :
  generate_bar_chart party_data threshold = Ok rects ->
  (party_data = [] /\ rects = [])
  \/ exists m,
       py_max party_data = Ok m
       /\ In m party_data
       /\ Forall (fun p => (percentage p <= percentage m)%Q) party_data
       /\ ~ (percentage m == 0)%Q
       /\ rects = background
                  :: bands threshold (percentage m)
                           (8 / Z.of_nat (List.length party_data)) 0 party_data.
Proof.
  intro E. destruct party_data as [| p rest] eqn:P.
  - left. split; [reflexivity |]. now injection E as <-.
  - right. rewrite <- P in *.
    assert (NE : party_data <> []) by (rewrite P; discriminate).
    destruct (generate_bar_chart_nonempty party_data threshold NE)
      as (m & M & I & F & G).
    rewrite G in E. exists m.
    destruct (Qeq_bool (percentage m) 0) eqn:Z0; [discriminate |].
    apply Qeq_bool_neq in Z0. injection E as <-.
    repeat split; assumption.
Qed.

(** A greatest percentage that is not zero, among percentages that are not
    negative, is positive. *)
Lemma positive_maximum (party_data : list PartyResult) (m : PartyResult) :
  Forall (fun p => (0 <= percentage p)%Q) party_data ->
  In m party_data -> ~ (percentage m == 0)%Q -> (0 < percentage m)%Q.
Proof.
  intros NN I NZ. rewrite Forall_forall in NN.
  destruct (Qle_lt_or_eq _ _ (NN m I)) as [L | L]; [exact L |].
  exfalso. apply NZ. now symmetry.
Qed.

Lemma bar_width_of_bounds (max_percentage : Q) (p : PartyResult) :
  (0 < max_percentage)%Q ->
  (0 <= percentage p)%Q -> (percentage p <= max_percentage)%Q ->
  (0 <= bar_width_of max_percentage p <= 20)%Z.
Proof.
  intros Pm P0 Pl. unfold bar_width_of.
  assert (L : (0 <= percentage p / max_percentage)%Q).
  { apply Qle_shift_div_l; [exact Pm |]. now rewrite Qmult_0_l. }
  assert (U : (percentage p / max_percentage <= 1)%Q).
  { apply Qle_shift_div_r; [exact Pm |]. now rewrite Qmult_1_l. }
  split.
  - change 0%Z with (Qceiling (inject_Z 0)). apply Qceiling_resp_le.
    apply Qmult_le_0_compat; [exact L | discriminate].
  - rewrite <- (Qceiling_Z 20) at 2. apply Qceiling_resp_le.
    rewrite <- (Qmult_1_l (inject_Z 20)) at 2.
    apply Qmult_le_compat_r; [exact U | discriminate].
Qed.


Lemma bar_width_of_greatest (max_percentage : Q) (p : PartyResult) :
  ~ (max_percentage == 0)%Q -> (percentage p == max_percentage)%Q ->
  bar_width_of max_percentage p = 20%Z.
Proof.
  intros NZ E. unfold bar_width_of.
  rewrite <- (Qceiling_Z 20) at 2. apply Qceiling_comp.
  rewrite E. unfold Qdiv. rewrite (Qmult_inv_r _ NZ). apply Qmult_1_l.
Qed.

Lemma bar_width_of_zero (max_percentage : Q) (p : PartyResult) :
  (percentage p == 0)%Q -> bar_width_of max_percentage p = 0%Z.
Proof.
  intro E. unfold bar_width_of.
  transitivity (Qceiling (inject_Z 0)); [apply Qceiling_comp | reflexivity].
  rewrite E. unfold Qdiv. now rewrite !Qmult_0_l.
Qed.

(** A returned chart has no rectangle for the empty sequence and otherwise the
    background and two rectangles for each party. *)
Theorem bar_chart_rectangle_count (party_data : list PartyResult) (threshold : Q)
    (rects : list rectangle) :
  generate_bar_chart party_data threshold = Ok rects ->
  List.length rects
  = match party_data with
    | [] => 0%nat
    | _ => (1 + 2 * List.length party_data)%nat
    end.
Proof.
  intro E. destruct (generate_bar_chart_Ok _ _ _ E)
    as [(-> & ->) | (m & _ & I & _ & _ & ->)]; [reflexivity |].
  destruct party_data as [| p rest]; [contradiction |].
  cbn [List.length]. now rewrite bands_length.
Qed.

(** With no negative percentage, every rectangle of a returned chart has
    non-negative position and size, ends at column 21 at the latest (the bar
    within the 20 columns of the chart, the indicator at most one column
    further) and at row 8 at the latest. *)
Theorem bar_chart_within_matrix (party_data : list PartyResult) (threshold : Q)
    (rects : list rectangle) :
  Forall (fun p => (0 <= percentage p)%Q) party_data ->
  generate_bar_chart party_data threshold = Ok rects ->
  Forall (fun r => (0 <= rect_x r /\ 0 <= rect_y r
                    /\ 0 <= rect_width r /\ 0 <= rect_height r
                    /\ rect_x r + rect_width r <= 21
                    /\ rect_y r + rect_height r <= 8)%Z) rects.
Proof.
  intros NN E. destruct (generate_bar_chart_Ok _ _ _ E)
    as [(-> & ->) | (m & _ & I & F & NZ & ->)]; [constructor |].
  pose proof (positive_maximum _ _ NN I NZ) as Pm.
  constructor; [cbn; lia |].
  apply Forall_forall. intros r Ir.
  destruct (bands_In _ _ _ _ _ _ Ir) as (i & p & Ei & D).
  assert (Ip : In p party_data) by (eapply nth_error_In; exact Ei).
  assert (Li : (i < List.length party_data)%nat)
    by (apply nth_error_Some; rewrite Ei; discriminate).
  rewrite Forall_forall in NN, F.
  pose proof (bar_width_of_bounds (percentage m) p Pm (NN p Ip) (F p Ip)) as W.
  set (n := Z.of_nat (List.length party_data)) in *.
  assert (Hn : (0 < n)%Z) by (unfold n; lia).
  pose proof (Z.mul_div_le 8 n Hn) as Hd.
  assert (Hb : (0 <= 8 / n)%Z) by (apply Z.div_pos; lia).
  assert (Hi : (Z.of_nat (0 + i) + 1 <= n)%Z) by (unfold n; lia).
  destruct D as [-> | ->]; cbn [bar_of indicator_of rect_x rect_y rect_width rect_height];
    repeat split; try lia; nia.
Qed.

(** In a returned chart the bar of a party that no other exceeds spans the 20
    columns of the chart, and its indicator stands in column 20. *)
Theorem greatest_party_bar_full_width (party_data : list PartyResult)
    (threshold : Q) (rects : list rectangle) (i : nat) (p : PartyResult) :
  generate_bar_chart party_data threshold = Ok rects ->
  nth_error party_data i = Some p ->
  Forall (fun q => (percentage q <= percentage p)%Q) party_data ->
  exists bar indicator,
    nth_error rects (1 + 2 * i) = Some bar
    /\ nth_error rects (2 + 2 * i) = Some indicator
    /\ rect_x bar = 0%Z /\ rect_width bar = 20%Z /\ rect_color bar = color p
    /\ rect_x indicator = 20%Z /\ rect_width indicator = 1%Z.
Proof.
  intros E Ei G. destruct (generate_bar_chart_Ok _ _ _ E)
    as [(-> & ->) | (m & _ & I & F & NZ & ->)]; [destruct i; discriminate |].
  assert (Ip : In p party_data) by (eapply nth_error_In; exact Ei).
  rewrite Forall_forall in G, F.
  assert (Q1 : (percentage p == percentage m)%Q)
    by (apply Qle_antisym; [apply F | apply G]; assumption).
  destruct (bands_nth threshold (percentage m)
              (8 / Z.of_nat (List.length party_data)) party_data 0 i p Ei)
    as (B & D). cbn zeta in B, D.
  do 2 eexists. split; [exact B |]. split.
  { replace (2 + 2 * i)%nat with (S (2 * i + 1)) by lia. exact D. }
  cbn [bar_of indicator_of rect_x rect_width rect_color].
  rewrite (bar_width_of_greatest _ _ NZ Q1). repeat split.
Qed.

(** In a returned chart a party at 0 has a bar without width, and its
    indicator stands in column 0. *)
Theorem zero_share_bar_has_no_width (party_data : list PartyResult)
    (threshold : Q) (rects : list rectangle) (i : nat) (p : PartyResult) :
  generate_bar_chart party_data threshold = Ok rects ->
  nth_error party_data i = Some p ->
  (percentage p == 0)%Q ->
  exists bar indicator,
    nth_error rects (1 + 2 * i) = Some bar
    /\ nth_error rects (2 + 2 * i) = Some indicator
    /\ rect_width bar = 0%Z
    /\ rect_x indicator = 0%Z /\ rect_width indicator = 1%Z.
Proof.
  intros E Ei Z0. destruct (generate_bar_chart_Ok _ _ _ E)
    as [(-> & ->) | (m & _ & I & F & NZ & ->)]; [destruct i; discriminate |].
  destruct (bands_nth threshold (percentage m)
              (8 / Z.of_nat (List.length party_data)) party_data 0 i p Ei)
    as (B & D). cbn zeta in B, D.
  do 2 eexists. split; [exact B |]. split.
  { replace (2 + 2 * i)%nat with (S (2 * i + 1)) by lia. exact D. }
  cbn [bar_of indicator_of rect_x rect_width].
  rewrite (bar_width_of_zero _ _ Z0). repeat split.
Qed.


(** With more than eight parties the band height is 0: every rectangle behind
    the background lies in row 0 and has no height. *)
Theorem more_than_eight_parties_no_height (party_data : list PartyResult)
    (threshold : Q) (rects : list rectangle) :
  (8 < List.length party_data)%nat ->
  generate_bar_chart party_data threshold = Ok rects ->
  exists rest,
    rects = background :: rest
    /\ Forall (fun r => rect_y r = 0%Z /\ rect_height r = 0%Z) rest.
Proof.
  intros L E. destruct (generate_bar_chart_Ok _ _ _ E)
    as [(-> & ->) | (m & _ & I & F & NZ & ->)]; [simpl in L; lia |].
  eexists. split; [reflexivity |].
  assert (Hb : (8 / Z.of_nat (List.length party_data) = 0)%Z)
    by (apply Z.div_small; lia).
  rewrite Hb. apply Forall_forall. intros r Ir.
  destruct (bands_In _ _ _ _ _ _ Ir) as (i & p & _ & [-> | ->]);
    cbn [bar_of indicator_of rect_y rect_height]; split; lia.
Qed.

(** ** The sort on lists that are in order *)

Lemma StronglySorted_rev {A : Type} (R : A -> A -> Prop) (l : list A) :
  StronglySorted R l -> StronglySorted (fun a b => R b a) (rev l).
Proof.
  induction 1 as [| a l S IH F]; simpl; [constructor |].
  apply Forall_rev in F. revert IH F.
  generalize (rev l) as k. induction k as [| b k IHk]; simpl; intros S' F'.
  - constructor; constructor.
  - apply StronglySorted_inv in S'. destruct S' as [S' Fb].
    apply Forall_cons_iff in F'. destruct F' as [Hb F'].
    constructor; [now apply IHk |].
    apply Forall_app. split; [exact Fb | now constructor].
Qed.

Lemma StronglySorted_middle {A : Type} (R : A -> A -> Prop) (l1 l2 : list A) (x : A) :
  StronglySorted R (l1 ++ x :: l2) -> Forall (fun y => R y x) l1.
Proof.
  induction l1 as [| a l1 IH]; simpl; intro S; [constructor |].
  apply StronglySorted_inv in S. destruct S as [S F].
  constructor; [| now apply IH].
  rewrite Forall_forall in F. apply F. apply in_or_app. right. now left.
Qed.

Lemma insert_right_last (x : PartyResult) (acc : list PartyResult) :
  Forall (fun y => (percentage y <= percentage x)%Q) acc ->
  insert_right x acc = acc ++ [x].
Proof.
  induction 1 as [| y acc Hy F IH]; simpl; [reflexivity |].
  apply Qltb_false in Hy. now rewrite Hy, IH.
Qed.

Lemma list_sort_ascending (l : list PartyResult) : ascending l -> list_sort l = l.
Proof.
  unfold list_sort.
  assert (G : forall acc, ascending (acc ++ l) ->
                          fold_left (fun acc x => insert_right x acc) l acc = acc ++ l).
  { induction l as [| x l IH]; intros acc S; cbn [fold_left].
    - now rewrite app_nil_r.
    - rewrite (insert_right_last x acc (StronglySorted_middle _ _ _ _ S)).
      rewrite IH; rewrite <- app_assoc; [reflexivity | exact S]. }
  intro S. exact (G [] S).
Qed.

(** [list.sort(..., reverse=True)] leaves a list alone whose percentages
    already descend, so that sorting twice is sorting once. *)
Theorem sort_fixes_descending (l : list PartyResult) :
  (descending l -> list_sort_reverse l = l)
  /\ list_sort_reverse (list_sort_reverse l) = list_sort_reverse l.
Proof.
  assert (G : forall k, descending k -> list_sort_reverse k = k).
  { intros k D. unfold list_sort_reverse.
    rewrite list_sort_ascending; [apply rev_involutive |].
    exact (StronglySorted_rev _ _ D). }
  split; [apply G |]. apply G. apply list_sort_reverse_spec.
Qed.


(** ** The parser on documents of the expected shape *)

Lemma next_party_total (items : list json) (party_id : json) :
  Forall catalog_entry_shape items ->
  exists party, next_party items party_id = Ok party
                /\ (party = JNull \/ In party items).
Proof.
  induction 1 as [| e items (m & -> & _) F IH]; simpl.
  - exists JNull. split; [reflexivity | now left].
  - destruct (py_eq _ party_id).
    + eexists. split; [reflexivity |]. right. now left.
    + destruct IH as (party & E & D). exists party. split; [exact E |].
      destruct D as [D | D]; [now left | right; now right].
Qed.

Lemma optional_text_str (m : list (string * json)) (k default : string) :
  optional_text (assoc k m) ->
  exists s, match assoc k m with Some v => v | None => JStr default end = JStr s.
Proof.
  destruct (assoc k m) as [v |]; simpl; [| eauto].
  destruct v; try contradiction. eauto.
Qed.

Lemma percent_shape_absolute (m : list (string * json)) :
  percent_shape (assoc "percent" m) ->
  truthy (match assoc "percent" m with Some v => v | None => JNull end) = true ->
  exists q,
    (percent_list <- py_get (JObj m) "percent" (JArr [JObj []]) ;;
     first <- py_index0 percent_list ;;
     value <- py_get first "value" (JObj []) ;;
     py_get value "absolute" (JNum 0)) = Ok (JNum q).
Proof.
  cbn [py_get bind]. destruct (assoc "percent" m) as [v |]; [| discriminate].
  destruct v; try contradiction.
  destruct l as [| first tl]; [discriminate |].
  destruct first; try contradiction.
  cbn [percent_shape py_index0 py_get bind]. intros S _.
  destruct (assoc "value" m0) as [v |]; [| cbn; eauto].
  destruct v; try contradiction. cbn [py_get].
  destruct (assoc "absolute" m1) as [a |]; [| eauto].
  destruct a; try contradiction. eauto.
Qed.

Lemma process_result_total (d : list (string * json)) (x : json)
    (acc : list PartyResult) :
  catalog_shape (JObj d) -> result_shape x ->
  exists acc', process_result (JObj d) x acc = Ok acc'.
Proof.
  intros C (m & -> & P). unfold process_result. cbn [py_get bind].
  destruct (py_eq _ (JStr "parties")); [| eauto].
  unfold catalog_shape in C. cbn [field] in C.
  assert (I : exists items,
             py_iter (match assoc "parties" d with Some v => v | None => JArr [] end)
             = Ok items /\ Forall catalog_entry_shape items).
  { destruct (assoc "parties" d) as [v |]; [| eexists; split; [reflexivity | constructor]].
    destruct v; try contradiction. eexists. split; [reflexivity | exact C]. }
  destruct I as (items & -> & F). cbn [bind].
  destruct (next_party_total items
              (match assoc "target_id" m with Some v => v | None => JNull end) F)
    as (party & -> & Hp).
  cbn [bind].
  destruct (truthy (match assoc "percent" m with Some v => v | None => JNull end))
    eqn:T; [| eauto].
  destruct (truthy party) eqn:Tp; [| eauto].
  destruct Hp as [-> | Ip]; [discriminate |].
  rewrite Forall_forall in F. destruct (F party Ip) as (e & -> & Sa & Sc).
  cbn [py_get bind].
  destruct (percent_shape_absolute m P T) as (q & Q1).
  cbn [py_get bind] in Q1.
  destruct (optional_text_str e "abbreviation" "" Sa) as (n & ->).
  destruct (optional_text_str e "color" "000000" Sc) as (c' & ->).
  destruct (py_index0 _) as [first |]; cbn [bind] in *; [| discriminate].
  destruct (py_get first "value" (JObj [])) as [value |]; cbn [bind] in *;
    [| discriminate].
  rewrite Q1. cbn. eauto.
Qed.

Lemma for_results_total (d : list (string * json)) (items : list json)
    (acc : list PartyResult) :
  catalog_shape (JObj d) -> Forall result_shape items ->
  exists l, for_results (JObj d) items acc = Ok l.
Proof.
  intros C F. revert acc.
  induction F as [| x items Sx F IH]; intro acc; cbn [for_results]; [eauto |].
  destruct (process_result_total d x acc C Sx) as (acc' & ->). cbn [bind].
  apply IH.
Qed.

Lemma read_latest_object (data latest : json) :
  read_latest data = Ok latest -> exists d, data = JObj d.
Proof.
  unfold read_latest. intro E. inv_bind E as election_data E0.
  destruct (py_get_Ok _ _ _ _ E0) as (d & -> & _). eauto.
Qed.

Lemma selected_parties_In (catalog items : list json) (p : PartyResult) :
  In p (selected_parties catalog items) ->
  exists x, In x items /\ party_result_of catalog x = Some p.
Proof.
  unfold selected_parties. intro I. apply in_flat_map in I.
  destruct I as (x & Ix & Ip). exists x. split; [exact Ix |].
  destruct (party_result_of catalog x) as [p' |]; [| contradiction].
  destruct Ip as [-> | []]. reflexivity.
Qed.

Lemma selected_parties_length (catalog items : list json) :
  (List.length (selected_parties catalog items) <= List.length items)%nat.
Proof.
  unfold selected_parties. induction items as [| x items IH]; simpl; [lia |].
  rewrite length_app. destruct (party_result_of catalog x); simpl; lia.
Qed.

(** A result with another target is passed over, whatever else it holds and
    whatever the catalog is. *)
Theorem other_targets_skipped (data : json) (m : list (string * json))
    (before behind : list json) (acc : list PartyResult) :
  targets_parties (JObj m) = false ->
  for_results data (before ++ JObj m :: behind) acc
  = for_results data (before ++ behind) acc.
Proof.
  intro T. revert acc. induction before as [| x before IH]; intro acc.
  - cbn [app for_results]. unfold process_result. cbn [py_get bind].
    unfold targets_parties, field_or, field in T. now rewrite T.
  - cbn [app for_results].
    destruct (process_result data x acc) as [acc' |]; cbn [bind]; [apply IH | reflexivity].
Qed.

Section ParserProperties.

Context `{DateTime}.

(** On a document of the expected shape whose status date [dateutil] reads,
    the parser raises nothing: it returns the snapshot with that timestamp
    and the selected parties, sorted. *)
Theorem parse_total_on_shaped_documents (now : datetime) (data : json)
    (latest : list (string * json)) (s : string) (ts : datetime) :
  read_latest data = Ok (JObj latest) ->
  results_shape latest ->
  catalog_shape data ->
  assoc "status_date" latest = Some (JStr s) ->
  s <> "" ->
  parser_parse s = Some ts ->
  process_election_data now data
  = Ok (Some (mkProcessed _ ts
                (list_sort_reverse
                   (selected_parties (catalog_items data)
                                     (results_items (JObj latest)))))).
Proof.
  intros L R C A Hs P.
  destruct (read_latest_object _ _ L) as (d & ->).
  rewrite process_election_data_latest, L. cbn [bind py_get]. rewrite A.
  assert (T : truthy (JStr s) = true).
  { simpl. destruct (String.eqb_spec s ""); [contradiction | reflexivity]. }
  rewrite T. cbn [dateutil_parse]. rewrite P. cbn [bind].
  unfold results_shape in R. unfold results_items. cbn [field].
  assert (I : exists items,
             py_iter (match assoc "results" latest with
                      | Some v => v
                      | None => JArr []
                      end) = Ok items
             /\ Forall result_shape items
             /\ match assoc "results" latest with
                | Some (JArr l) => l
                | _ => []
                end = items).
  { destruct (assoc "results" latest) as [v |];
      [| eexists; repeat split; constructor].
    destruct v; try contradiction. eexists. repeat split. exact R. }
  destruct I as (items & -> & F & ->). cbn [bind].
  destruct (for_results_total d items [] C F) as (l & E). rewrite E. cbn [bind].
  destruct (for_results_Ok _ _ _ _ E) as (-> & _). reflexivity.
Qed.

(** A status date that is truthy and not a string (a number, [true], a
    non-empty list or object) makes the parser raise [TypeError]. *)
Theorem status_date_not_a_string_raises (now : datetime) (data : json)
    (latest : list (string * json)) (v : json) :
  read_latest data = Ok (JObj latest) ->
  assoc "status_date" latest = Some v ->
  truthy v = true ->
  (forall s, v <> JStr s) ->
  process_election_data now data = Raise TypeError.
Proof.
  intros L A T N. rewrite process_election_data_latest, L.
  cbn [bind py_get]. rewrite A, T.
  destruct v; try reflexivity. now destruct (N s).
Qed.

(** A snapshot never has more parties than the document has results. *)
Theorem parties_no_more_than_results (now : datetime) (data : json)
    (r : ProcessedElectionData) :
  process_election_data now data = Ok (Some r) ->
  exists latest,
    read_latest data = Ok (JObj latest)
    /\ (List.length (parties r) <= List.length (results_items (JObj latest)))%nat.
Proof.
  intro E.
  destruct (process_election_data_Some _ _ _ E)
    as (latest & s & l & L & _ & _ & _ & M & P).
  destruct (encountered_selected _ _ M) as (latest' & L' & ->).
  rewrite L in L'. injection L' as <-.
  exists latest. split; [exact L |].
  rewrite P, <- (Permutation_length (proj1 (list_sort_reverse_spec _))).
  apply selected_parties_length.
Qed.


End ParserProperties.

(** ** The text message and empty results *)

Section TextProperties.

Context `{DateTime}.

(** The text message does not look at percentages: snapshots with the same
    timestamp whose parties have the same names and colors, in the same
    order, have the same message. *)
Theorem text_message_ignores_percentages (d1 d2 : ProcessedElectionData) :
  timestamp d1 = timestamp d2 ->
  map (fun p => (name p, color p)) (parties d1)
  = map (fun p => (name p, color p)) (parties d2) ->
  generate_text_message d1 = generate_text_message d2.
Proof.
  intros T E. unfold generate_text_message. rewrite T.
  destruct (local_time (timestamp d2)) as [local |]; [| reflexivity].
  cbn [bind]. f_equal.
  rewrite !(fold_append (fun p => mkFragment (name p ++ " ")%string (color p))).
  f_equal.
  change (fun p => mkFragment (name p ++ " ")%string (color p))
    with (fun p => (fun nc => mkFragment (fst nc ++ " ")%string (snd nc))
                     ((fun p => (name p, color p)) p)).
  rewrite <- !(map_map (fun p => (name p, color p))
                       (fun nc => mkFragment (fst nc ++ " ")%string (snd nc))).
  now rewrite E.
Qed.

(** A document with a readable status date and no results gives a snapshot
    without parties, whatever the catalog is; its packet has no rectangle and
    the time alone as text when [astimezone] takes the timestamp to the local
    zone, and raises what [astimezone] raises otherwise. *)
Theorem no_results_time_only (now : datetime) (data : json)
    (latest : list (string * json)) (s : string) (ts : datetime) :
  read_latest data = Ok (JObj latest) ->
  assoc "results" latest = None \/ assoc "results" latest = Some (JArr []) ->
  assoc "status_date" latest = Some (JStr s) ->
  s <> "" ->
  parser_parse s = Some ts ->
  process_election_data now data = Ok (Some (mkProcessed _ ts []))
  /\ (forall h m, local_time ts = Ok (h, m) ->
        generate_ulanzi_packet (mkProcessed _ ts [])
        = Ok {| draw := [];
                text := [mkFragment (strftime_HM (h, m) ++ " ")%string "FFFFFF"];
                textOffset := 8 |})
  /\ (forall e, local_time ts = Raise e ->
        generate_ulanzi_packet (mkProcessed _ ts []) = Raise e).
Proof.
  intros L R A Hs P. split; [| split].
  - rewrite process_election_data_latest, L. cbn [bind py_get]. rewrite A.
    assert (T : truthy (JStr s) = true).
    { simpl. destruct (String.eqb_spec s ""); [contradiction | reflexivity]. }
    rewrite T. cbn [dateutil_parse]. rewrite P. cbn [bind].
    destruct R as [-> | ->]; reflexivity.
  - intros h m T. unfold generate_ulanzi_packet, generate_text_message.
    cbn [parties timestamp generate_bar_chart List.length Nat.eqb bind].
    now rewrite T.
  - intros e T. unfold generate_ulanzi_packet, generate_text_message.
    cbn [parties timestamp generate_bar_chart List.length Nat.eqb bind].
    now rewrite T.
Qed.

End TextProperties.

(** ** The configuration *)

Lemma getenv_app (env1 env2 : environ) (k : string) :
  getenv (env1 ++ env2) k
  = match getenv env1 k with
    | Some v => Some v
    | None => getenv env2 k
    end.
Proof.
  induction env1 as [| [k' v] env1 IH]; simpl; [reflexivity |].
  now destruct (String.eqb k k').
Qed.

(** After [load_dotenv()] a name has the value the environment gave it, and
    the value of the [.env] file only when the environment gave none. *)
Lemma getenv_load_dotenv (dotenv : list (string * option string)) (env : environ)
    (k : string) :
  getenv (load_dotenv dotenv env) k
  = match getenv env k with
    | Some v => Some v
    | None => dotenv_value dotenv k
    end.
Proof.
  revert env. induction dotenv as [| [k' v] rest IH]; intro env;
    cbn [load_dotenv dotenv_value].
  - now destruct (getenv env k).
  - rewrite IH. destruct v as [v |].
    + destruct (getenv env k') as [v' |] eqn:E'.
      * destruct (getenv env k) as [w |] eqn:E; [reflexivity |].
        destruct (String.eqb_spec k k') as [-> | N]; [congruence | reflexivity].
      * rewrite getenv_app. destruct (getenv env k) as [w |] eqn:E; [reflexivity |].
        cbn [getenv]. destruct (String.eqb k k'); [reflexivity |].
        now destruct (dotenv_value rest k).
    + now destruct (getenv env k'), (getenv env k).
Qed.

(** The request of the script: the election and the stage come from the
    environment or else from the [.env] file, but the endpoint comes from the
    environment alone, read before the [.env] file is loaded; without
    [API_URL] in the environment the endpoint is "None/results", whatever the
    [.env] file says. *)
Theorem api_url_ignores_dotenv (process_env : environ)
    (dotenv : list (string * option string)) :
  endpoint (script_request process_env dotenv)
  = (py_str (getenv process_env "API_URL") ++ "/results")%string
  /\ (getenv process_env "API_URL" = None ->
      endpoint (script_request process_env dotenv) = "None/results")
  /\ params (script_request process_env dotenv)
     = [("election",
         match getenv process_env "ELECTION_ID" with
         | Some v => Some v
         | None => dotenv_value dotenv "ELECTION_ID"
         end);
        ("stage",
         match getenv process_env "ELECTION_STAGE" with
         | Some v => Some v
         | None => dotenv_value dotenv "ELECTION_STAGE"
         end)].
Proof.
  unfold script_request, fetch_request. cbn [endpoint params].
  split; [reflexivity |]. split.
  - intros ->. reflexivity.
  - now rewrite !getenv_load_dotenv.
Qed.

(** ** The loop *)

Section MainLoop.

Context `{DateTime}.

Lemma main_iteration_facts (it : iteration) (w : world) :
  slept (main_iteration it w) = (slept w + 300)%Z
  /\ (exists new_log, log (main_iteration it w) = log w ++ new_log)
  /\ exists new,
       published (main_iteration it w) = published w ++ new
       /\ (List.length new <= 1)%nat
       /\ forall m, In m new ->
            send_to_ulanzi it m = Published
            /\ exists doc, fetch_election_data it = Fetched doc
                           /\ handed_over it doc m.
Proof.
  unfold main_iteration, try_block, handed_over.
  destruct (fetch_election_data it) as [doc |].
  2:{ cbn. repeat split.
      - rewrite <- !app_assoc. eauto.
      - exists []. rewrite app_nil_r. repeat split; [simpl; lia | contradiction..]. }
  destruct (process_election_data (clock_now it) doc) as [[d |] | e] eqn:P.
  - destruct (generate_ulanzi_packet d) as [p | e] eqn:G.
    + destruct (send_to_ulanzi it (Full p)) eqn:S; cbn; repeat split.
      * rewrite <- !app_assoc. eauto.
      * exists [Full p]. split; [reflexivity |]. split; [simpl; lia |].
        intros m [<- | []]. split; [exact S |].
        exists doc. split; [reflexivity |]. right. exists d, p. auto.
      * rewrite <- !app_assoc. eauto.
      * exists []. rewrite app_nil_r. repeat split; [simpl; lia | contradiction..].
    + cbn. repeat split.
      * rewrite <- !app_assoc. eauto.
      * exists []. rewrite app_nil_r. repeat split; [simpl; lia | contradiction..].
  - destruct (send_to_ulanzi it no_data_message) eqn:S; cbn; repeat split.
    + rewrite <- !app_assoc. eauto.
    + exists [no_data_message]. split; [reflexivity |]. split; [simpl; lia |].
      intros m [<- | []]. split; [exact S |].
      exists doc. split; [reflexivity |]. now left.
    + rewrite <- !app_assoc. eauto.
    + exists []. rewrite app_nil_r. repeat split; [simpl; lia | contradiction..].
  - cbn. repeat split.
    + rewrite <- !app_assoc. eauto.
    + exists []. rewrite app_nil_r. repeat split; [simpl; lia | contradiction..].
Qed.

(** Whatever [main] does, every turn ends with its sleep of 300 seconds, and a
    turn publishes at most one message; the log and the published messages
    only grow. *)
Theorem main_turns (its : list iteration) (w : world) :
  slept (main its w) = (slept w + 300 * Z.of_nat (List.length its))%Z
  /\ (exists new_log, log (main its w) = log w ++ new_log)
  /\ exists new,
       published (main its w) = published w ++ new
       /\ (List.length new <= List.length its)%nat.
Proof.
  unfold main. revert w. induction its as [| it its IH]; intro w; cbn [fold_left].
  - repeat split; [cbn; lia | exists []; now rewrite app_nil_r |].
    exists []. rewrite app_nil_r. split; [reflexivity | simpl; lia].
  - destruct (IH (main_iteration it w)) as (S & (l2 & L) & (n2 & P & N)).
    destruct (main_iteration_facts it w) as (S1 & (l1 & L1) & (n1 & P1 & N1 & _)).
    rewrite S, L, P, S1, L1, P1. repeat split.
    + cbn [List.length]. lia.
    + exists (l1 ++ l2). now rewrite app_assoc.
    + exists (n1 ++ n2). split; [now rewrite app_assoc |].
      rewrite length_app. cbn [List.length]. lia.
Qed.

(** A turn publishes nothing of its own: a message that is published after
    the turn was published before it, or it is what the pipeline made of the
    fetched document, the "No data" message when the parser returned [None]
    and the packet of the snapshot otherwise, and [send_to_ulanzi] published
    it. *)
Theorem published_only_from_pipeline (it : iteration) (w : world) (m : message) :
  In m (published (main_iteration it w)) ->
  In m (published w)
  \/ (send_to_ulanzi it m = Published
      /\ exists doc, fetch_election_data it = Fetched doc /\ handed_over it doc m).
Proof.
  destruct (main_iteration_facts it w) as (_ & _ & (new & -> & _ & F)).
  intro I. apply in_app_or in I. destruct I as [I | I]; [now left | right].
  now apply F.
Qed.

(** A document without a usable status date is answered with the "No data"
    message: when the way down to [latest] can be walked and [status_date] is
    absent or falsy, the turn logs the error and publishes that message and
    nothing else. *)
Theorem no_data_is_published (it : iteration) (w : world) (doc : json)
    (latest : list (string * json)) :
  fetch_election_data it = Fetched doc ->
  read_latest doc = Ok (JObj latest) ->
  match assoc "status_date" latest with
  | None => True
  | Some v => truthy v = false
  end ->
  send_to_ulanzi it no_data_message = Published ->
  published (main_iteration it w) = published w ++ [no_data_message]
  /\ In (ERROR "No election data available") (log (main_iteration it w)).
Proof.
  intros F L A S.
  assert (N : process_election_data (clock_now it) doc = Ok None).
  { rewrite process_election_data_latest, L. cbn [bind py_get].
    destruct (assoc "status_date" latest) as [v |]; [now rewrite A | reflexivity]. }
  unfold main_iteration, try_block. rewrite F, N, S. cbn. split; [reflexivity |].
  rewrite !in_app_iff. cbn. tauto.
Qed.

(** While every party of the snapshot stands at 0 the display gets nothing:
    the packet ends in the division by zero, the turn logs it and publishes
    no message, the "No data" message included. *)
Theorem zero_shares_publish_nothing (it : iteration) (w : world) (doc : json)
    (r : ProcessedElectionData) :
  fetch_election_data it = Fetched doc ->
  process_election_data (clock_now it) doc = Ok (Some r) ->
  parties r <> [] ->
  Forall (fun p => (percentage p == 0)%Q) (parties r) ->
  published (main_iteration it w) = published w
  /\ In (ERROR_occurred (PipelineFailure ZeroDivisionError))
        (log (main_iteration it w)).
Proof.
  intros F P NE Z0.
  destruct (generate_bar_chart_nonempty (parties r) 5 NE) as (m & _ & I & _ & G).
  rewrite Forall_forall in Z0. rewrite (Qeq_eq_bool _ _ (Z0 m I)) in G.
  unfold main_iteration, try_block. rewrite F, P.
  unfold generate_ulanzi_packet. rewrite G. cbn. split; [reflexivity |].
  rewrite !in_app_iff. cbn. tauto.
Qed.

End MainLoop.

(** ** The further properties on examples *)


Lemma bar_chart_rectangle_count_witness :
  exists rects,
    generate_bar_chart leader_and_zero 5 = Ok rects /\ List.length rects = 5%nat.
Proof.
  eexists. split; [reflexivity |].
  exact (bar_chart_rectangle_count leader_and_zero 5 _ eq_refl).
Defined.

Lemma bar_chart_within_matrix_witness :
  exists rects,
    generate_bar_chart leader_and_zero 5 = Ok rects
    /\ Forall (fun r => (0 <= rect_x r /\ 0 <= rect_y r
                         /\ 0 <= rect_width r /\ 0 <= rect_height r
                         /\ rect_x r + rect_width r <= 21
                         /\ rect_y r + rect_height r <= 8)%Z) rects.
Proof.
  eexists. split; [reflexivity |].
  apply (bar_chart_within_matrix leader_and_zero 5); [| reflexivity].
  repeat constructor; discriminate.
Defined.

Lemma greatest_party_bar_full_width_witness :
  exists rects bar indicator,
    generate_bar_chart leader_and_zero 5 = Ok rects
    /\ nth_error rects 1 = Some bar
    /\ nth_error rects 2 = Some indicator
    /\ rect_x bar = 0%Z /\ rect_width bar = 20%Z /\ rect_color bar = "FF0000"
    /\ rect_x indicator = 20%Z /\ rect_width indicator = 1%Z.
Proof.
  eexists.
  assert (G : Forall (fun q => (percentage q <= 60)%Q) leader_and_zero)
    by (repeat constructor; discriminate).
  destruct (greatest_party_bar_full_width leader_and_zero 5 _ 0
              (mkPartyResult "A" 60 "FF0000") eq_refl eq_refl G)
    as (bar & indicator & P).
  exists bar, indicator. split; [reflexivity | exact P].
Defined.

Lemma zero_share_bar_has_no_width_witness :
  exists rects bar indicator,
    generate_bar_chart leader_and_zero 5 = Ok rects
    /\ nth_error rects 3 = Some bar
    /\ nth_error rects 4 = Some indicator
    /\ rect_width bar = 0%Z
    /\ rect_x indicator = 0%Z /\ rect_width indicator = 1%Z.
Proof.
  eexists.
  assert (Z0 : (0 == 0)%Q) by reflexivity.
  destruct (zero_share_bar_has_no_width leader_and_zero 5 _ 1
              (mkPartyResult "B" 0 "0000FF") eq_refl eq_refl Z0)
    as (bar & indicator & P).
  exists bar, indicator. split; [reflexivity | exact P].
Defined.


Lemma more_than_eight_parties_no_height_witness :
  exists rects rest,
    generate_bar_chart nine_parties 5 = Ok rects
    /\ rects = background :: rest
    /\ Forall (fun r => rect_y r = 0%Z /\ rect_height r = 0%Z) rest.
Proof.
  eexists.
  assert (L : (8 < List.length nine_parties)%nat) by (simpl; lia).
  destruct (more_than_eight_parties_no_height nine_parties 5 _ L eq_refl)
    as (rest & P).
  exists rest. split; [reflexivity | exact P].
Defined.

Lemma sort_fixes_descending_witness :
  descending (parties tied_parties_snapshot)
  /\ list_sort_reverse (parties tied_parties_snapshot)
     = parties tied_parties_snapshot.
Proof.
  assert (D : descending (parties tied_parties_snapshot))
    by (repeat constructor; discriminate).
  split; [exact D |].
  exact (proj1 (sort_fixes_descending (parties tied_parties_snapshot)) D).
Defined.

Lemma other_targets_skipped_witness :
  targets_parties (JObj candidate_result) = false
  /\ for_results two_parties
       ([party_share (JStr "b") 40] ++ JObj candidate_result
        :: [party_share (JStr "a") 60]) []
     = for_results two_parties
         ([party_share (JStr "b") 40] ++ [party_share (JStr "a") 60]) [].
Proof.
  split; [reflexivity |].
  exact (other_targets_skipped two_parties candidate_result _ _ [] eq_refl).
Defined.

Lemma parse_total_on_shaped_documents_witness :
  results_shape [("status_date", JStr "2025-01-01T12:34:00+01:00");
                 ("results", JArr [party_share (JStr "b") 40;
                                   party_share (JStr "a") 60])]
  /\ catalog_shape two_parties
  /\ process_election_data SampleClock.noon two_parties
     = Ok (Some two_parties_snapshot).
Proof.
  assert (R : results_shape
                [("status_date", JStr "2025-01-01T12:34:00+01:00");
                 ("results", JArr [party_share (JStr "b") 40;
                                   party_share (JStr "a") 60])]).
  { repeat constructor; eexists; (split; [reflexivity | exact I]). }
  assert (C : catalog_shape two_parties).
  { repeat constructor; eexists; (split; [reflexivity | split; exact I]). }
  assert (N : "2025-01-01T12:34:00+01:00" <> "") by discriminate.
  split; [exact R |]. split; [exact C |].
  exact (parse_total_on_shaped_documents (H := SampleClock.clock)
           SampleClock.noon two_parties _ _ half_past_noon
           eq_refl R C eq_refl N eq_refl).
Defined.

Lemma status_date_not_a_string_raises_witness :
  read_latest number_status_date
  = Ok (JObj [("status_date", JNum 5); ("results", JArr [])])
  /\ process_election_data SampleClock.noon number_status_date = Raise TypeError.
Proof.
  split; [reflexivity |].
  apply (status_date_not_a_string_raises (H := SampleClock.clock)
           SampleClock.noon number_status_date _ (JNum 5) eq_refl eq_refl eq_refl).
  discriminate.
Defined.

Lemma parties_no_more_than_results_witness :
  process_election_data SampleClock.noon two_parties = Ok (Some two_parties_snapshot)
  /\ exists latest,
       read_latest two_parties = Ok (JObj latest)
       /\ (List.length (parties two_parties_snapshot)
           <= List.length (results_items (JObj latest)))%nat.
Proof.
  split; [reflexivity |].
  exact (parties_no_more_than_results (H := SampleClock.clock)
           SampleClock.noon two_parties two_parties_snapshot eq_refl).
Defined.


Lemma text_message_ignores_percentages_witness :
  generate_text_message two_parties_snapshot
  = generate_text_message
      (mkProcessed _ half_past_noon
         [mkPartyResult "A" 1 "FF0000"; mkPartyResult "B" 99 "0000FF"]).
Proof.
  exact (text_message_ignores_percentages (H := SampleClock.clock)
           two_parties_snapshot
           (mkProcessed _ half_past_noon
              [mkPartyResult "A" 1 "FF0000"; mkPartyResult "B" 99 "0000FF"])
           eq_refl eq_refl).
Defined.

Lemma no_results_time_only_witness :
  process_election_data SampleClock.noon
    (document (JStr "2025-01-01T12:34:00+01:00") [] [])
  = Ok (Some (mkProcessed _ half_past_noon []))
  /\ generate_ulanzi_packet (mkProcessed _ half_past_noon [])
     = Ok {| draw := [];
             text := [mkFragment "12:34 " "FFFFFF"];
             textOffset := 8 |}.
Proof.
  assert (N : "2025-01-01T12:34:00+01:00" <> "") by discriminate.
  destruct (no_results_time_only (H := SampleClock.clock) SampleClock.noon
              (document (JStr "2025-01-01T12:34:00+01:00") [] []) _ _ half_past_noon
              eq_refl (or_intror eq_refl) eq_refl N eq_refl)
    as (P & T & _).
  split; [exact P |]. exact (T 12%nat 34%nat eq_refl).
Defined.

Lemma api_url_ignores_dotenv_witness :
  getenv bare_environ "API_URL" = None
  /\ endpoint (script_request bare_environ dotenv_file) = "None/results"
  /\ params (script_request bare_environ dotenv_file)
     = [("election", Some "btw25"); ("stage", Some "final")].
Proof.
  split; [reflexivity |]. split.
  - exact (proj1 (proj2 (api_url_ignores_dotenv bare_environ dotenv_file)) eq_refl).
  - exact (proj2 (proj2 (api_url_ignores_dotenv bare_environ dotenv_file))).
Defined.

Lemma published_only_from_pipeline_witness :
  In no_data_message
     (published (main_iteration (turn_of empty_status_date) fresh_world))
  /\ exists doc,
       fetch_election_data (turn_of empty_status_date) = Fetched doc
       /\ handed_over (turn_of empty_status_date) doc no_data_message.
Proof.
  assert (I : In no_data_message
                 (published (main_iteration (turn_of empty_status_date) fresh_world)))
    by (now left).
  split; [exact I |].
  destruct (published_only_from_pipeline (H := SampleClock.clock)
              (turn_of empty_status_date) fresh_world no_data_message I)
    as [[] | (_ & P)].
  exact P.
Defined.

Lemma no_data_is_published_witness :
  published (main_iteration (turn_of empty_status_date) fresh_world)
  = [no_data_message]
  /\ In (ERROR "No election data available")
        (log (main_iteration (turn_of empty_status_date) fresh_world)).
Proof.
  exact (no_data_is_published (H := SampleClock.clock)
           (turn_of empty_status_date) fresh_world empty_status_date _
           eq_refl eq_refl eq_refl eq_refl).
Defined.

Lemma zero_shares_publish_nothing_witness :
  process_election_data SampleClock.noon uncounted = Ok (Some uncounted_snapshot)
  /\ published (main_iteration (turn_of uncounted) fresh_world) = []
  /\ In (ERROR_occurred (PipelineFailure ZeroDivisionError))
        (log (main_iteration (turn_of uncounted) fresh_world)).
Proof.
  split; [reflexivity |].
  assert (NE : parties uncounted_snapshot <> []) by discriminate.
  assert (Z0 : Forall (fun p => (percentage p == 0)%Q) (parties uncounted_snapshot))
    by (repeat constructor).
  exact (zero_shares_publish_nothing (H := SampleClock.clock)
           (turn_of uncounted) fresh_world uncounted uncounted_snapshot
           eq_refl eq_refl NE Z0).
Defined.

(** * The parser without the declared types *)

(** ** [list.sort] rearranges *)

Section SortRearranges.

Context {A : Type} (lt : A -> A -> result bool).

Lemma insert_at_perm (i : nat) (x : A) (l : list A) :
  Permutation (x :: l) (Dynamic.insert_at i x l).
Proof.
  unfold Dynamic.insert_at. rewrite <- Permutation_middle.
  now rewrite firstn_skipn.
Qed.

Lemma binarysort_perm (rest sorted out : list A) :
  Dynamic.binarysort lt sorted rest = Ok out -> Permutation (sorted ++ rest) out.
Proof.
  revert sorted. induction rest as [| pivot rest IH]; intros sorted E;
    cbn [Dynamic.binarysort] in E.
  - injection E as <-. now rewrite app_nil_r.
  - inv_bind E as i E0. apply IH in E. rewrite <- E.
    rewrite <- (insert_at_perm i pivot sorted).
    now rewrite <- Permutation_middle.
Qed.

Lemma short_list_sort_perm (l out : list A) :
  Dynamic.short_list_sort lt l = Ok out -> Permutation l out.
Proof.
  unfold Dynamic.short_list_sort.
  destruct (List.length l <? 2)%nat; [intro E; now injection E as <- |].
  intro E. inv_bind E as run E0. apply binarysort_perm in E.
  rewrite <- E, <- (firstn_skipn (fst run) l) at 1.
  apply Permutation_app_tail.
  destruct (snd run); [apply Permutation_rev | reflexivity].
Qed.

End SortRearranges.

(** ** [list.sort] under an order *)

Section SortOrders.

Context {A : Type} (lt : A -> A -> result bool) (ltb : A -> A -> bool)
        (good : A -> Prop).

(** On the good elements [lt] does not fail and answers as [ltb], and [ltb]
    is the strict part of a total preorder. *)
Hypothesis lt_ltb : forall a b, good a -> good b -> lt a b = Ok (ltb a b).
Hypothesis ltb_asym : forall a b, ltb a b = true -> ltb b a = false.
Hypothesis ltb_ntrans :
  forall a b c, ltb a b = false -> ltb b c = false -> ltb a c = false.

Local Abbreviation ordered := (StronglySorted (fun a b => ltb b a = false)).

Lemma ltb_irrefl (a : A) : ltb a a = false.
Proof.
  destruct (ltb a a) eqn:E; [| reflexivity]. now rewrite (ltb_asym _ _ E) in E.
Qed.

Lemma ltb_le_trans (a b c : A) : ltb a b = true -> ltb c b = false -> ltb a c = true.
Proof.
  intros L1 L2. destruct (ltb a c) eqn:E; [reflexivity |].
  now rewrite (ltb_ntrans _ _ _ E L2) in L1.
Qed.

Lemma le_ltb_trans (a b c : A) : ltb b a = false -> ltb b c = true -> ltb a c = true.
Proof.
  intros L1 L2. destruct (ltb a c) eqn:E; [reflexivity |].
  now rewrite (ltb_ntrans _ _ _ L1 E) in L2.
Qed.

Lemma ltb_trans (a b c : A) : ltb a b = true -> ltb b c = true -> ltb a c = true.
Proof.
  intros L1 L2. eapply ltb_le_trans; [exact L1 |]. now apply ltb_asym.
Qed.

Lemma insert_behind_perm (x : A) (l : list A) :
  Permutation (x :: l) (Dynamic.insert_behind ltb x l).
Proof.
  induction l as [| y l IH]; simpl; [reflexivity |].
  destruct (ltb x y); [reflexivity |].
  rewrite perm_swap. now constructor.
Qed.

Lemma insert_behind_ordered (x : A) (l : list A) :
  ordered l -> ordered (Dynamic.insert_behind ltb x l).
Proof.
  induction l as [| y l IH]; simpl; intro S.
  - constructor; constructor.
  - apply StronglySorted_inv in S. destruct S as [S F].
    destruct (ltb x y) eqn:C.
    + constructor; [constructor; assumption |].
      constructor; [now apply ltb_asym |].
      eapply Forall_impl; [| exact F].
      intros b Hb. cbv beta in *. apply ltb_asym.
      eapply ltb_le_trans; eassumption.
    + constructor; [now apply IH |].
      eapply Permutation_Forall; [apply insert_behind_perm |].
      now constructor.
Qed.

Lemma insert_behind_good (x : A) (l : list A) :
  good x -> Forall good l -> Forall good (Dynamic.insert_behind ltb x l).
Proof.
  intros Gx Gl. eapply Permutation_Forall; [apply insert_behind_perm |].
  now constructor.
Qed.

Lemma insert_behind_last (x : A) (l : list A) :
  Forall (fun y => ltb x y = false) l -> Dynamic.insert_behind ltb x l = l ++ [x].
Proof.
  induction 1 as [| y l Hy F IH]; simpl; [reflexivity |].
  now rewrite Hy, IH.
Qed.

Lemma insert_behind_first (x : A) (l : list A) :
  Forall (fun y => ltb x y = true) l -> Dynamic.insert_behind ltb x l = x :: l.
Proof.
  destruct 1 as [| y l Hy F]; simpl; [reflexivity |]. now rewrite Hy.
Qed.

Lemma ordered_nth (l : list A) (i j : nat) (a b : A) :
  ordered l -> (i <= j)%nat ->
  nth_error l i = Some a -> nth_error l j = Some b -> ltb b a = false.
Proof.
  intro S. revert i j. induction S as [| x l S IH F]; intros i j Lij Ei Ej.
  - destruct i; discriminate.
  - destruct i as [| i], j as [| j]; cbn [nth_error] in *.
    + injection Ei as <-. injection Ej as <-. apply ltb_irrefl.
    + injection Ei as <-. rewrite Forall_forall in F.
      apply F. eapply nth_error_In; exact Ej.
    + lia.
    + eapply IH; [| exact Ei | exact Ej]. lia.
Qed.

(** The halving finds the place behind the elements that are not greater
    than the pivot. *)
Lemma bisect_place (pivot : A) (sorted : list A) :
  good pivot -> Forall good sorted -> ordered sorted ->
  forall fuel l r,
    (l <= r <= List.length sorted)%nat -> (r - l <= fuel)%nat ->
    (forall k y, (k < l)%nat -> nth_error sorted k = Some y -> ltb pivot y = false) ->
    (forall k y, (r <= k)%nat -> nth_error sorted k = Some y -> ltb pivot y = true) ->
    exists i,
      Dynamic.bisect lt fuel pivot sorted l r = Ok i
      /\ (i <= List.length sorted)%nat
      /\ (forall k y, (k < i)%nat -> nth_error sorted k = Some y -> ltb pivot y = false)
      /\ (forall k y, (i <= k)%nat -> nth_error sorted k = Some y -> ltb pivot y = true).
Proof.
  intros Gp Gs S. induction fuel as [| fuel IH]; intros l r B Fu Lo Hi;
    cbn [Dynamic.bisect].
  - assert (l = r) by lia. subst r. exists l. repeat split; try assumption; lia.
  - destruct (Nat.ltb_spec l r) as [Llr | Llr].
    2:{ assert (l = r) by lia. subst r. exists l.
        repeat split; try assumption; lia. }
    set (p := (l + (r - l) / 2)%nat).
    assert (Hp : (l <= p < r)%nat).
    { unfold p. split; [lia |].
      assert ((r - l) / 2 < r - l)%nat by (apply Nat.div_lt; lia). lia. }
    destruct (nth_error sorted p) as [y |] eqn:Ey.
    2:{ apply nth_error_None in Ey. lia. }
    assert (Gy : good y).
    { rewrite Forall_forall in Gs. apply Gs. eapply nth_error_In; exact Ey. }
    rewrite (lt_ltb _ _ Gp Gy). cbn [bind].
    destruct (ltb pivot y) eqn:C.
    + apply IH; [lia | lia | exact Lo |].
      intros k z Lk Ez. destruct (ltb pivot z) eqn:Cz; [reflexivity |].
      pose proof (ordered_nth sorted p k y z S Lk Ey Ez) as Lzy.
      now rewrite (ltb_ntrans _ _ _ Cz Lzy) in C.
    + apply IH; [lia | lia | | exact Hi].
      intros k z Lk Ez.
      assert (Lkp : (k <= p)%nat) by lia.
      pose proof (ordered_nth sorted k p z y S Lkp Ez Ey) as Lyz.
      exact (ltb_ntrans _ _ _ C Lyz).
Qed.

Lemma insert_at_behind (x : A) (l : list A) (i : nat) :
  (i <= List.length l)%nat ->
  (forall k y, (k < i)%nat -> nth_error l k = Some y -> ltb x y = false) ->
  (forall k y, (i <= k)%nat -> nth_error l k = Some y -> ltb x y = true) ->
  Dynamic.insert_at i x l = Dynamic.insert_behind ltb x l.
Proof.
  unfold Dynamic.insert_at. revert i.
  induction l as [| y l IH]; intros i B Lo Hi.
  - simpl in B. assert (i = 0%nat) by lia. subst i. reflexivity.
  - destruct i as [| i]; cbn [firstn skipn app Dynamic.insert_behind].
    + now rewrite (Hi 0%nat y (Nat.le_refl _) eq_refl).
    + rewrite (Lo 0%nat y (Nat.lt_0_succ _) eq_refl). f_equal.
      apply IH; [simpl in B; lia | |].
      * intros k z Lk Ez. apply (Lo (S k) z); [lia | exact Ez].
      * intros k z Lk Ez. apply (Hi (S k) z); [lia | exact Ez].
Qed.

Lemma binarysort_insertion (rest sorted : list A) :
  Forall good sorted -> Forall good rest -> ordered sorted ->
  Dynamic.binarysort lt sorted rest
  = Ok (fold_left (fun acc x => Dynamic.insert_behind ltb x acc) rest sorted).
Proof.
  revert sorted. induction rest as [| pivot rest IH]; intros sorted Gs Gr S;
    cbn [Dynamic.binarysort fold_left]; [reflexivity |].
  apply Forall_cons_iff in Gr. destruct Gr as [Gp Gr].
  assert (Lo0 : forall k y, (k < 0)%nat -> nth_error sorted k = Some y ->
                            ltb pivot y = false) by (intros k y Lk; lia).
  assert (Hi0 : forall k y, (List.length sorted <= k)%nat ->
                            nth_error sorted k = Some y -> ltb pivot y = true).
  { intros k y Lk Ey. assert (N : nth_error sorted k <> None) by congruence.
    apply nth_error_Some in N. lia. }
  destruct (bisect_place pivot sorted Gp Gs S (List.length sorted) 0
              (List.length sorted) ltac:(lia) ltac:(lia) Lo0 Hi0)
    as (i & -> & B & Lo & Hi).
  cbn [bind]. rewrite (insert_at_behind pivot sorted i B Lo Hi).
  apply IH; [now apply insert_behind_good | exact Gr |].
  now apply insert_behind_ordered.
Qed.

Lemma sorted_snoc (R : A -> A -> Prop) (l : list A) (x : A) :
  StronglySorted R (l ++ [x]) <-> StronglySorted R l /\ Forall (fun y => R y x) l.
Proof.
  induction l as [| a l IH]; simpl.
  - split; [intros _; split; constructor | intros _; constructor; constructor].
  - split.
    + intro S. apply StronglySorted_inv in S. destruct S as [S F].
      apply IH in S. destruct S as [S Fx].
      apply Forall_app in F. destruct F as [F Fa].
      split; [now constructor |].
      constructor; [now apply Forall_cons_iff in Fa | exact Fx].
    + intros [S F]. apply StronglySorted_inv in S. destruct S as [S Fa].
      apply Forall_cons_iff in F. destruct F as [Ha F].
      constructor; [apply IH; now split |].
      apply Forall_app. split; [exact Fa | now constructor].
Qed.

Lemma insertion_sort_snoc (l : list A) (x : A) :
  Dynamic.insertion_sort ltb (l ++ [x])
  = Dynamic.insert_behind ltb x (Dynamic.insertion_sort ltb l).
Proof. unfold Dynamic.insertion_sort. now rewrite fold_left_app. Qed.

(** A list in order is sorted already. *)
Lemma insertion_sort_ordered_id (l : list A) :
  ordered l -> Dynamic.insertion_sort ltb l = l.
Proof.
  induction l as [| x l IH] using rev_ind; [reflexivity |].
  intro S. apply sorted_snoc in S. destruct S as [S F].
  rewrite insertion_sort_snoc, (IH S).
  now apply insert_behind_last.
Qed.

(** A strictly falling list is sorted by turning it round. *)
Lemma insertion_sort_falling_rev (l : list A) :
  StronglySorted (fun a b => ltb b a = true) l ->
  Dynamic.insertion_sort ltb l = rev l.
Proof.
  induction l as [| x l IH] using rev_ind; [reflexivity |].
  intro S. apply sorted_snoc in S. destruct S as [S F].
  rewrite insertion_sort_snoc, (IH S), rev_unit.
  apply insert_behind_first. now apply Forall_rev.
Qed.

Lemma insertion_sort_facts (l acc : list A) :
  ordered acc ->
  let sorted := fold_left (fun acc x => Dynamic.insert_behind ltb x acc) l acc in
  ordered sorted /\ Permutation (acc ++ l) sorted.
Proof.
  revert acc. induction l as [| x l IH]; intros acc S; cbn [fold_left].
  - split; [assumption | now rewrite app_nil_r].
  - destruct (IH _ (insert_behind_ordered x acc S)) as (S' & P).
    split; [exact S' |].
    rewrite <- P, <- insert_behind_perm. now rewrite <- Permutation_middle.
Qed.

Lemma insertion_sort_is_ordered (l : list A) : ordered (Dynamic.insertion_sort ltb l).
Proof. exact (proj1 (insertion_sort_facts l [] (SSorted_nil _))). Qed.

Lemma insertion_sort_perm (l : list A) : Permutation l (Dynamic.insertion_sort ltb l).
Proof. exact (proj2 (insertion_sort_facts l [] (SSorted_nil _))). Qed.

(** Stability: the elements of a class that the order does not tell apart
    keep their places among themselves. *)
Section Stability.

Context (same : A -> bool).

Hypothesis same_level : forall a b, same a = true -> same b = true -> ltb a b = false.

Lemma filter_none (l : list A) :
  Forall (fun b => same b = false) l -> filter same l = [].
Proof. induction 1 as [| b l Hb F IH]; simpl; [reflexivity | now rewrite Hb]. Qed.

Lemma insert_behind_filter (x : A) (l : list A) :
  ordered l ->
  filter same (Dynamic.insert_behind ltb x l)
  = filter same l ++ (if same x then [x] else []).
Proof.
  induction l as [| y l IH]; intro S.
  - simpl. now destruct (same x).
  - apply StronglySorted_inv in S. destruct S as [S F].
    cbn [Dynamic.insert_behind].
    destruct (ltb x y) eqn:C.
    + cbn [filter]. destruct (same x) eqn:Hx; [| now rewrite app_nil_r].
      assert (N : filter same (y :: l) = []).
      { apply filter_none. apply Forall_forall. intros b Ib.
        destruct (same b) eqn:Hb; [| reflexivity].
        assert (L : ltb x b = true).
        { destruct Ib as [<- | Ib]; [exact C |].
          rewrite Forall_forall in F.
          eapply ltb_le_trans; [exact C | exact (F b Ib)]. }
        now rewrite (same_level x b Hx Hb) in L. }
      cbn [filter] in N. rewrite N. reflexivity.
    + cbn [filter]. rewrite (IH S). now destruct (same y).
Qed.

Lemma fold_insert_behind_filter (l acc : list A) :
  ordered acc ->
  filter same (fold_left (fun acc x => Dynamic.insert_behind ltb x acc) l acc)
  = filter same acc ++ filter same l.
Proof.
  revert acc. induction l as [| x l IH]; intros acc S; cbn [fold_left].
  - now rewrite app_nil_r.
  - rewrite (IH _ (insert_behind_ordered x acc S)), (insert_behind_filter x acc S),
      <- app_assoc.
    cbn [filter]. now destruct (same x).
Qed.

Lemma insertion_sort_filter (l : list A) :
  filter same (Dynamic.insertion_sort ltb l) = filter same l.
Proof. exact (fold_insert_behind_filter l [] (SSorted_nil _)). Qed.

End Stability.

(** The run at the front. *)
Lemma run_ascending_ordered (rest pre : list A) (prev : A) (n : nat) :
  Forall good (prev :: rest) -> ordered (pre ++ [prev]) ->
  exists k,
    Dynamic.run_ascending lt prev rest n = Ok (n + k)%nat
    /\ (k <= List.length rest)%nat
    /\ ordered ((pre ++ [prev]) ++ firstn k rest).
Proof.
  revert pre prev n. induction rest as [| x rest IH]; intros pre prev n G St;
    cbn [Dynamic.run_ascending].
  - exists 0%nat. rewrite Nat.add_0_r, app_nil_r. repeat split; [lia | exact St].
  - apply Forall_cons_iff in G. destruct G as [Gp G].
    pose proof G as G'. apply Forall_cons_iff in G'. destruct G' as [Gx _].
    rewrite (lt_ltb _ _ Gx Gp). cbn [bind].
    destruct (ltb x prev) eqn:C.
    + exists 0%nat. rewrite Nat.add_0_r. cbn [firstn]. rewrite app_nil_r.
      repeat split; [lia | exact St].
    + assert (S' : ordered ((pre ++ [prev]) ++ [x])).
      { apply sorted_snoc. split; [exact St |].
        apply sorted_snoc in St. destruct St as [_ F].
        apply Forall_app. split; [| now constructor].
        eapply Forall_impl; [| exact F].
        intros y Hy. cbv beta in Hy. exact (ltb_ntrans _ _ _ C Hy). }
      destruct (IH (pre ++ [prev]) x (S n) G S') as (k & E & B & O).
      exists (S k). rewrite E. cbn [firstn List.length].
      repeat split; [f_equal; lia | lia |].
      now rewrite <- app_assoc in O.
Qed.

Lemma run_descending_falling (rest pre : list A) (prev : A) (n : nat) :
  Forall good (prev :: rest) ->
  StronglySorted (fun a b => ltb b a = true) (pre ++ [prev]) ->
  exists k,
    Dynamic.run_descending lt prev rest n = Ok (n + k)%nat
    /\ (k <= List.length rest)%nat
    /\ StronglySorted (fun a b => ltb b a = true) ((pre ++ [prev]) ++ firstn k rest).
Proof.
  revert pre prev n. induction rest as [| x rest IH]; intros pre prev n G St;
    cbn [Dynamic.run_descending].
  - exists 0%nat. rewrite Nat.add_0_r, app_nil_r. repeat split; [lia | exact St].
  - apply Forall_cons_iff in G. destruct G as [Gp G].
    pose proof G as G'. apply Forall_cons_iff in G'. destruct G' as [Gx _].
    rewrite (lt_ltb _ _ Gx Gp). cbn [bind].
    destruct (ltb x prev) eqn:C.
    + assert (S' : StronglySorted (fun a b => ltb b a = true) ((pre ++ [prev]) ++ [x])).
      { apply sorted_snoc. split; [exact St |].
        apply sorted_snoc in St. destruct St as [_ F].
        apply Forall_app. split; [| now constructor].
        eapply Forall_impl; [| exact F].
        intros y Hy. cbv beta in Hy. exact (ltb_trans _ _ _ C Hy). }
      destruct (IH (pre ++ [prev]) x (S n) G S') as (k & E & B & O).
      exists (S k). rewrite E. cbn [firstn List.length].
      repeat split; [f_equal; lia | lia |].
      now rewrite <- app_assoc in O.
    + exists 0%nat. rewrite Nat.add_0_r. cbn [firstn]. rewrite app_nil_r.
      repeat split; [lia | exact St].
Qed.

(** The front that [short_list_sort] hands to the binary insertion is the
    sorted front. *)
Lemma count_run_front (l : list A) :
  Forall good l ->
  exists n descends,
    Dynamic.count_run lt l = Ok (n, descends)
    /\ (if descends then rev (firstn n l) else firstn n l)
       = Dynamic.insertion_sort ltb (firstn n l).
Proof.
  intro G. destruct l as [| x0 [| x1 rest]].
  - exists 0%nat, false. split; reflexivity.
  - exists 1%nat, false. split; reflexivity.
  - cbn [Dynamic.count_run].
    pose proof G as G'. apply Forall_cons_iff in G'. destruct G' as [G0 G1].
    pose proof G1 as G1'. apply Forall_cons_iff in G1'. destruct G1' as [Gx1 _].
    rewrite (lt_ltb _ _ Gx1 G0). cbn [bind].
    destruct (ltb x1 x0) eqn:C.
    + assert (S : StronglySorted (fun a b => ltb b a = true) ([x0] ++ [x1])).
      { apply sorted_snoc. split; [constructor; constructor |].
        constructor; [exact C | constructor]. }
      destruct (run_descending_falling rest [x0] x1 2 G1 S) as (k & -> & B & O).
      cbn [bind]. exists (2 + k)%nat, true. split; [reflexivity |].
      cbn [firstn Nat.add]. cbn [app] in O.
      symmetry. now apply insertion_sort_falling_rev.
    + assert (S : ordered ([x0] ++ [x1])).
      { apply sorted_snoc. split; [constructor; constructor |].
        constructor; [exact C | constructor]. }
      destruct (run_ascending_ordered rest [x0] x1 2 G1 S) as (k & -> & B & O).
      cbn [bind]. exists (2 + k)%nat, false. split; [reflexivity |].
      cbn [firstn Nat.add]. cbn [app] in O.
      symmetry. now apply insertion_sort_ordered_id.
Qed.

(** On good elements the sort of short lists does not fail and is the stable
    sort by insertion. *)
Lemma short_list_sort_insertion (l : list A) :
  Forall good l -> Dynamic.short_list_sort lt l = Ok (Dynamic.insertion_sort ltb l).
Proof.
  intro G. unfold Dynamic.short_list_sort.
  destruct (Nat.ltb_spec (List.length l) 2) as [L | L].
  - destruct l as [| x [| y l]]; [reflexivity | reflexivity | simpl in L; lia].
  - destruct (count_run_front l G) as (n & descends & -> & F).
    cbn [bind fst snd]. rewrite F.
    assert (Gf : Forall good (firstn n l)).
    { rewrite <- (firstn_skipn n l) in G. now apply Forall_app in G. }
    assert (Gs : Forall good (skipn n l)).
    { rewrite <- (firstn_skipn n l) in G. now apply Forall_app in G. }
    rewrite binarysort_insertion.
    + unfold Dynamic.insertion_sort. rewrite <- fold_left_app.
      now rewrite firstn_skipn.
    + eapply Permutation_Forall; [apply insertion_sort_perm | exact Gf].
    + exact Gs.
    + apply insertion_sort_is_ordered.
Qed.

End SortOrders.

(** The sort of short lists is a [list.sort]. *)
#[global] Instance short_lists : Dynamic.ListSort := {|
  Dynamic.list_sort := @Dynamic.short_list_sort;
  Dynamic.list_sort_rearranges := @short_list_sort_perm;
  Dynamic.list_sort_stable := @short_list_sort_insertion
|}.

Section SortReversed.

Context `{Dynamic.ListSort} {A : Type} (lt : A -> A -> result bool).

(** Whatever the comparisons answer, a sort that returns has rearranged the
    list. *)
Lemma list_sort_reverse_perm (l out : list A) :
  Dynamic.list_sort_reverse lt l = Ok out -> Permutation l out.
Proof.
  unfold Dynamic.list_sort_reverse. intro E. inv_bind E as sorted E0.
  injection E as <-. apply Dynamic.list_sort_rearranges in E0.
  rewrite <- Permutation_rev, <- E0. apply Permutation_rev.
Qed.

Lemma list_sort_reverse_insertion (ltb : A -> A -> bool) (good : A -> Prop)
    (l : list A) :
  (forall a b, good a -> good b -> lt a b = Ok (ltb a b)) ->
  (forall a b, ltb a b = true -> ltb b a = false) ->
  (forall a b c, ltb a b = false -> ltb b c = false -> ltb a c = false) ->
  Forall good l ->
  Dynamic.list_sort_reverse lt l = Ok (rev (Dynamic.insertion_sort ltb (rev l))).
Proof.
  intros L As Nt G. unfold Dynamic.list_sort_reverse.
  rewrite (Dynamic.list_sort_stable A lt ltb good L As Nt);
    [reflexivity | now apply Forall_rev].
Qed.

End SortReversed.

(** ** The order of the shares *)

Lemma num_lt_asym (x y : Dynamic.number) :
  Dynamic.num_lt x y = true -> Dynamic.num_lt y x = false.
Proof.
  destruct x as [p | | |], y as [q | | |]; simpl; try reflexivity; try discriminate.
  intro L. apply Qltb_true in L. apply Qltb_false. now apply Qlt_le_weak.
Qed.

Lemma num_lt_ntrans (x y z : Dynamic.number) :
  y <> Dynamic.NaN ->
  Dynamic.num_lt x y = false -> Dynamic.num_lt y z = false ->
  Dynamic.num_lt x z = false.
Proof.
  intro N.
  destruct x as [p | | |], y as [q | | |], z as [r | | |]; simpl;
    try reflexivity; try discriminate; try contradiction.
  intros L1 L2. apply Qltb_false in L1, L2. apply Qltb_false.
  eapply Qle_trans; eassumption.
Qed.

Lemma num_eq_level (x y k : Dynamic.number) :
  Dynamic.num_eq x k = true -> Dynamic.num_eq y k = true ->
  Dynamic.num_lt x y = false.
Proof.
  destruct x as [p | | |], k as [q | | |]; simpl; try discriminate;
    destruct y as [r | | |]; simpl; try discriminate; try reflexivity.
  intros E1 E2. apply Qeq_bool_iff in E1, E2. apply Qltb_false.
  rewrite E1, E2. apply Qle_refl.
Qed.

Lemma share_rank_not_NaN (p : Dynamic.PartyResult) :
  Dynamic.share_rank p <> Dynamic.NaN.
Proof.
  unfold Dynamic.share_rank.
  destruct (Dynamic.as_number (Dynamic.percentage p)) as [[q | | |] |]; discriminate.
Qed.

Lemma share_ltb_asym (a b : Dynamic.PartyResult) :
  Dynamic.share_ltb a b = true -> Dynamic.share_ltb b a = false.
Proof. apply num_lt_asym. Qed.

Lemma share_ltb_ntrans (a b c : Dynamic.PartyResult) :
  Dynamic.share_ltb a b = false -> Dynamic.share_ltb b c = false ->
  Dynamic.share_ltb a c = false.
Proof. apply num_lt_ntrans, share_rank_not_NaN. Qed.

(** Between shares that are numbers and not [NaN], [<] raises nothing and is
    the order of the numbers. *)
Lemma key_lt_real_share (a b : Dynamic.PartyResult) :
  Dynamic.real_share a -> Dynamic.real_share b ->
  Dynamic.key_lt a b = Ok (Dynamic.share_ltb a b).
Proof.
  unfold Dynamic.real_share, Dynamic.key_lt, Dynamic.share_ltb, Dynamic.share_rank.
  intros (x & Ex & Nx) (y & Ey & Ny). rewrite Ex, Ey.
  destruct (Dynamic.percentage a) as [| ba | xa | | |]; try discriminate;
    destruct (Dynamic.percentage b) as [| bb | xb | | |]; try discriminate;
    cbn [Dynamic.as_number] in Ex, Ey; injection Ex as <-; injection Ey as <-;
    cbn [Dynamic.py_lt];
    repeat match goal with
           | |- context [match ?n with _ => _ end] =>
               is_var n; destruct n; try contradiction
           end; reflexivity.
Qed.

Lemma py_eq_numbers (a k : Dynamic.value) (x y : Dynamic.number) :
  Dynamic.as_number a = Some x -> Dynamic.as_number k = Some y ->
  Dynamic.py_eq a k = Dynamic.num_eq x y.
Proof.
  destruct a as [| ba | xa | | |]; try discriminate;
    destruct k as [| bk | xk | | |]; try discriminate;
    cbn [Dynamic.as_number Dynamic.py_eq]; intros Ex Ey;
    injection Ex as <-; injection Ey as <-; try reflexivity.
  now destruct ba, bk.
Qed.

Lemma py_eq_number_kind (a k : Dynamic.value) :
  Dynamic.py_eq a k = true ->
  Dynamic.as_number a = None <-> Dynamic.as_number k = None.
Proof.
  destruct a, k; try discriminate; cbn [Dynamic.as_number]; intros _;
    split; intro E; try reflexivity; discriminate.
Qed.

(** Shares equal to the same value are on one level of the order. *)
Lemma same_percentage_level (k : Dynamic.value) (a b : Dynamic.PartyResult) :
  Dynamic.same_percentage k a = true -> Dynamic.same_percentage k b = true ->
  Dynamic.share_ltb a b = false.
Proof.
  unfold Dynamic.same_percentage, Dynamic.share_ltb, Dynamic.share_rank.
  intros E1 E2.
  pose proof (py_eq_number_kind _ _ E1) as K1.
  pose proof (py_eq_number_kind _ _ E2) as K2.
  destruct (Dynamic.as_number k) as [y |] eqn:Ek.
  - destruct (Dynamic.as_number (Dynamic.percentage a)) as [xa |] eqn:Ea;
      [| discriminate (proj1 K1 eq_refl)].
    destruct (Dynamic.as_number (Dynamic.percentage b)) as [xb |] eqn:Eb;
      [| discriminate (proj1 K2 eq_refl)].
    rewrite (py_eq_numbers _ _ _ _ Ea Ek) in E1.
    rewrite (py_eq_numbers _ _ _ _ Eb Ek) in E2.
    pose proof (num_eq_level _ _ _ E1 E2) as L.
    destruct xa; try discriminate; destruct xb; try discriminate; exact L.
  - rewrite (proj2 K1 eq_refl), (proj2 K2 eq_refl). reflexivity.
Qed.

Lemma StronglySorted_among {A : Type} (R R' : A -> A -> Prop) (l : list A) :
  (forall a b, In a l -> In b l -> R a b -> R' a b) ->
  StronglySorted R l -> StronglySorted R' l.
Proof.
  intros I S. induction S as [| a l S IH F]; [constructor |].
  constructor.
  - apply IH. intros x y Ix Iy. apply I; now right.
  - rewrite Forall_forall in *. intros b Ib.
    apply I; [now left | now right | now apply F].
Qed.

(** What [parties.sort(key=lambda x: x.percentage, reverse=True)] does to
    shares that are numbers and not [NaN]: it raises nothing and returns the
    rearrangement with the greatest share first in which parties of equal
    share keep their order. *)
Lemma list_sort_reverse_real_shares `{Dynamic.ListSort}
    (l : list Dynamic.PartyResult) :
  Forall Dynamic.real_share l ->
  exists out,
    Dynamic.list_sort_reverse Dynamic.key_lt l = Ok out
    /\ Permutation l out
    /\ Dynamic.descending out
    /\ forall k, filter (Dynamic.same_percentage k) out
                 = filter (Dynamic.same_percentage k) l.
Proof.
  intro G.
  pose proof (list_sort_reverse_insertion Dynamic.key_lt Dynamic.share_ltb
                Dynamic.real_share l key_lt_real_share share_ltb_asym
                share_ltb_ntrans G) as E.
  eexists. split; [exact E |].
  pose proof (list_sort_reverse_perm _ _ _ E) as P.
  split; [exact P |]. split.
  - unfold Dynamic.descending.
    apply (StronglySorted_among (fun a b => Dynamic.share_ltb a b = false)).
    + intros a b Ia Ib L.
      apply (Permutation_in _ (Permutation_sym P)) in Ia, Ib.
      rewrite Forall_forall in G.
      now rewrite (key_lt_real_share a b (G a Ia) (G b Ib)), L.
    + apply (StronglySorted_rev (fun a b => Dynamic.share_ltb b a = false)).
      apply insertion_sort_is_ordered;
        [exact share_ltb_asym | exact share_ltb_ntrans].
  - intro k. rewrite filter_rev.
    rewrite (insertion_sort_filter Dynamic.share_ltb share_ltb_asym
               share_ltb_ntrans (Dynamic.same_percentage k)
               (same_percentage_level k)).
    now rewrite filter_rev, rev_involutive.
Qed.

(** ** The parser on every value *)

Section DynamicParser.

Context `{DateTime} `{Dynamic.ListSort}.

Lemma dynamic_py_get_Ok (o : Dynamic.value) (k : string) (d v : Dynamic.value) :
  Dynamic.py_get o k d = Ok v ->
  exists m, o = Dynamic.Obj m /\ v = Dynamic.field_or o k d.
Proof.
  destruct o; simpl; intro E; try discriminate.
  injection E as <-. eexists; split; reflexivity.
Qed.

Lemma dynamic_process_election_data_latest (now : datetime) (data : Dynamic.value) :
  Dynamic.process_election_data now data =
  (latest <- Dynamic.read_latest data ;;
   results <- Dynamic.py_get latest "results" (Dynamic.Arr []) ;;
   status_date <- Dynamic.py_get latest "status_date" (Dynamic.Str "") ;;
   if Dynamic.truthy status_date then
     timestamp <- Dynamic.dateutil_parse status_date ;;
     items <- Dynamic.py_iter results ;;
     parties <- Dynamic.for_results data items [] ;;
     parties <- Dynamic.list_sort_reverse Dynamic.key_lt parties ;;
     Ok (Some (Dynamic.mkProcessed _ timestamp parties))
   else Ok None).
Proof.
  unfold Dynamic.process_election_data, Dynamic.read_latest.
  destruct (Dynamic.py_get data "election" (Dynamic.Obj [])) as [election_data |];
    [| reflexivity].
  cbn [bind].
  destruct (Dynamic.py_get election_data "contest" (Dynamic.Arr [Dynamic.Obj []]))
    as [contest_list |]; [| reflexivity].
  cbn [bind].
  destruct (Dynamic.py_index0 contest_list) as [contest |]; [| reflexivity].
  cbn [bind].
  destruct (Dynamic.py_get contest "results_overall" (Dynamic.Obj []))
    as [results_overall |]; reflexivity.
Qed.

(** What a successful run has gone through. *)
Lemma dynamic_process_election_data_Some (now : datetime) (data : Dynamic.value)
    (r : Dynamic.ProcessedElectionData) :
  Dynamic.process_election_data now data = Ok (Some r) ->
  exists met,
    Dynamic.encountered data = Ok met
    /\ Dynamic.list_sort_reverse Dynamic.key_lt met = Ok (Dynamic.parties r).
Proof.
  rewrite dynamic_process_election_data_latest. unfold Dynamic.encountered.
  intro E.
  inv_bind E as latest E0. rewrite E0. cbn [bind].
  inv_bind E as results E1. rewrite E1. cbn [bind].
  inv_bind E as status_date E2.
  destruct (Dynamic.truthy status_date); [| discriminate].
  inv_bind E as ts E3.
  inv_bind E as items E4. rewrite E4. cbn [bind].
  inv_bind E as met E5. rewrite E5.
  inv_bind E as sorted E6.
  injection E as <-. cbn [Dynamic.parties].
  now exists met.
Qed.

End DynamicParser.

Lemma dynamic_next_party_Ok (items : list Dynamic.value)
    (party_id party : Dynamic.value) :
  Dynamic.next_party items party_id = Ok party ->
  match find (fun p => Dynamic.py_eq (Dynamic.field_or p "id" Dynamic.Null) party_id)
             items with
  | Some p => party = p /\ exists m, p = Dynamic.Obj m
  | None => party = Dynamic.Null
  end.
Proof.
  induction items as [| p rest IH]; simpl; intro E.
  - now injection E as <-.
  - inv_bind E as id E0. destruct (dynamic_py_get_Ok _ _ _ _ E0) as (m & -> & ->).
    destruct (Dynamic.py_eq (Dynamic.field_or (Dynamic.Obj m) "id" Dynamic.Null)
                            party_id).
    + injection E as <-. eauto.
    + now apply IH.
Qed.

(** A catalog that is walked without an exception is a list, or is empty. *)
Lemma dynamic_walked_catalog (data catalog : Dynamic.value)
    (items : list Dynamic.value) (party_id party : Dynamic.value) :
  Dynamic.py_get data "parties" (Dynamic.Arr []) = Ok catalog ->
  Dynamic.py_iter catalog = Ok items ->
  Dynamic.next_party items party_id = Ok party ->
  items = Dynamic.catalog_items data.
Proof.
  intros G I N.
  destruct (dynamic_py_get_Ok _ _ _ _ G) as (m & -> & ->).
  unfold Dynamic.catalog_items, Dynamic.field_or in *.
  destruct (Dynamic.field (Dynamic.Obj m) "parties") as [v |];
    [| now injection I as <-].
  destruct v; simpl in I; try discriminate; injection I as <-.
  - destruct s; simpl in *; [reflexivity | discriminate].
  - reflexivity.
  - destruct m0; simpl in *; [reflexivity | discriminate].
Qed.

Lemma dynamic_falsy_not_nonempty_list (x v : Dynamic.value) :
  v = Dynamic.field_or x "percent" Dynamic.Null ->
  Dynamic.truthy v = false -> Dynamic.percent_nonempty x = false.
Proof.
  unfold Dynamic.field_or, Dynamic.percent_nonempty. intros -> T.
  destruct (Dynamic.field x "percent") as [v |]; [| reflexivity].
  destruct v; try reflexivity. destruct l; [reflexivity | discriminate].
Qed.

(** One iteration appends the party the result selects, if it selects one,
    with the values of the document as they are. *)
Lemma dynamic_process_result_Ok (data x : Dynamic.value)
    (acc acc' : list Dynamic.PartyResult) :
  Dynamic.process_result data x acc = Ok acc' ->
  acc' = acc ++ match Dynamic.party_result_of (Dynamic.catalog_items data) x with
                | Some p => [p]
                | None => []
                end.
Proof.
  unfold Dynamic.process_result, Dynamic.party_result_of. intro E.
  inv_bind E as target E0. destruct (dynamic_py_get_Ok _ _ _ _ E0) as (m & -> & ->).
  fold (Dynamic.targets_parties (Dynamic.Obj m)) in E.
  destruct (Dynamic.targets_parties (Dynamic.Obj m)); cbn [andb];
    [| injection E as <-; now rewrite app_nil_r].
  inv_bind E as party_id E1.
  destruct (dynamic_py_get_Ok _ _ _ _ E1) as (_ & _ & ->).
  inv_bind E as catalog E2.
  inv_bind E as items E3.
  inv_bind E as party E4.
  rewrite <- (dynamic_walked_catalog _ _ _ _ _ E2 E3 E4).
  apply dynamic_next_party_Ok in E4.
  fold (Dynamic.id_matches (Dynamic.Obj m)) in E4.
  unfold Dynamic.resolved_party.
  inv_bind E as percent E5.
  destruct (dynamic_py_get_Ok _ _ _ _ E5) as (_ & _ & Hp).
  destruct (Dynamic.truthy percent) eqn:T.
  2:{ injection E as <-.
      rewrite (dynamic_falsy_not_nonempty_list _ _ Hp T). now rewrite app_nil_r. }
  destruct (find (Dynamic.id_matches (Dynamic.Obj m)) items) as [p |].
  2:{ subst party. cbn [Dynamic.truthy] in E. injection E as <-.
      destruct (Dynamic.percent_nonempty (Dynamic.Obj m)); now rewrite app_nil_r. }
  destruct E4 as (-> & mp & ->).
  destruct (Dynamic.truthy (Dynamic.Obj mp)).
  2:{ injection E as <-.
      destruct (Dynamic.percent_nonempty (Dynamic.Obj m)); now rewrite app_nil_r. }
  inv_bind E as abbreviation A1.
  destruct (dynamic_py_get_Ok _ _ _ _ A1) as (_ & _ & ->).
  inv_bind E as percent_list A2.
  destruct (dynamic_py_get_Ok _ _ _ _ A2) as (_ & _ & Hl).
  inv_bind E as first E7.
  inv_bind E as value A3.
  destruct (dynamic_py_get_Ok _ _ _ _ A3) as (mf & -> & ->).
  inv_bind E as absolute A4.
  destruct (dynamic_py_get_Ok _ _ _ _ A4) as (mv & Hv & ->).
  inv_bind E as party_color A5.
  destruct (dynamic_py_get_Ok _ _ _ _ A5) as (_ & _ & ->).
  injection E as <-.
  assert (F : Dynamic.field (Dynamic.Obj m) "percent" = Some percent_list
              /\ exists tl, percent_list = Dynamic.Arr (Dynamic.Obj mf :: tl)).
  { unfold Dynamic.field_or in Hp, Hl.
    destruct (Dynamic.field (Dynamic.Obj m) "percent") as [w |].
    - subst w percent_list. split; [reflexivity |].
      destruct percent; simpl in E7; try discriminate.
      + destruct s; [discriminate | now injection E7].
      + destruct l; [discriminate |]. injection E7 as ->. eauto.
    - subst percent. discriminate. }
  destruct F as (F & tl & ->).
  unfold Dynamic.percent_nonempty, Dynamic.first_percent_absolute. rewrite F.
  reflexivity.
Qed.

Lemma dynamic_for_results_Ok (data : Dynamic.value) (items : list Dynamic.value)
    (acc l : list Dynamic.PartyResult) :
  Dynamic.for_results data items acc = Ok l ->
  l = acc ++ Dynamic.selected_parties (Dynamic.catalog_items data) items
  /\ Forall (fun x => exists m, x = Dynamic.Obj m) items.
Proof.
  revert acc. induction items as [| x rest IH]; simpl; intros acc E.
  - injection E as <-. now rewrite app_nil_r.
  - inv_bind E as acc' E0.
    destruct (IH _ E) as (-> & F).
    rewrite (dynamic_process_result_Ok _ _ _ _ E0), <- app_assoc.
    split; [reflexivity |]. constructor; [| exact F].
    unfold Dynamic.process_result in E0. inv_bind E0 as target E1.
    destruct (dynamic_py_get_Ok _ _ _ _ E1) as (m & -> & _). eauto.
Qed.

(** The entries the loop met are the parties the results select, in the order
    of the results list. *)
Lemma dynamic_encountered_selected (data : Dynamic.value)
    (l : list Dynamic.PartyResult) :
  Dynamic.encountered data = Ok l ->
  exists latest,
    Dynamic.read_latest data = Ok (Dynamic.Obj latest)
    /\ l = Dynamic.selected_parties (Dynamic.catalog_items data)
             (Dynamic.results_items (Dynamic.Obj latest)).
Proof.
  unfold Dynamic.encountered. intro E.
  inv_bind E as latest E0.
  inv_bind E as results E1.
  destruct (dynamic_py_get_Ok _ _ _ _ E1) as (m & -> & ->).
  inv_bind E as items E2.
  destruct (dynamic_for_results_Ok _ _ _ _ E) as (-> & F).
  exists m. split; [assumption |]. cbn [app]. f_equal.
  unfold Dynamic.results_items, Dynamic.field_or in *.
  destruct (Dynamic.field (Dynamic.Obj m) "results") as [v |];
    [| now injection E2 as <-].
  destruct v; simpl in E2; try discriminate; injection E2 as <-.
  - destruct s; [reflexivity |]. simpl in F.
    apply Forall_inv in F. destruct F as (? & F). discriminate.
  - reflexivity.
  - destruct m0; [reflexivity |]. simpl in F.
    apply Forall_inv in F. destruct F as (? & F). discriminate.
Qed.

Lemma dynamic_selected_parties_In (catalog items : list Dynamic.value)
    (p : Dynamic.PartyResult) :
  In p (Dynamic.selected_parties catalog items) ->
  exists x, In x items /\ Dynamic.party_result_of catalog x = Some p.
Proof.
  unfold Dynamic.selected_parties. intro I. apply in_flat_map in I.
  destruct I as (x & Ix & Ip). exists x. split; [exact Ix |].
  destruct (Dynamic.party_result_of catalog x) as [p' |]; [| contradiction].
  destruct Ip as [-> | []]. reflexivity.
Qed.


(** ** The claims on the parties of a snapshot *)

Section DynamicParserClaims.

Context `{DateTime} `{Dynamic.ListSort}.

(** C2 (amended).  When the parser returns a snapshot and every share in it
    is a number other than [NaN], its parties are the entries the loop met,
    which are the selected results in the order of the results list,
    rearranged so that no party stands before one with a greater share; and
    for every value the parties whose share equals it stand in the order in
    which the loop met them. *)
Theorem parties_sorted_descending_stable (now : datetime) (data : Dynamic.value)
    (r : Dynamic.ProcessedElectionData) :
  Dynamic.process_election_data now data = Ok (Some r) ->
  Forall Dynamic.real_share (Dynamic.parties r) ->
  exists latest met,
    Dynamic.read_latest data = Ok (Dynamic.Obj latest)
    /\ met = Dynamic.selected_parties (Dynamic.catalog_items data)
               (Dynamic.results_items (Dynamic.Obj latest))
    /\ Dynamic.encountered data = Ok met
    /\ Permutation met (Dynamic.parties r)
    /\ Dynamic.descending (Dynamic.parties r)
    /\ forall k, filter (Dynamic.same_percentage k) (Dynamic.parties r)
                 = filter (Dynamic.same_percentage k) met.
Proof.
  intros E G.
  destruct (dynamic_process_election_data_Some _ _ _ E) as (met & M & S).
  destruct (dynamic_encountered_selected _ _ M) as (latest & L & Hmet).
  pose proof (list_sort_reverse_perm _ _ _ S) as P.
  assert (Gm : Forall Dynamic.real_share met)
    by (eapply Permutation_Forall; [apply Permutation_sym, P | exact G]).
  destruct (list_sort_reverse_real_shares met Gm) as (out & S' & _ & D & F).
  rewrite S in S'. injection S' as <-.
  exists latest, met. repeat split; assumption.
Qed.


(** No party is invented: every party of a snapshot has as percentage the
    value of a result that targets "parties", and as name and color the
    values of a catalog entry with the identifier of that result, whatever
    these values are ("" and "000000" when the entry has none). *)
Theorem parties_come_from_results_and_catalog (now : datetime)
    (data : Dynamic.value) (r : Dynamic.ProcessedElectionData) :
  Dynamic.process_election_data now data = Ok (Some r) ->
  exists latest,
    Dynamic.read_latest data = Ok (Dynamic.Obj latest)
    /\ forall p, In p (Dynamic.parties r) ->
         exists x e,
           In x (Dynamic.results_items (Dynamic.Obj latest))
           /\ In e (Dynamic.catalog_items data)
           /\ Dynamic.targets_parties x = true
           /\ Dynamic.id_matches x e = true
           /\ Dynamic.name p = Dynamic.field_or e "abbreviation" (Dynamic.Str "")
           /\ Dynamic.color p = Dynamic.field_or e "color" (Dynamic.Str "000000")
           /\ Dynamic.percentage p = Dynamic.first_percent_absolute x.
Proof.
  intro E.
  destruct (dynamic_process_election_data_Some _ _ _ E) as (met & M & S).
  destruct (dynamic_encountered_selected _ _ M) as (latest & L & ->).
  pose proof (list_sort_reverse_perm _ _ _ S) as P.
  exists latest. split; [exact L |]. intros p Ip.
  apply (Permutation_in _ (Permutation_sym P)) in Ip.
  destruct (dynamic_selected_parties_In _ _ _ Ip) as (x & Ix & Px).
  unfold Dynamic.party_result_of, Dynamic.resolved_party in Px.
  destruct (Dynamic.targets_parties x) eqn:T; [| discriminate].
  destruct (Dynamic.percent_nonempty x); [| discriminate]. cbn [andb] in Px.
  destruct (find (Dynamic.id_matches x) (Dynamic.catalog_items data)) as [e |] eqn:Fi;
    [| discriminate].
  destruct (Dynamic.truthy e); [| discriminate].
  injection Px as <-. apply find_some in Fi. destruct Fi as (Ie & Me).
  exists x, e. repeat split; assumption.
Qed.

End DynamicParserClaims.

(** ** The claims on the parties, on example documents *)

Lemma parties_sorted_descending_stable_witness :
  Dynamic.process_election_data SampleClock.noon (Dynamic.lift tied_parties)
  = Ok (Some (Dynamic.mkProcessed _ half_past_noon tied_parties_values))
  /\ Forall Dynamic.real_share tied_parties_values
  /\ Dynamic.descending tied_parties_values
  /\ exists met,
       Dynamic.encountered (Dynamic.lift tied_parties) = Ok met
       /\ filter (Dynamic.same_percentage (Dynamic.Num (Dynamic.Finite 40)))
                 tied_parties_values
          = filter (Dynamic.same_percentage (Dynamic.Num (Dynamic.Finite 40))) met.
Proof.
  assert (G : Forall Dynamic.real_share tied_parties_values)
    by (repeat constructor; eexists; (split; [reflexivity | discriminate])).
  split; [reflexivity |]. split; [exact G |].
  destruct (parties_sorted_descending_stable (H := SampleClock.clock) (H0 := short_lists)
              SampleClock.noon (Dynamic.lift tied_parties)
              (Dynamic.mkProcessed SampleClock.clock half_past_noon
                                   tied_parties_values)
              eq_refl G)
    as (latest & met & _ & _ & M & _ & D & F).
  split; [exact D |]. exists met. split; [exact M | apply F].
Defined.

(** A share of [Infinity] is a number like any other: it goes first, and
    the two parties at 40 keep their order. *)
Example infinite_share_first :
  Dynamic.process_election_data SampleClock.noon infinite_share
  = Ok (Some (Dynamic.mkProcessed _ half_past_noon
                [party_value "B" Dynamic.PosInf "0000FF";
                 party_value "A" (Dynamic.Finite 40) "FF0000";
                 party_value "C" (Dynamic.Finite 40) "00FFFF"])).
Proof. reflexivity. Qed.

(** C2 as stated fails.  The parser returns a snapshot for the document with
    the shares 1, [NaN] and 2, and its parties stand as the loop met them:
    the party with 1 before the party with 2, which is greater.  Every
    comparison with [NaN] is false, so [list.sort] finds nothing to move. *)
Lemma nan_share_not_descending :
  Dynamic.process_election_data SampleClock.noon nan_share
  = Ok (Some (Dynamic.mkProcessed _ half_past_noon nan_share_parties))
  /\ nth_error nan_share_parties 0 = Some (party_value "A" (Dynamic.Finite 1) "FF0000")
  /\ nth_error nan_share_parties 2 = Some (party_value "C" (Dynamic.Finite 2) "00FFFF")
  /\ Dynamic.key_lt (party_value "A" (Dynamic.Finite 1) "FF0000")
                    (party_value "C" (Dynamic.Finite 2) "00FFFF") = Ok true
  /\ ~ Dynamic.descending nan_share_parties.
Proof.
  repeat split.
  intro D. apply StronglySorted_inv in D. destruct D as [_ F].
  apply Forall_inv_tail, Forall_inv in F. discriminate.
Defined.



Lemma parties_come_from_results_and_catalog_witness :
  Dynamic.process_election_data SampleClock.noon null_abbreviation
  = Ok (Some (Dynamic.mkProcessed _ half_past_noon
                [Dynamic.mkPartyResult Dynamic.Null (Dynamic.Num (Dynamic.Finite 10))
                                       (Dynamic.Str "FF0000")]))
  /\ exists x e,
       In e (Dynamic.catalog_items null_abbreviation)
       /\ Dynamic.id_matches x e = true
       /\ Dynamic.Null = Dynamic.field_or e "abbreviation" (Dynamic.Str "")
       /\ Dynamic.Num (Dynamic.Finite 10) = Dynamic.first_percent_absolute x.
Proof.
  split; [reflexivity |].
  destruct (parties_come_from_results_and_catalog (H := SampleClock.clock) (H0 := short_lists)
              SampleClock.noon null_abbreviation _ eq_refl)
    as (latest & _ & F).
  destruct (F (Dynamic.mkPartyResult Dynamic.Null (Dynamic.Num (Dynamic.Finite 10))
                                     (Dynamic.Str "FF0000")))
    as (x & e & _ & Ie & _ & Me & N & _ & Pc); [now left |].
  exists x, e. repeat split; assumption.
Defined.

(** * The typed model and the values of Python *)

Lemma json_nested_ind (P : json -> Prop) :
  P JNull -> (forall b, P (JBool b)) -> (forall q, P (JNum q)) ->
  (forall s, P (JStr s)) ->
  (forall l, Forall P l -> P (JArr l)) ->
  (forall m, Forall (fun kv => P (snd kv)) m -> P (JObj m)) ->
  forall v, P v.
Proof.
  intros HN HB HQ HS HA HO.
  fix IH 1. intros [| b | q | s | l | m].
  - exact HN.
  - apply HB.
  - apply HQ.
  - apply HS.
  - apply HA. induction l as [| x l IHl]; constructor; [apply IH | exact IHl].
  - apply HO. induction m as [| kv m IHm]; constructor; [apply IH | exact IHm].
Qed.

Lemma same_or_lift (equals : Dynamic.value -> bool) (a : json) (b : Dynamic.value) :
  Dynamic.same_or equals (Dynamic.lift a) b = equals b.
Proof. destruct a; reflexivity. Qed.

Lemma assoc_lift (k : string) (m : list (string * json)) :
  Dynamic.assoc k (map (fun kv => (fst kv, Dynamic.lift (snd kv))) m)
  = option_map Dynamic.lift (assoc k m).
Proof.
  induction m as [| [k' v] m IH]; simpl; [reflexivity |].
  destruct (String.eqb k k'); [reflexivity | exact IH].
Qed.

Lemma py_eq_lift (a b : json) :
  Dynamic.py_eq (Dynamic.lift a) (Dynamic.lift b) = py_eq a b.
Proof.
  revert b. induction a as [| x | p | s | l IH | m IH] using json_nested_ind;
    intros [| y | q | t | l' | m']; try reflexivity.
  - cbn [Dynamic.lift Dynamic.py_eq py_eq].
    revert l'. induction IH as [| x l Hx _ IHl]; intros [| y l']; try reflexivity.
    cbn [map]. rewrite same_or_lift, Hx. f_equal. apply IHl.
  - cbn [Dynamic.lift Dynamic.py_eq py_eq]. rewrite !length_map. f_equal.
    induction IH as [| [k v] m Hv _ IHm]; [reflexivity |].
    cbn [map fst snd]. rewrite assoc_lift. cbn [snd] in Hv.
    destruct (assoc k m') as [v' |]; cbn [option_map];
      [rewrite same_or_lift, Hv |]; f_equal; exact IHm.
Qed.

Lemma followed_by_bind {A B A' B' : Type} (R : A -> B -> Prop) (S : A' -> B' -> Prop)
    (t : result A) (d : result B) (k : A -> result A') (k' : B -> result B') :
  followed_by R t d ->
  (forall a b, R a b -> followed_by S (k a) (k' b)) ->
  followed_by S (bind t k) (bind d k').
Proof.
  unfold followed_by at 1. destruct t as [a | e].
  - intros (b & -> & Rab) K. cbn [bind]. now apply K.
  - intros [-> | ->] _; cbn [bind followed_by]; [now left | now right].
Qed.

Lemma truthy_lift (v : json) : Dynamic.truthy (Dynamic.lift v) = truthy v.
Proof. destruct v as [| b | q | s | [| x l] | [| kv m]]; reflexivity. Qed.

Lemma py_get_lift (o : json) (k : string) (d : json) :
  followed_by lifted (py_get o k d)
              (Dynamic.py_get (Dynamic.lift o) k (Dynamic.lift d)).
Proof.
  destruct o; cbn [py_get Dynamic.py_get Dynamic.lift followed_by];
    try (now right).
  eexists. split; [reflexivity |]. unfold lifted. rewrite assoc_lift.
  now destruct (assoc k m).
Qed.

Lemma py_index0_lift (o : json) :
  followed_by lifted (py_index0 o) (Dynamic.py_index0 (Dynamic.lift o)).
Proof.
  destruct o as [| b | q | s | [| x l] | m];
    cbn [py_index0 Dynamic.py_index0 Dynamic.lift followed_by map];
    try (now right); try (eexists; split; reflexivity).
  destruct s; cbn [followed_by]; [now right | eexists; split; reflexivity].
Qed.

Lemma chars_lift (s : string) : Dynamic.chars s = map Dynamic.lift (chars s).
Proof. induction s as [| c s IH]; simpl; [reflexivity | now rewrite IH]. Qed.

Lemma py_iter_lift (o : json) :
  followed_by (fun l l' => l' = map Dynamic.lift l)
              (py_iter o) (Dynamic.py_iter (Dynamic.lift o)).
Proof.
  destruct o; cbn [py_iter Dynamic.py_iter Dynamic.lift followed_by];
    try (now right); eexists; (split; [reflexivity |]).
  - apply chars_lift.
  - reflexivity.
  - rewrite !map_map. reflexivity.
Qed.

Lemma next_party_lift (items : list json) (party_id : json) :
  followed_by lifted (next_party items party_id)
              (Dynamic.next_party (map Dynamic.lift items) (Dynamic.lift party_id)).
Proof.
  induction items as [| p rest IH]; cbn [next_party Dynamic.next_party map].
  - eexists. split; reflexivity.
  - apply (followed_by_bind lifted); [apply (py_get_lift p "id" JNull) |].
    intros id id' ->. rewrite py_eq_lift.
    destruct (py_eq id party_id); [| exact IH].
    eexists. split; reflexivity.
Qed.

Lemma process_result_lift (data x : json) (acc : list PartyResult)
    (acc' : list Dynamic.PartyResult) :
  Forall2 stands_for acc acc' ->
  followed_by (Forall2 stands_for) (process_result data x acc)
              (Dynamic.process_result (Dynamic.lift data) (Dynamic.lift x) acc').
Proof.
  intro F. unfold process_result, Dynamic.process_result.
  assert (Same : followed_by (Forall2 stands_for) (Ok acc) (Ok acc'))
    by (eexists; split; [reflexivity | exact F]).
  apply (followed_by_bind lifted); [apply (py_get_lift x "target" JNull) |].
  intros target ? ->.
  change (Dynamic.Str "parties") with (Dynamic.lift (JStr "parties")).
  rewrite py_eq_lift.
  destruct (py_eq target (JStr "parties")); [| exact Same].
  apply (followed_by_bind lifted); [apply (py_get_lift x "target_id" JNull) |].
  intros party_id ? ->.
  apply (followed_by_bind lifted); [apply (py_get_lift data "parties" (JArr [])) |].
  intros catalog ? ->.
  apply (followed_by_bind (fun l l' => l' = map Dynamic.lift l));
    [apply py_iter_lift |].
  intros items ? ->.
  apply (followed_by_bind lifted); [apply next_party_lift |].
  intros party ? ->.
  apply (followed_by_bind lifted); [apply (py_get_lift x "percent" JNull) |].
  intros percent ? ->. rewrite !truthy_lift.
  destruct (truthy percent); [| exact Same].
  destruct (truthy party); [| exact Same].
  apply (followed_by_bind lifted);
    [apply (py_get_lift party "abbreviation" (JStr "")) |].
  intros abbreviation ? ->.
  apply (followed_by_bind lifted);
    [apply (py_get_lift x "percent" (JArr [JObj []])) |].
  intros percent_list ? ->.
  apply (followed_by_bind lifted); [apply py_index0_lift |].
  intros first ? ->.
  apply (followed_by_bind lifted); [apply (py_get_lift first "value" (JObj [])) |].
  intros value ? ->.
  apply (followed_by_bind lifted); [apply (py_get_lift value "absolute" (JNum 0)) |].
  intros absolute ? ->.
  apply (followed_by_bind lifted);
    [apply (py_get_lift party "color" (JStr "000000")) |].
  intros party_color ? ->.
  destruct abbreviation as [| | | n | |]; cbn [as_str bind followed_by];
    try (now left).
  assert (Share : forall q, as_float absolute = Ok q ->
                            Dynamic.as_number (Dynamic.lift absolute)
                            = Some (Dynamic.Finite q)).
  { intros pct E. destruct absolute; simpl in *; try discriminate;
      now injection E as <-. }
  destruct (as_float absolute) as [pct |] eqn:Ef; cbn [bind followed_by].
  2:{ destruct absolute; simpl in Ef; try discriminate; injection Ef as <-;
        now left. }
  destruct party_color as [| | | c | |]; cbn [as_str bind followed_by];
    try (now left).
  eexists. split; [reflexivity |].
  apply Forall2_app; [exact F |].
  constructor; [| constructor].
  unfold stands_for. cbn. repeat split. now apply Share.
Qed.

Lemma for_results_lift (data : json) (items : list json) (acc : list PartyResult)
    (acc' : list Dynamic.PartyResult) :
  Forall2 stands_for acc acc' ->
  followed_by (Forall2 stands_for) (for_results data items acc)
              (Dynamic.for_results (Dynamic.lift data) (map Dynamic.lift items) acc').
Proof.
  revert acc acc'. induction items as [| x rest IH]; intros acc acc' F;
    cbn [for_results Dynamic.for_results map].
  - eexists. split; [reflexivity | exact F].
  - apply (followed_by_bind (Forall2 stands_for));
      [now apply process_result_lift |].
    intros a b Fab. now apply IH.
Qed.

Lemma Forall2_reversed {A B : Type} (R : A -> B -> Prop) (l : list A) (l' : list B) :
  Forall2 R l l' -> Forall2 R (rev l) (rev l').
Proof.
  induction 1 as [| x y l l' Rxy F IH]; simpl; [constructor |].
  apply Forall2_app; [exact IH |]. constructor; [exact Rxy | constructor].
Qed.

Lemma stands_for_real_share (p : PartyResult) (d : Dynamic.PartyResult) :
  stands_for p d -> Dynamic.real_share d.
Proof.
  intros (_ & E & _). eexists. split; [exact E | discriminate].
Qed.

Lemma stands_for_ltb (p q : PartyResult) (d e : Dynamic.PartyResult) :
  stands_for p d -> stands_for q e ->
  Dynamic.share_ltb d e = Qltb (percentage p) (percentage q).
Proof.
  intros (_ & Ed & _) (_ & Ee & _).
  unfold Dynamic.share_ltb, Dynamic.share_rank. now rewrite Ed, Ee.
Qed.

Lemma insert_right_followed (x : PartyResult) (d : Dynamic.PartyResult)
    (l : list PartyResult) (l' : list Dynamic.PartyResult) :
  stands_for x d -> Forall2 stands_for l l' ->
  Forall2 stands_for (insert_right x l) (Dynamic.insert_behind Dynamic.share_ltb d l').
Proof.
  intros Rx F. induction F as [| y e l l' Ry F IH];
    cbn [insert_right Dynamic.insert_behind].
  - constructor; [exact Rx | constructor].
  - rewrite (stands_for_ltb _ _ _ _ Rx Ry).
    destruct (Qltb (percentage x) (percentage y)).
    + constructor; [exact Rx |]. constructor; [exact Ry | exact F].
    + constructor; [exact Ry | exact IH].
Qed.

Lemma list_sort_followed (l : list PartyResult) (l' : list Dynamic.PartyResult) :
  Forall2 stands_for l l' ->
  Forall2 stands_for (list_sort l) (Dynamic.insertion_sort Dynamic.share_ltb l').
Proof.
  unfold list_sort, Dynamic.insertion_sort.
  assert (G : forall acc acc', Forall2 stands_for acc acc' ->
                               Forall2 stands_for l l' ->
            Forall2 stands_for
              (fold_left (fun acc x => insert_right x acc) l acc)
              (fold_left (fun acc x => Dynamic.insert_behind Dynamic.share_ltb x acc)
                         l' acc')).
  { intros acc acc' Fa F. revert acc acc' Fa.
    induction F as [| x d l l' Rx F IH]; intros acc acc' Fa; cbn [fold_left];
      [exact Fa |].
    apply IH. now apply insert_right_followed. }
  intro F. apply G; [constructor | exact F].
Qed.

(** On typed records the two models of [list.sort] agree. *)
Lemma list_sort_reverse_lift `{Dynamic.ListSort} (l : list PartyResult)
    (l' : list Dynamic.PartyResult) :
  Forall2 stands_for l l' ->
  followed_by (Forall2 stands_for) (Ok (list_sort_reverse l))
              (Dynamic.list_sort_reverse Dynamic.key_lt l').
Proof.
  intro F. cbn [followed_by].
  assert (G : Forall Dynamic.real_share l').
  { clear -F. induction F as [| x d l l' Rx F IH]; constructor;
      [now apply (stands_for_real_share x) | exact IH]. }
  rewrite (list_sort_reverse_insertion Dynamic.key_lt Dynamic.share_ltb
             Dynamic.real_share l' key_lt_real_share share_ltb_asym
             share_ltb_ntrans G).
  eexists. split; [reflexivity |].
  unfold list_sort_reverse.
  now apply Forall2_reversed, list_sort_followed, Forall2_reversed.
Qed.

Section TypedModel.

Context `{DateTime} `{Dynamic.ListSort}.

Lemma dateutil_parse_lift (v : json) :
  followed_by eq (dateutil_parse v) (Dynamic.dateutil_parse (Dynamic.lift v)).
Proof.
  destruct v; cbn [dateutil_parse Dynamic.dateutil_parse Dynamic.lift followed_by];
    try (now right).
  destruct (parser_parse s); cbn [followed_by]; [eauto | now right].
Qed.

(** What the typed model returns for a document, the parser returns for it
    on the values of Python: no snapshot when the typed model returns none,
    and otherwise a snapshot with the same timestamp whose parties are those
    of the typed snapshot, one by one; and an exception of the typed model,
    other than the stop at a value outside the declared types, is the
    exception of the parser. *)
Theorem typed_parser_followed (now : datetime) (data : json) :
  followed_by
    (fun typed untyped =>
       match typed with
       | None => untyped = None
       | Some r =>
           exists d, untyped = Some d
                     /\ Dynamic.timestamp d = timestamp r
                     /\ Forall2 stands_for (parties r) (Dynamic.parties d)
       end)
    (process_election_data now data)
    (Dynamic.process_election_data now (Dynamic.lift data)).
Proof.
  unfold process_election_data, Dynamic.process_election_data.
  apply (followed_by_bind lifted); [apply (py_get_lift data "election" (JObj [])) |].
  intros election_data ? L; unfold lifted in L; subst.
  apply (followed_by_bind lifted);
    [apply (py_get_lift election_data "contest" (JArr [JObj []])) |].
  intros contest_list ? L; unfold lifted in L; subst.
  apply (followed_by_bind lifted); [apply py_index0_lift |].
  intros contest ? L; unfold lifted in L; subst.
  apply (followed_by_bind lifted);
    [apply (py_get_lift contest "results_overall" (JObj [])) |].
  intros results_overall ? L; unfold lifted in L; subst.
  apply (followed_by_bind lifted);
    [apply (py_get_lift results_overall "latest" (JObj [])) |].
  intros latest ? L; unfold lifted in L; subst.
  apply (followed_by_bind lifted); [apply (py_get_lift latest "results" (JArr [])) |].
  intros results ? L; unfold lifted in L; subst.
  apply (followed_by_bind lifted);
    [apply (py_get_lift latest "status_date" (JStr "")) |].
  intros status_date ? L; unfold lifted in L; subst. rewrite truthy_lift.
  destruct (truthy status_date); [| eexists; split; reflexivity].
  apply (followed_by_bind eq); [apply dateutil_parse_lift |].
  intros ts ? <-.
  apply (followed_by_bind (fun l l' => l' = map Dynamic.lift l));
    [apply py_iter_lift |].
  intros items ? L; unfold lifted in L; subst.
  apply (followed_by_bind (Forall2 stands_for));
    [apply for_results_lift; constructor |].
  intros met met' F.
  destruct (list_sort_reverse_lift met met' F) as (sorted & -> & Fs).
  cbn [bind followed_by]. eexists. split; [reflexivity |].
  eexists. repeat split. exact Fs.
Qed.

End TypedModel.
